(** * Polymarket paper-trading bot: evaluation pipeline

    A shallow embedding of the evaluation pipeline of the repository
    (temporal filter, prediction engine with its memo cache, edge gate,
    risk gate, ledger statistics) together with the properties its
    specification states about it.

    Conventions of the embedding.
    - Python [float] values are exact rationals ([Q]); binary rounding of
      float arithmetic is not represented.  [round(x, 2)] is rounding to
      the nearest hundredth, ties to even.
    - Python [str] values are [string]; case folding and the digit class
      are the ASCII ones.
    - A [dict] read with [.get(key, default)] is a record of optional
      fields ([None] = key absent); a [dict] used as a table is a [gmap],
      and one the code iterates over is the list of its items in
      insertion order.
    - Effects are explicit: the predictor carries its cache and the log
      of searches it ran, the trader carries its predictor and ledger,
      the text an external search returns and the clock are inputs.
    - A Python exception that leaves a function is the [Raise] result.  *)

From Stdlib Require Import ZArith QArith Qround Qabs Qminmax Lqa Lia.
From Stdlib Require Import String Ascii List DecimalString.
From Stdlib Require Import Sorted Permutation.
From stdpp Require Import base gmap strings.
Import ListNotations.

(* ================================================================== *)
(** ** Python built-ins used by the sources                            *)
(* ================================================================== *)

Module Py.

Local Open Scope Q_scope.

(** [round(x)] to an integer, ties to even. *)
Definition round_half_even (x : Q) : Z :=
  let f := Qfloor x in
  match Qcompare (x - inject_Z f) (1 # 2) with
  | Lt => f
  | Gt => (f + 1)%Z
  | Eq => if Z.even f then f else (f + 1)%Z
  end.

(** [round(x, 2)]. *)
Definition round2 (x : Q) : Q := inject_Z (round_half_even (x * 100)) / 100.

Local Close Scope Q_scope.

(** [c.lower()] on one character. *)
Definition lower_ascii (c : ascii) : ascii :=
  let n := nat_of_ascii c in
  if (65 <=? n)%nat && (n <=? 90)%nat then ascii_of_nat (n + 32) else c.

(** [s.lower()]. *)
Fixpoint lower (s : string) : string :=
  match s with
  | EmptyString => EmptyString
  | String c s' => String (lower_ascii c) (lower s')
  end.

(** [sub in s]. *)
Fixpoint contains (sub s : string) : bool :=
  if String.prefix sub s then true
  else match s with
       | EmptyString => false
       | String _ s' => contains sub s'
       end.

(** [any(w in s for w in words)]. *)
Definition any_in (words : list string) (s : string) : bool :=
  existsb (fun w => contains w s) words.

(** [sum(1 for w in words if w in s)]. *)
Definition count_in (words : list string) (s : string) : nat :=
  List.length (List.filter (fun w => contains w s) words).

(** [s.replace(old, new)] for a non-empty [old]: occurrences are replaced
    left to right without overlap.  [skip] counts the characters of an
    occurrence that is being dropped. *)
Fixpoint replace_from (old new : string) (skip : nat) (s : string) : string :=
  match s with
  | EmptyString => EmptyString
  | String c s' =>
      match skip with
      | S k => replace_from old new k s'
      | O =>
          if String.prefix old s
          then String.append new (replace_from old new (String.length old - 1) s')
          else String c (replace_from old new 0 s')
      end
  end.

Definition replace (old new s : string) : string := replace_from old new 0 s.

(** Whitespace as [str.strip()] and the regex class [\s] see it. *)
Definition is_space (c : ascii) : bool :=
  let n := nat_of_ascii c in
  ((9 <=? n)%nat && (n <=? 13)%nat) || ((28 <=? n)%nat && (n <=? 32)%nat).

Fixpoint lstrip (s : string) : string :=
  match s with
  | EmptyString => EmptyString
  | String c s' => if is_space c then lstrip s' else s
  end.

Fixpoint rstrip (s : string) : string :=
  match s with
  | EmptyString => EmptyString
  | String c s' =>
      match rstrip s' with
      | EmptyString => if is_space c then EmptyString else String c EmptyString
      | r => String c r
      end
  end.

(** [s.strip()]. *)
Definition strip (s : string) : string := rstrip (lstrip s).

(** [s[:n]]. *)
Definition take (n : nat) (s : string) : string := String.substring 0 n s.

(** The regex class [\d]. *)
Definition is_digit (c : ascii) : bool :=
  let n := nat_of_ascii c in (48 <=? n)%nat && (n <=? 57)%nat.

Definition digit_value (c : ascii) : Z := Z.of_nat (nat_of_ascii c) - 48.

(** [int(s)] for a string of digits. *)
Definition int_of_digits (s : string) : Z :=
  fold_left (fun acc c => acc * 10 + digit_value c)%Z (list_ascii_of_string s) 0%Z.

(** [c.upper()] on one character of ASCII. *)
Definition upper_ascii (c : ascii) : ascii :=
  let n := nat_of_ascii c in
  if (97 <=? n)%nat && (n <=? 122)%nat then ascii_of_nat (n - 32) else c.

(** [s.upper()] on ASCII text: the letters a-z are mapped, every other
    character is left as it is.  (Python also maps letters outside
    ASCII, some of them to ASCII letters.) *)
Fixpoint upper (s : string) : string :=
  match s with
  | EmptyString => EmptyString
  | String c s' => String (upper_ascii c) (upper s')
  end.

(** [str(n)] for a natural number. *)
Definition str_of_nat (n : nat) : string :=
  NilEmpty.string_of_uint (Nat.to_uint n).

(** A [dict] with string keys that the code iterates over: its items,
    with distinct keys, in insertion order.  [d.get(k)]: *)
Definition dict_get {V : Type} (k : string) (d : list (string * V)) : option V :=
  match List.find (fun kv => String.eqb (fst kv) k) d with
  | Some kv => Some (snd kv)
  | None => None
  end.

(** [d[k] = v]: a known key keeps its place, a new one goes last. *)
Definition dict_set {V : Type} (k : string) (v : V) (d : list (string * V))
  : list (string * V) :=
  match dict_get k d with
  | Some _ => map (fun kv => if String.eqb (fst kv) k then (k, v) else kv) d
  | None => d ++ [(k, v)]
  end.

(** [del d[k]] for a key of [d]. *)
Definition dict_del {V : Type} (k : string) (d : list (string * V))
  : list (string * V) :=
  List.filter (fun kv => negb (String.eqb (fst kv) k)) d.

End Py.

(* ================================================================== *)
(** ** The three regular expressions of the sources                    *)
(* ================================================================== *)

Module Re.

(** [re.findall(r'20\d\d', s)]: the matches found by one left-to-right
    scan; after a match the scan resumes behind it ([skip] counts the
    characters of the match still to be passed over). *)
Fixpoint findall_year_from (skip : nat) (s : string) : list string :=
  match s with
  | EmptyString => []
  | String _ s' =>
      match skip with
      | S k => findall_year_from k s'
      | O =>
          match s with
          | String "2" (String "0" (String d1 (String d2 _))) =>
              if Py.is_digit d1 && Py.is_digit d2
              then String "2" (String "0" (String d1 (String d2 EmptyString)))
                   :: findall_year_from 3 s'
              else findall_year_from 0 s'
          | _ => findall_year_from 0 s'
          end
      end
  end.

Definition findall_year (s : string) : list string := findall_year_from 0 s.

Definition newline : ascii := ascii_of_nat 10.

(** Length of the shortest match of [.*?\*\*] at the head of [s]; the dot
    stops at a newline. *)
Fixpoint lazy_to_stars (s : string) : option nat :=
  if String.prefix "**" s then Some 2%nat
  else match s with
       | EmptyString => None
       | String c s' =>
           if Ascii.eqb c newline then None
           else option_map S (lazy_to_stars s')
       end.

(** Length of the match of [- \*\*.+?\*\*] at the head of [s], if any. *)
Definition source_match (s : string) : option nat :=
  match s with
  | String "-" (String " " (String "*" (String "*" (String c r)))) =>
      if Ascii.eqb c newline then None
      else option_map (fun n => (5 + n)%nat) (lazy_to_stars r)
  | _ => None
  end.

(** [len(re.findall(r'- \*\*.+?\*\*', s))]. *)
Fixpoint count_sources_from (skip : nat) (s : string) : nat :=
  match s with
  | EmptyString => 0
  | String _ s' =>
      match skip with
      | S k => count_sources_from k s'
      | O =>
          match source_match s with
          | Some n => S (count_sources_from (n - 1) s')
          | None => count_sources_from 0 s'
          end
      end
  end.

Definition count_sources (s : string) : nat := count_sources_from 0 s.

(** The text behind the first occurrence of [pat] in [s]. *)
Fixpoint find_after (pat s : string) : option string :=
  if String.prefix pat s
  then Some (String.substring (String.length pat) (String.length s) s)
  else match s with
       | EmptyString => None
       | String _ s' => find_after pat s'
       end.

(** The head of [s] up to the lookahead [(?=##|$)]. *)
Fixpoint until_hashes (s : string) : string :=
  if String.prefix "##" s then EmptyString
  else match s with
       | EmptyString => EmptyString
       | String c s' => String c (until_hashes s')
       end.

(** [re.search(r'## Answer\s*(.+?)(?=##|$)', s, re.DOTALL)], then
    [group(1).strip()] when it matched.  The group needs one character:
    when only whitespace follows the heading the greedy [\s*] hands its
    last character back and the stripped group is empty; when nothing
    follows the heading there is no match. *)
Definition search_answer (s : string) : option string :=
  match find_after "## Answer" s with
  | None => None
  | Some EmptyString => None
  | Some rest =>
      match Py.lstrip rest with
      | EmptyString => Some EmptyString
      | String c body => Some (Py.strip (String c (until_hashes body)))
      end
  end.

End Re.

(* ================================================================== *)
(** ** [datetime]                                                      *)
(* ================================================================== *)

Module Datetime.

(** A [datetime] value: [wall] is the count of microseconds that its
    date and time fields denote (from 1970-01-01T00:00:00, read without
    any offset); [tzinfo] is its UTC offset in microseconds, [None] for
    a naive value. *)
Record datetime := mk_datetime { wall : Z; tzinfo : option Z }.

Definition usec_per_day : Z := 86400 * 1000000.

(** The instant an aware value denotes. *)
Definition utc_instant (d : datetime) : Z := wall d - default 0%Z (tzinfo d).

(** [d.replace(tzinfo=timezone.utc)]: the fields stay, the offset is
    overwritten. *)
Definition replace_tzinfo_utc (d : datetime) : datetime :=
  {| wall := wall d; tzinfo := Some 0%Z |}.

(** A naive value, as [datetime.now()] returns it: the fields of the
    local wall clock and no [tzinfo]. *)
Definition naive (local_wall : Z) : datetime :=
  {| wall := local_wall; tzinfo := None |}.

(** [a < b] on aware values. *)
Definition ltb (a b : datetime) : bool := (utc_instant a <? utc_instant b)%Z.

(** [(a - b).days] on aware values. *)
Definition sub_days (a b : datetime) : Z :=
  ((utc_instant a - utc_instant b) / usec_per_day)%Z.

(** Days from 1970-01-01 to the civil date [y]-[m]-[d] (proleptic
    Gregorian calendar). *)
Definition days_from_civil (y m d : Z) : Z :=
  let y' := if (m <=? 2)%Z then (y - 1)%Z else y in
  let era := (y' / 400)%Z in
  let yoe := (y' - era * 400)%Z in
  let mp := ((m + 9) mod 12)%Z in
  let doy := ((153 * mp + 2) / 5 + d - 1)%Z in
  let doe := (yoe * 365 + yoe / 4 - yoe / 100 + doy)%Z in
  (era * 146097 + doe - 719468)%Z.

Definition of_fields (y mo d h mi s : Z) (tz : option Z) : datetime :=
  {| wall := ((days_from_civil y mo d * 86400 + h * 3600 + mi * 60 + s) * 1000000)%Z;
     tzinfo := tz |}.

Definition all_digits (s : string) : bool :=
  forallb Py.is_digit (list_ascii_of_string s).

Definition num (n : nat) (from len : nat) (s : string) : option Z :=
  let t := String.substring from len s in
  if (String.length t =? len)%nat && all_digits t
  then Some (Py.int_of_digits t) else None.

Definition char_is (c : string) (i : nat) (s : string) : bool :=
  String.eqb (String.substring i 1 s) c.

(** The offset suffix [+HH:MM] or [-HH:MM], in microseconds. *)
Definition parse_offset (s : string) : option (option Z) :=
  match s with
  | EmptyString => Some None
  | String sg r =>
      if (String.length r =? 5)%nat && char_is ":" 2 r then
        match num 0 0 2 r, num 0 3 2 r with
        | Some h, Some m =>
            let v := ((h * 3600 + m * 60) * 1000000)%Z in
            if Ascii.eqb sg "+" then Some (Some v)
            else if Ascii.eqb sg "-" then Some (Some (- v)%Z)
            else None
        | _, _ => None
        end
      else None
  end.

(** [datetime.fromisoformat] on the shape the listing provider sends,
    [YYYY-MM-DDTHH:MM:SS] with an optional [+HH:MM] or [-HH:MM]; any
    other text is refused here. *)
Definition fromisoformat_basic (s : string) : option datetime :=
  if char_is "-" 4 s && char_is "-" 7 s && char_is "T" 10 s
     && char_is ":" 13 s && char_is ":" 16 s then
    match num 0 0 4 s, num 0 5 2 s, num 0 8 2 s,
          num 0 11 2 s, num 0 14 2 s, num 0 17 2 s,
          parse_offset (String.substring 19 (String.length s) s) with
    | Some y, Some mo, Some d, Some h, Some mi, Some sec, Some tz =>
        if ((1 <=? mo) && (mo <=? 12) && (1 <=? d) && (d <=? 31)
            && (h <=? 23) && (mi <=? 59) && (sec <=? 59))%Z
        then Some (of_fields y mo d h mi sec tz)
        else None
    | _, _, _, _, _, _, _ => None
    end
  else None.

End Datetime.

(* ================================================================== *)
(** ** Predictions                                                     *)
(* ================================================================== *)

(** The dict a predictor returns.  Callers read it with [.get], so each
    key may be absent. *)
Record Prediction := mk_Prediction {
  prob_yes : option Q;
  confidence : option Q;
  reasoning : option string;
  sentiment : option Q;
  answer_preview : option string;
  sources : option (list string)
}.

(* ================================================================== *)
(** ** utils/tavily_predictor.py                                       *)
(* ================================================================== *)

Module TavilyPredictor.

Local Open Scope Q_scope.

(** [f"{x:+.2f}"]. *)
Definition format_signed_2f (x : Q) : string :=
  let n := Z.to_nat (Py.round_half_even (Qabs x * 100)) in
  let frac := (n mod 100)%nat in
  String.append (if Qlt_le_dec x 0 then "-" else "+")
    (String.append (Py.str_of_nat (n / 100))
       (String.append "."
          (String.append (if (frac <? 10)%nat then "0" else "")
             (Py.str_of_nat frac)))).

(** [WebPredictor]: [cache] is [self.cache]; [searches] logs the queries
    handed to [_search] so far, oldest first. *)
Record WebPredictor := mk_WebPredictor {
  cache : gmap string Prediction;
  searches : list string
}.

(** [WebPredictor()]. *)
Definition init : WebPredictor := {| cache := ∅; searches := [] |}.

Definition stopwords : list string :=
  ["will"; "by"; "the"; "in"; "on"; "if"; "?"; "$"; "%"]%string.

Definition context (category : string) : option string :=
  if String.eqb category "crypto" then Some "price prediction forecast 2026"%string
  else if String.eqb category "politics" then Some "polls odds prediction"%string
  else if String.eqb category "sports" then Some "odds prediction"%string
  else if String.eqb category "technology" then Some "forecast"%string
  else None.

Definition _build_query (question category : string) : string :=
  let query :=
    fold_left (fun query word => Py.replace word " " query) stopwords
      (Py.lower question) in
  let query :=
    match context category with
    | Some c => String.append query (String.append " " c)
    | None => query
    end in
  Py.take 100 (Py.strip query).

Definition bullish : list string :=
  ["bull"; "bullish"; "rally"; "surge"; "moon"; "strong"; "higher";
   "growth"; "confident"; "expected"; "likely"; "yes"; "reach";
   "target"; "predict"; "forecast"]%string.

Definition bearish : list string :=
  ["bear"; "bearish"; "crash"; "dump"; "fall"; "lower"; "weak";
   "unlikely"; "doubt"; "correction"; "no"; "bearish"]%string.

Definition _analyze_sentiment (text : string) : Q :=
  let text := Py.lower text in
  let pos := Py.count_in bullish text in
  let neg := Py.count_in bearish text in
  let total := (pos + neg)%nat in
  inject_Z (Z.of_nat pos - Z.of_nat neg) / inject_Z (Z.of_nat (Nat.max total 1)).

Definition _parse_results (text question : string) : Prediction :=
  match text with
  | EmptyString =>
      {| prob_yes := Some 0.5; confidence := Some 0.0;
         reasoning := Some "No search results"%string;
         sentiment := Some 0.0;
         answer_preview := None; sources := None |}
  | _ =>
      let answer :=
        match Re.search_answer text with
        | Some a => Py.take 500 a
        | None => Py.take 500 text
        end in
      let num_sources := Re.count_sources text in
      let sentiment := _analyze_sentiment text in
      let base_prob := 0.5 in
      let adjustment := sentiment * 0.25 in
      let prob_yes := Qmax 0.05 (Qmin 0.95 (base_prob + adjustment)) in
      let confidence :=
        Qmin (0.35 + inject_Z (Z.of_nat num_sources) * 0.08
              + Qabs sentiment * 0.25) 0.85 in
      let tail :=
        String.append " sentiment ("
          (String.append (format_signed_2f sentiment)
             (String.append ") from "
                (String.append (Py.str_of_nat num_sources) " sources"))) in
      let reasoning :=
        if Qlt_le_dec 0.3 sentiment then String.append "Bullish" tail
        else if Qlt_le_dec sentiment (-0.3) then String.append "Bearish" tail
        else String.append "Mixed" tail in
      {| prob_yes := Some (Py.round2 prob_yes);
         confidence := Some (Py.round2 confidence);
         reasoning := Some reasoning;
         sentiment := Some (Py.round2 sentiment);
         answer_preview := Some (Py.take 150 answer);
         sources := None |}
  end.

Definition cache_key (market_question category : string) : string :=
  String.append market_question (String.append "_" category).

Section Search.

(** The search collaborator: [tavily n query] is the text the [n]-th
    search of the process yields for [query], the empty string when
    the tool fails or times out. *)
Variable tavily : nat -> string -> string.

Definition _search (self : WebPredictor) (query : string)
  : string * WebPredictor :=
  (tavily (List.length (searches self)) query,
   {| cache := cache self; searches := searches self ++ [query] |}).

Definition predict (self : WebPredictor) (market_question category : string)
  : Prediction * WebPredictor :=
  let key := cache_key market_question category in
  match cache self !! key with
  | Some p => (p, self)
  | None =>
      let query := _build_query market_question category in
      let '(result, self) := _search self query in
      let prediction := _parse_results result market_question in
      (prediction,
       {| cache := <[key := prediction]> (cache self);
          searches := searches self |})
  end.

End Search.

End TavilyPredictor.

(* ================================================================== *)
(** ** utils/web_predictor.py                                          *)
(* ================================================================== *)

Module WebPredictorStub.

Definition _calculate (question category : string) : Prediction :=
  {| prob_yes := Some 0.5%Q; confidence := Some 0.0%Q;
     reasoning := Some "Implementation needed - requires web search API"%string;
     sentiment := None; answer_preview := None; sources := Some [] |}.

(** This predictor keeps no state. *)
Definition predict (self : unit) (market_question category : string)
  : Prediction * unit :=
  (_calculate market_question category, self).

End WebPredictorStub.

(* ================================================================== *)
(** ** Listing records, paper trades and the ledger                    *)
(* ================================================================== *)

(** A JSON scalar as the provider may send it. *)
Inductive JVal :=
| JNull
| JNum (x : Q)
| JStr (s : string).

(** The value under a market's ["prices"] key: an object, with or
    without a ["yes"] entry, or something that is no object. *)
Inductive PricesField :=
| PricesObj (yes : option JVal)
| PricesOther (v : JVal).

(** A market record.  [None] is an absent key (for the text fields also
    a JSON null); text fields hold strings when present. *)
Record Market := mk_Market {
  m_id : option string;
  m_question : option string;
  m_endDate : option string;
  m_prices : option PricesField;
  m_volume : option JVal;
  m_event_title : option string;
  m_event_end_date : option string
}.

(** An event record with its nested markets. *)
Record Event := mk_Event {
  e_title : option string;
  e_endDate : option string;
  e_markets : option (list Market)
}.

Inductive Direction := YES | NO.

(** The dict [_analyze_market] returns for an accepted market. *)
Record PaperTrade := mk_PaperTrade {
  pt_market_id : string;
  pt_question : string;
  pt_category : string;
  pt_our_prediction : Q;
  pt_market_odds : Q;
  pt_direction : Direction;
  pt_confidence : Q;
  pt_edge : Q;
  pt_sentiment_score : Q;
  pt_reasoning : string;
  pt_trade_size : Q;
  pt_open_time : Datetime.datetime
}.

(** A row of table [paper_predictions]: the inserted columns and the
    nullable resolution columns. *)
Record Row := mk_Row {
  trade : PaperTrade;
  resolve_time : option string;
  outcome : option string;
  resolved_value : option Q;
  pnl : option Q
}.

(** What [_analyze_market] returns: the two tags, [None], or the trade. *)
Inductive Analysis :=
| SKIPPED_DATE
| SKIPPED_YEAR
| NoTrade
| Trade (t : PaperTrade).

(** [Exception] stands for an exception of a collaborator. *)
Inductive Exn := AttributeError | TypeError | Exception.

Inductive result (A : Type) :=
| Return (a : A)
| Raise (e : Exn).
Arguments Return {A} a.
Arguments Raise {A} e.

(** [PaperTrader]: its predictor (of any class with a [predict]
    method), the ledger behind [self.db], and [self.current_year]. *)
Record PaperTrader (P : Type) := mk_PaperTrader {
  predictor : P;
  db : list Row;
  current_year : Z
}.
Arguments mk_PaperTrader {P} _ _ _.
Arguments predictor {P} _.
Arguments db {P} _.
Arguments current_year {P} _.

Definition with_predictor {P} (self : PaperTrader P) (p : P) : PaperTrader P :=
  {| predictor := p; db := db self; current_year := current_year self |}.

(** The two trader scripts share these. *)
Module Trader.

Definition _detect_category (question : string) : string :=
  let q := Py.lower question in
  if Py.any_in ["bitcoin"; "btc"; "crypto"; "ethereum"]%string q then "crypto"%string
  else if Py.any_in ["trump"; "biden"; "election"; "senate"]%string q then "politics"%string
  else if Py.any_in ["super bowl"; "nba"; "nfl"; "championship"]%string q then "sports"%string
  else "other"%string.

(** The flattening loop of [scan_and_predict]. *)
Definition flatten (events : list Event) : list Market :=
  flat_map
    (fun event =>
       map (fun market =>
              {| m_id := m_id market;
                 m_question := m_question market;
                 m_endDate := m_endDate market;
                 m_prices := m_prices market;
                 m_volume := m_volume market;
                 m_event_title := Some (default ""%string (e_title event));
                 m_event_end_date := Some (default ""%string (e_endDate event)) |})
           (default [] (e_markets event)))
    events.

Definition new_row (p : PaperTrade) : Row :=
  {| trade := p; resolve_time := None; outcome := None;
     resolved_value := None; pnl := None |}.

(** [_log_predictions]: one inserted row per prediction, then commit. *)
Definition _log_predictions {P} (self : PaperTrader P)
    (predictions : list PaperTrade) : PaperTrader P :=
  {| predictor := predictor self;
     db := db self ++ map new_row predictions;
     current_year := current_year self |}.

(** [prices = market.get("prices", {})] then [prices.get("yes", 0.5)]. *)
Definition yes_price_of (market : Market) : result JVal :=
  let prices := default (PricesObj None) (m_prices market) in
  match prices with
  | PricesObj yes => Return (default (JNum 0.5) yes)
  | PricesOther _ => Raise AttributeError
  end.

(** From the prediction on, both scripts run the same lines:
    the edge, the gate, direction, size and the returned dict. *)
Definition gate_and_size (market_id question category : string)
    (yes_price : JVal) (prediction : Prediction)
    (opened : Datetime.datetime) : result Analysis :=
  let our_prob := default 0.5%Q (prob_yes prediction) in
  match yes_price with
  | JNum yes_price =>
      let edge := Qabs (our_prob - yes_price) in
      let confidence := default 0%Q (confidence prediction) in
      if Qlt_le_dec edge 0.10 then Return NoTrade
      else if Qlt_le_dec confidence 0.65 then Return NoTrade
      else
        let direction := if Qlt_le_dec yes_price our_prob then YES else NO in
        let trade_size := (10 + confidence * 40)%Q in
        Return (Trade
          {| pt_market_id := market_id;
             pt_question := question;
             pt_category := category;
             pt_our_prediction := our_prob;
             pt_market_odds := yes_price;
             pt_direction := direction;
             pt_confidence := confidence;
             pt_edge := edge;
             pt_sentiment_score := default 0%Q (sentiment prediction);
             pt_reasoning := Py.take 100 (default ""%string (reasoning prediction));
             pt_trade_size := Py.round2 trade_size;
             pt_open_time := opened |})
  | _ => Raise TypeError
  end.

End Trader.

(* ================================================================== *)
(** ** paper_trader_v2.py                                              *)
(* ================================================================== *)

Module PaperTraderV2.

Section WithCollaborators.

(** The predictor's class: [predict self question category] is the
    returned dict, or [None] when the call raises, and the predictor
    afterwards. *)
Context {P : Type}.
Variable predict : P -> string -> string -> option Prediction * P.

(** [datetime.fromisoformat]: [None] when it raises. *)
Variable fromisoformat : string -> option Datetime.datetime.

(** [market.get("endDate") or market.get("event_end_date", "")]. *)
Definition end_date_of (market : Market) : string :=
  match m_endDate market with
  | Some (String c s) => String c s
  | _ => default ""%string (m_event_end_date market)
  end.

(** The date block of [_analyze_market] (the [if end_date:] with its
    [try]): [Some] of what it returns, [None] when control falls
    through to the year check. *)
Definition date_verdict (now : Datetime.datetime) (market : Market)
    (days_ahead : Z) : option Analysis :=
  match end_date_of market with
  | EmptyString => None
  | end_date =>
      match fromisoformat (Py.replace "Z" "+00:00" end_date) with
      | Some parsed =>
          let end_dt := Datetime.replace_tzinfo_utc parsed in
          if Datetime.ltb end_dt now then Some SKIPPED_DATE
          else
            let days_until := Datetime.sub_days end_dt now in
            if (days_ahead <? days_until)%Z then Some NoTrade else None
      | None => None
      end
  end.

(** [now] is the clock reading of the date check, [opened] the one
    stamped on the returned dict. *)
Definition _analyze_market (self : PaperTrader P)
    (now opened : Datetime.datetime) (market : Market) (days_ahead : Z)
  : result Analysis * PaperTrader P :=
  let question := default ""%string (m_question market) in
  let market_id := default ""%string (m_id market) in
  match date_verdict now market days_ahead with
  | Some verdict => (Return verdict, self)
  | None =>
      let years_in_q := Re.findall_year question in
      if existsb (fun year_str =>
                    (Py.int_of_digits year_str <? current_year self)%Z)
                 years_in_q
      then (Return SKIPPED_YEAR, self)
      else
        match Trader.yes_price_of market with
        | Raise e => (Raise e, self)
        | Return yes_price =>
            let category := Trader._detect_category question in
            match predict (predictor self) question category with
            | (None, p) => (Return NoTrade, with_predictor self p)
            | (Some prediction, p) =>
                (Trader.gate_and_size market_id question category
                   yes_price prediction opened,
                 with_predictor self p)
            end
        end
  end.

(** The loop of [scan_and_predict] over the flattened markets; [clock
    i] holds the two clock readings made while market [i] is analysed.
    An exception leaving [_analyze_market] ends the scan. *)
Fixpoint scan_loop (self : PaperTrader P)
    (clock : nat -> Datetime.datetime * Datetime.datetime) (i : nat)
    (markets : list Market) (days_ahead : Z)
    (predictions : list PaperTrade) (skipped_date skipped_year : nat)
  : result (list PaperTrade * nat * nat) * PaperTrader P :=
  match markets with
  | [] => (Return (predictions, skipped_date, skipped_year), self)
  | market :: rest =>
      match _analyze_market self (fst (clock i)) (snd (clock i))
              market days_ahead with
      | (Raise e, self) => (Raise e, self)
      | (Return SKIPPED_DATE, self) =>
          scan_loop self clock (S i) rest days_ahead
            predictions (S skipped_date) skipped_year
      | (Return SKIPPED_YEAR, self) =>
          scan_loop self clock (S i) rest days_ahead
            predictions skipped_date (S skipped_year)
      | (Return (Trade pred), self) =>
          scan_loop self clock (S i) rest days_ahead
            (predictions ++ [pred]) skipped_date skipped_year
      | (Return NoTrade, self) =>
          scan_loop self clock (S i) rest days_ahead
            predictions skipped_date skipped_year
      end
  end.

(** [scan_and_predict]; [events] is what [client.get_events] returned. *)
Definition scan_and_predict (self : PaperTrader P) (events : list Event)
    (clock : nat -> Datetime.datetime * Datetime.datetime) (days_ahead : Z)
  : result (list PaperTrade) * PaperTrader P :=
  let markets := Trader.flatten events in
  match scan_loop self clock 0 markets days_ahead [] 0 0 with
  | (Raise e, self) => (Raise e, self)
  | (Return (predictions, _, _), self) =>
      (Return predictions, Trader._log_predictions self predictions)
  end.

End WithCollaborators.

End PaperTraderV2.

(* ================================================================== *)
(** ** paper_trader.py                                                 *)
(* ================================================================== *)

Module PaperTraderV1.

Section WithCollaborators.

Context {P : Type}.
Variable predict : P -> string -> string -> option Prediction * P.
Variable fromisoformat : string -> option Datetime.datetime.

(** [now] is the reading [datetime.now(timezone.utc)] of the date
    check; [opened] is the local wall clock that [datetime.now()] reads
    for the returned dict, whose [open_time] is naive. *)
Definition _analyze_market (self : PaperTrader P)
    (now : Datetime.datetime) (opened : Z) (market : Market)
  : result Analysis * PaperTrader P :=
  let question := default ""%string (m_question market) in
  let market_id := default ""%string (m_id market) in
  let end_date := default ""%string (m_endDate market) in
  let ended :=
    match end_date with
    | EmptyString => false
    | _ =>
        match fromisoformat (Py.replace "Z" "+00:00" end_date) with
        | Some parsed =>
            Datetime.ltb (Datetime.replace_tzinfo_utc parsed) now
        | None => false
        end
    end in
  if ended then (Return NoTrade, self)
  else
    match Trader.yes_price_of market with
    | Raise e => (Raise e, self)
    | Return yes_price =>
        let category := Trader._detect_category question in
        match predict (predictor self) question category with
        | (None, p) => (Return NoTrade, with_predictor self p)
        | (Some prediction, p) =>
            (Trader.gate_and_size market_id question category
               yes_price prediction (Datetime.naive opened),
             with_predictor self p)
        end
    end.

Fixpoint scan_loop (self : PaperTrader P)
    (clock : nat -> Datetime.datetime * Z) (i : nat)
    (markets : list Market) (predictions : list PaperTrade)
  : result (list PaperTrade) * PaperTrader P :=
  match markets with
  | [] => (Return predictions, self)
  | market :: rest =>
      match _analyze_market self (fst (clock i)) (snd (clock i)) market with
      | (Raise e, self) => (Raise e, self)
      | (Return (Trade pred), self) =>
          scan_loop self clock (S i) rest (predictions ++ [pred])
      | (Return _, self) => scan_loop self clock (S i) rest predictions
      end
  end.

Definition scan_and_predict (self : PaperTrader P) (events : list Event)
    (clock : nat -> Datetime.datetime * Z)
  : result (list PaperTrade) * PaperTrader P :=
  let markets := Trader.flatten events in
  match scan_loop self clock 0 markets [] with
  | (Raise e, self) => (Raise e, self)
  | (Return predictions, self) =>
      (Return predictions, Trader._log_predictions self predictions)
  end.

End WithCollaborators.

(** The dict [get_stats] returns. *)
Record Stats := mk_Stats {
  total_predictions : Z;
  wins : Z;
  losses : Z;
  win_rate : Q;
  total_pnl : Q
}.

(** SQL [SUM] over integers: NULL on no rows. *)
Definition sql_sum_int (xs : list Z) : option Z :=
  match xs with
  | [] => None
  | _ => Some (fold_right Z.add 0%Z xs)
  end.

(** SQL [SUM] over a nullable real column: NULLs are passed over, the
    sum is NULL when nothing is left. *)
Definition sql_sum_real (xs : list (option Q)) : option Q :=
  match omap id xs with
  | [] => None
  | ys => Some (fold_right Qplus 0%Q ys)
  end.

Definition outcome_is (tag : string) (r : Row) : bool :=
  match outcome r with
  | Some o => String.eqb o tag
  | None => false
  end.

Definition case_outcome (tag : string) (r : Row) : Z :=
  if outcome_is tag r then 1%Z else 0%Z.

Definition is_resolved (r : Row) : bool :=
  match outcome r with Some _ => true | None => false end.

(** [get_stats]: the query runs over the rows [WHERE outcome IS NOT
    NULL]; the ledger is returned as it was. *)
Definition get_stats {P} (self : PaperTrader P) : Stats * PaperTrader P :=
  let rows := List.filter is_resolved (db self) in
  let total := default 0%Z (Some (Z.of_nat (List.length rows))) in
  let wins := default 0%Z (sql_sum_int (map (case_outcome "WIN") rows)) in
  let losses := default 0%Z (sql_sum_int (map (case_outcome "LOSS") rows)) in
  let pnl := default 0%Q (sql_sum_real (map pnl rows)) in
  let win_rate :=
    if (0 <? wins + losses)%Z
    then (inject_Z wins / inject_Z (wins + losses) * 100)%Q
    else 0%Q in
  ({| total_predictions := total; wins := wins; losses := losses;
      win_rate := win_rate; total_pnl := pnl |},
   self).

End PaperTraderV1.

(* ================================================================== *)
(** ** scheduler.py                                                    *)
(* ================================================================== *)

Module Scheduler.

Record Stats := mk_Stats {
  total : Z;
  resolved : Z;
  wins : Z;
  win_rate : Q
}.

(** [get_stats]: one query over the whole table.  On an empty table the
    two sums are NULL, the comparison [resolved > 0] raises, and the
    handler returns the all-zero dict. *)
Definition get_stats (table : list Row) : Stats :=
  let total := Z.of_nat (List.length table) in
  let resolved :=
    PaperTraderV1.sql_sum_int
      (map (fun r => if PaperTraderV1.is_resolved r then 1%Z else 0%Z) table) in
  let wins :=
    PaperTraderV1.sql_sum_int (map (PaperTraderV1.case_outcome "WIN") table) in
  match resolved, wins with
  | Some resolved, Some wins =>
      let win_rate :=
        if (0 <? resolved)%Z
        then (inject_Z wins / inject_Z (Z.max resolved 1) * 100)%Q
        else 0%Q in
      {| total := total; resolved := resolved; wins := wins;
         win_rate := win_rate |}
  | _, _ => {| total := 0; resolved := 0; wins := 0; win_rate := 0 |}
  end.

End Scheduler.

(* ================================================================== *)
(** ** main.py                                                         *)
(* ================================================================== *)

Module Bot.

(** The configuration keys the risk gate and the executor read. *)
Record Config := mk_Config {
  max_trade_size : Q;
  min_confidence : Q;
  max_open_positions : Z;
  auto_execute : bool
}.

(** [default_config] of [_load_config]. *)
Definition default_config : Config :=
  {| max_trade_size := 50; min_confidence := 0.65;
     max_open_positions := 5; auto_execute := false |}.

(** A market dict of the client: [market["id"]], the two keys
    [evaluate_position] reads with [.get], and the truth value of
    [market.get("resolved")]. *)
Record BotMarket := mk_BotMarket {
  b_id : string;
  b_volume : option Q;
  b_yes_price : option Q;
  b_resolved : bool
}.

(** The analyzer's prediction dict. *)
Record BotPrediction := mk_BotPrediction {
  direction : string;
  probability : Q;
  b_confidence : Q;
  b_reasoning : string
}.

Record Opportunity := mk_Opportunity {
  market : BotMarket;
  prediction : BotPrediction;
  edge : Q
}.

(** The trade decision [evaluate_position] returns. *)
Record Decision := mk_Decision {
  market_id : string;
  side : Direction;
  d_size : Q;
  d_confidence : Q;
  d_reasoning : string
}.

(** [PolymarketBot]: [self.active_positions], a dict from market id to
    decision that [monitor_positions] iterates over, and [self.config]. *)
Record PolymarketBot := mk_PolymarketBot {
  active_positions : list (string * Decision);
  config : Config
}.

(** [PolymarketBot()] with the configuration [_load_config] produced. *)
Definition init (cfg : Config) : PolymarketBot :=
  {| active_positions := []; config := cfg |}.

Section WithRiskManager.

(** [strategies/risk_manager.py] is not among the sources; its two
    methods are taken as they are called:
    [calculate_position confidence edge volatility] and
    [approve_trade position_size probability yes_price]. *)
Variable calculate_position : Q -> Q -> Q -> Q.
Variable approve_trade : Q -> Q -> Q -> bool.

Definition evaluate_position (self : PolymarketBot) (opportunity : Opportunity)
  : option Decision :=
  let market := market opportunity in
  let prediction := prediction opportunity in
  if (max_open_positions (config self)
        <=? Z.of_nat (List.length (active_positions self)))%Z
  then None
  else
    match Py.dict_get (b_id market) (active_positions self) with
    | Some _ => None
    | None =>
        let position_size :=
          calculate_position (b_confidence prediction) (edge opportunity)
            (default 1000%Q (b_volume market)) in
        if negb (approve_trade position_size (probability prediction)
                   (default 0.5%Q (b_yes_price market)))
        then None
        else
          Some {| market_id := b_id market;
                  side := if String.eqb (direction prediction) "UP"
                          then YES else NO;
                  d_size := Qmin position_size (max_trade_size (config self));
                  d_confidence := b_confidence prediction;
                  d_reasoning := b_reasoning prediction |}
    end.

(** [execute_trade]; [order] is what [client.place_order] returned
    ([None] for a failed or empty response; when the call raises, the
    positions stay as they are, as for [None]). *)
Definition execute_trade (self : PolymarketBot) (decision : Decision)
    (order : option string) : option string * PolymarketBot :=
  if auto_execute (config self) then
    match order with
    | Some result =>
        (Some result,
         {| active_positions :=
              Py.dict_set (market_id decision) decision (active_positions self);
            config := config self |})
    | None => (None, self)
    end
  else (None, self).

End WithRiskManager.

(** The loop of [monitor_positions] over the items listed when the call
    started.  [get_market] is what [client.get_market] answers during
    the call ([None] for a market it did not find, on which
    [market.get] raises); [analyze_market] is the analyzer, [None] when
    it raises.  An exception leaves the loop with the positions as
    pruned so far. *)
Fixpoint monitor_loop (get_market : string -> option BotMarket)
    (analyze_market : BotMarket -> option BotPrediction)
    (self : PolymarketBot) (items : list (string * Decision))
  : result unit * PolymarketBot :=
  match items with
  | [] => (Return tt, self)
  | (market_id, position) :: rest =>
      match get_market market_id with
      | None => (Raise AttributeError, self)
      | Some market =>
          if b_resolved market
          then
            monitor_loop get_market analyze_market
              {| active_positions :=
                   Py.dict_del market_id (active_positions self);
                 config := config self |}
              rest
          else
            match analyze_market market with
            | None => (Raise Exception, self)
            | Some current_prediction =>
                monitor_loop get_market analyze_market self rest
            end
      end
  end.

(** [monitor_positions]. *)
Definition monitor_positions (self : PolymarketBot)
    (get_market : string -> option BotMarket)
    (analyze_market : BotMarket -> option BotPrediction)
  : result unit * PolymarketBot :=
  monitor_loop get_market analyze_market self (active_positions self).

End Bot.

(* ================================================================== *)
(** ** Listing scripts                                                 *)
(* ================================================================== *)

Module Listing.

Section WithFloat.

(** [float(s)] on a string: [None] when it raises. *)
Variable float_of_string : string -> option Q.

(** [float(m.get("volume", 0) or 0)], as [fetch_trending.py],
    [fetch_live_events.py], [get_all_markets.py] and
    [verify_current.py] read the volume; [None] when [float] raises. *)
Definition volume_of (m : Market) : option Q :=
  match default (JNum 0) (m_volume m) with
  | JNull => Some 0%Q
  | JNum x => if Qeq_bool x 0 then Some 0%Q else Some x
  | JStr EmptyString => Some 0%Q
  | JStr s => float_of_string s
  end.

End WithFloat.

End Listing.

(* ================================================================== *)
(** ** main.py: the market scan                                        *)
(* ================================================================== *)

Module BotScan.

Definition _calculate_edge (prediction : Bot.BotPrediction)
    (market : Bot.BotMarket) : Q :=
  let predicted_prob := Bot.probability prediction in
  let market_odds := default 0.5%Q (Bot.b_yes_price market) in
  (Qabs (predicted_prob - market_odds) * Bot.b_confidence prediction)%Q.

(** [opportunities.sort(key=lambda x: x["edge"], reverse=True)]: a
    stable sort, highest edge first; of two opportunities with equal
    edge the one listed first stays first. *)
Fixpoint insert_by_edge (x : Bot.Opportunity) (l : list Bot.Opportunity)
  : list Bot.Opportunity :=
  match l with
  | [] => [x]
  | y :: l' =>
      if Qlt_le_dec (Bot.edge x) (Bot.edge y)
      then y :: insert_by_edge x l'
      else x :: l
  end.

Definition sort_by_edge (l : list Bot.Opportunity) : list Bot.Opportunity :=
  fold_right insert_by_edge [] l.

Section WithAnalyzer.

(** [self.analyzer.analyze_market]: [None] when it raises. *)
Variable analyze_market : Bot.BotMarket -> option Bot.BotPrediction.

(** The loop of [scan_markets]; [None] when a call raised. *)
Fixpoint scan_loop (cfg : Bot.Config) (markets : list Bot.BotMarket)
    (opportunities : list Bot.Opportunity) : option (list Bot.Opportunity) :=
  match markets with
  | [] => Some opportunities
  | market :: rest =>
      match analyze_market market with
      | None => None
      | Some prediction =>
          if Qlt_le_dec (Bot.b_confidence prediction) (Bot.min_confidence cfg)
          then scan_loop cfg rest opportunities
          else
            scan_loop cfg rest
              (opportunities ++
                 [ {| Bot.market := market;
                      Bot.prediction := prediction;
                      Bot.edge := _calculate_edge prediction market |} ])
      end
  end.

(** [scan_markets]; [fetched] is what [client.get_active_markets]
    returned, [None] when it raised.  Any exception gives the empty
    list. *)
Definition scan_markets (self : Bot.PolymarketBot)
    (fetched : option (list Bot.BotMarket)) : list Bot.Opportunity :=
  match fetched with
  | None => []
  | Some markets =>
      match scan_loop (Bot.config self) markets [] with
      | None => []
      | Some opportunities => sort_by_edge opportunities
      end
  end.

End WithAnalyzer.

End BotScan.

(* ================================================================== *)
(** ** strategies/predictor.py                                         *)
(* ================================================================== *)

Module Analyzer.

(** The dict [probability.calculate] returns, as [analyze_market] reads
    it. *)
Record Calculation := mk_Calculation {
  c_prob_yes : Q;
  c_confidence : Q;
  c_reasoning : string;
  c_sources : list string
}.

(** The dict [analyze_market] returns. *)
Record Estimate := mk_Estimate {
  e_direction : string;
  e_probability : Q;
  e_confidence : Q;
  e_reasoning : string;
  e_sources : list string;
  e_sentiment : Q
}.

Section WithCollaborators.

(** [utils/news_api.py], [utils/sentiment.py] and
    [utils/probability.py] are not among the sources; their methods are
    taken as they are called. *)
Context {News : Type}.
Variable fetch : string -> News.
Variable analyze : News -> Q.
Variable calculate : string -> Q -> Market -> News -> Calculation.

Definition analyze_market (market : Market) : Estimate :=
  let question := default ""%string (m_question market) in
  let news := fetch question in
  let sentiment_score := analyze news in
  let prediction := calculate question sentiment_score market news in
  {| e_direction :=
       if Qlt_le_dec 0.5 (c_prob_yes prediction) then "YES"%string
       else "NO"%string;
     e_probability := c_prob_yes prediction;
     e_confidence := c_confidence prediction;
     e_reasoning := c_reasoning prediction;
     e_sources := c_sources prediction;
     e_sentiment := sentiment_score |}.

End WithCollaborators.

(** The four keys of the estimate that [main.py] reads. *)
Definition as_bot_prediction (e : Estimate) : Bot.BotPrediction :=
  {| Bot.direction := e_direction e;
     Bot.probability := e_probability e;
     Bot.b_confidence := e_confidence e;
     Bot.b_reasoning := e_reasoning e |}.

End Analyzer.

(* ================================================================== *)
(** ** utils/polymarket_api.py                                         *)
(* ================================================================== *)

Module Api.

(** [get_token_id]; [clobTokenIds] is the market's value under that
    key, [None] when the key is absent. *)
Definition get_token_id (clobTokenIds : option (list string))
    (outcome : string) : option string :=
  let token_ids := default [] clobTokenIds in
  match token_ids with
  | yes_token :: no_token :: _ =>
      if String.eqb (Py.upper outcome) "YES" then Some yes_token
      else Some no_token
  | _ => None
  end.

End Api.

(* ================================================================== *)
(** ** test_prediction.py                                              *)
(* ================================================================== *)

Module Demo.

Local Open Scope Q_scope.

Definition build_search_query (question category : string) : string :=
  let query :=
    fold_left (fun query word => Py.replace word " " query)
      ["will"; "by"; "the"; "in"; "on"; "if"; "?"]%string
      (Py.lower question) in
  let query :=
    if String.eqb category "crypto"
    then String.append query
           (String.append " " "price prediction analysis forecast latest 2026")
    else query in
  Py.strip query.

Definition positive_words : list string :=
  ["bull"; "bullish"; "rally"; "surge"; "strong"; "growth"; " ATH";
   "confident"]%string.

Definition negative_words : list string :=
  ["bear"; "bearish"; "crash"; "dump"; "fall"; "weak"; "correction"]%string.

Definition analyze_sentiment (text : string) : Q :=
  let text := Py.lower text in
  let pos_count := Py.count_in positive_words text in
  let neg_count := Py.count_in negative_words text in
  let total := (pos_count + neg_count)%nat in
  match total with
  | O => 0.0
  | _ => inject_Z (Z.of_nat pos_count - Z.of_nat neg_count)
         / inject_Z (Z.of_nat total)
  end.

(** A search result: its ["title"] and ["snippet"]. *)
Record SearchResult := mk_SearchResult {
  title : option string;
  snippet : option string
}.

(** The dict [calculate_probability] returns; ["market_odds"] is absent
    on the no-data path. *)
Record DemoPrediction := mk_DemoPrediction {
  dp_direction : string;
  dp_prob_yes : Q;
  dp_market_odds : option Q;
  dp_confidence : Q;
  dp_sentiment : Q;
  dp_reasoning : string
}.

(** [f"{result.get('title', '')} {result.get('snippet', '')}"]. *)
Definition result_text (r : SearchResult) : string :=
  String.append (default ""%string (title r))
    (String.append " " (default ""%string (snippet r))).

Definition calculate_probability (results : list SearchResult)
    (current_odds : Q) : DemoPrediction :=
  match results with
  | [] =>
      {| dp_direction := "UNKNOWN"; dp_prob_yes := current_odds;
         dp_market_odds := None; dp_confidence := 0.0;
         dp_sentiment := 0.0; dp_reasoning := "No data" |}
  | _ =>
      let total_sentiment :=
        fold_left (fun total r => total + analyze_sentiment (result_text r))
          (firstn 3 results) 0 in
      let avg_sentiment := total_sentiment / 3 in
      let prob_adjustment := avg_sentiment * 0.3 in
      let predicted_prob := current_odds + prob_adjustment in
      let predicted_prob := Qmax 0.05 (Qmin 0.95 predicted_prob) in
      let confidence := Qmin (0.5 + Qabs avg_sentiment * 0.3) 0.9 in
      let direction :=
        if Qlt_le_dec current_odds predicted_prob then "YES"%string
        else "NO"%string in
      {| dp_direction := direction;
         dp_prob_yes := Py.round2 predicted_prob;
         dp_market_odds := Some current_odds;
         dp_confidence := Py.round2 confidence;
         dp_sentiment := Py.round2 avg_sentiment;
         dp_reasoning :=
           if Qlt_le_dec 0 avg_sentiment then "Bullish sentiment detected"%string
           else "Bearish sentiment detected"%string |}
  end.

End Demo.

(* ================================================================== *)
(** ** Vocabulary of the statements                                    *)
(* ================================================================== *)

(** A prediction inside the ranges the engine clamps to. *)
Definition in_range (p : Prediction) : Prop :=
  exists pr c,
    prob_yes p = Some pr /\ confidence p = Some c /\
    (0.05 <= pr)%Q /\ (pr <= 0.95)%Q /\ (0 <= c)%Q /\ (c <= 0.85)%Q.

(** A prediction whose confidence is a whole number of hundredths, at
    most 85 of them. *)
Definition graded (p : Prediction) : Prop :=
  exists (k : Z) c,
    (0 <= k <= 85)%Z /\ confidence p = Some c /\ (c == inject_Z k * 0.01)%Q.

(** A trader whose predictor has cached graded predictions only. *)
Definition graded_cache (self : PaperTrader TavilyPredictor.WebPredictor) : Prop :=
  forall k p,
    TavilyPredictor.cache (predictor self) !! k = Some p -> graded p.

(** The predictor after a sequence of [predict] calls. *)
Definition run_calls (tavily : nat -> string -> string)
    (self : TavilyPredictor.WebPredictor) (calls : list (string * string))
  : TavilyPredictor.WebPredictor :=
  fold_left
    (fun self qc => snd (TavilyPredictor.predict tavily self (fst qc) (snd qc)))
    calls self.

(** Any predictor of a process: a fresh one, then some calls. *)
Definition after_calls (tavily : nat -> string -> string)
    (calls : list (string * string)) : TavilyPredictor.WebPredictor :=
  run_calls tavily TavilyPredictor.init calls.

(** The calls of a sequence that ran a search, in order. *)
Fixpoint computed (tavily : nat -> string -> string)
    (self : TavilyPredictor.WebPredictor) (calls : list (string * string))
  : list (string * string) :=
  match calls with
  | [] => []
  | qc :: rest =>
      let self' := snd (TavilyPredictor.predict tavily self (fst qc) (snd qc)) in
      if (List.length (TavilyPredictor.searches self)
            <? List.length (TavilyPredictor.searches self'))%nat
      then qc :: computed tavily self' rest
      else computed tavily self' rest
  end.

(** How often the pair [(q, c)] occurs in a list of calls. *)
Definition occurrences (q c : string) (calls : list (string * string)) : nat :=
  List.length (List.filter (fun qc => bool_decide (qc = (q, c))) calls).

(** A category without the separator of the cache key. *)
Fixpoint no_underscore (s : string) : bool :=
  match s with
  | EmptyString => true
  | String c s' => negb (Ascii.eqb c "_") && no_underscore s'
  end.

(** The trader scripts construct [WebPredictor] of
    [utils/tavily_predictor.py]; its [predict] does not raise. *)
Definition tavily_predict (tavily : nat -> string -> string)
    (p : TavilyPredictor.WebPredictor) (question category : string)
  : option Prediction * TavilyPredictor.WebPredictor :=
  let '(prediction, p) := TavilyPredictor.predict tavily p question category in
  (Some prediction, p).

(** A predictor for scenarios: it answers every call with [fixed]. *)
Definition fixed_predict (fixed : Prediction) (p : unit)
    (question category : string) : option Prediction * unit :=
  (Some fixed, p).

(** The trades a scan returned; none when it raised. *)
Definition trades_of {S : Type} (r : result (list PaperTrade) * S)
  : list PaperTrade :=
  match fst r with
  | Return trades => trades
  | Raise _ => []
  end.

(** A trade that passed the edge and confidence gate. *)
Definition gate_ok (t : PaperTrade) : Prop :=
  (pt_edge t == Qabs (pt_our_prediction t - pt_market_odds t))%Q /\
  (0.10 <= pt_edge t)%Q /\ (0.65 <= pt_confidence t)%Q.

(** What a trader asks its predictor about a record: the question and
    the category detected in it. *)
Definition predicted {P : Type}
    (predict : P -> string -> string -> option Prediction * P)
    (self : PaperTrader P) (market : Market) : option Prediction :=
  let question := default ""%string (m_question market) in
  fst (predict (predictor self) question (Trader._detect_category question)).

(** Trade [t] records prediction [p] on [market] and both pass the
    gate: the record's YES price is a number, [t] carries the record's
    id and question, that price, the probability and the confidence of
    [p] (with the defaults of [.get]) and their distance as edge, which
    is at least 0.10 while the confidence is at least 0.65. *)
Definition gated_trade (market : Market) (p : Prediction) (t : PaperTrade)
  : Prop :=
  exists price : Q,
    Trader.yes_price_of market = Return (JNum price) /\
    pt_market_id t = default ""%string (m_id market) /\
    pt_question t = default ""%string (m_question market) /\
    pt_our_prediction t = default 0.5%Q (prob_yes p) /\
    pt_market_odds t = price /\
    pt_confidence t = default 0%Q (confidence p) /\
    pt_edge t = Qabs (default 0.5%Q (prob_yes p) - price) /\
    (0.10 <= Qabs (default 0.5%Q (prob_yes p) - price))%Q /\
    (0.65 <= default 0%Q (confidence p))%Q.

(** Prediction [p] on [market] misses a bound of the gate: the edge is
    below 0.10 or the confidence below 0.65. *)
Definition below_gate (market : Market) (p : Prediction) : Prop :=
  exists price : Q,
    Trader.yes_price_of market = Return (JNum price) /\
    ((Qabs (default 0.5%Q (prob_yes p) - price) < 0.10)%Q \/
     (default 0%Q (confidence p) < 0.65)%Q).

(** The markets a scan loop analyses, each with the trader as it was
    when its analysis began; [analyze self i market] is the analysis of
    the [i]-th market.  The loop stops at an analysis that raises. *)
Fixpoint visited {P : Type}
    (analyze : PaperTrader P -> nat -> Market -> result Analysis * PaperTrader P)
    (self : PaperTrader P) (i : nat) (markets : list Market)
  : list (Market * PaperTrader P) :=
  match markets with
  | [] => []
  | market :: rest =>
      (market, self) ::
      match analyze self i market with
      | (Return _, self') => visited analyze self' (S i) rest
      | (Raise _, _) => []
      end
  end.

(** Trade [t] comes from a market the scan analysed: the predictor, as
    it was when that analysis began, gave a prediction on the record,
    and [t] records the two and passes the gate. *)
Definition logged_by_gate {P : Type}
    (predict : P -> string -> string -> option Prediction * P)
    (seen : list (Market * PaperTrader P)) (t : PaperTrade) : Prop :=
  exists market s p,
    In (market, s) seen /\ predicted predict s market = Some p /\
    gated_trade market p t.

(** The analyses of the two scripts in the course of a scan. *)
Definition analysis_v2 {P : Type}
    (predict : P -> string -> string -> option Prediction * P)
    (fromisoformat : string -> option Datetime.datetime)
    (clock : nat -> Datetime.datetime * Datetime.datetime) (days_ahead : Z)
    (self : PaperTrader P) (i : nat) (market : Market)
  : result Analysis * PaperTrader P :=
  PaperTraderV2._analyze_market predict fromisoformat self
    (fst (clock i)) (snd (clock i)) market days_ahead.

Definition analysis_v1 {P : Type}
    (predict : P -> string -> string -> option Prediction * P)
    (fromisoformat : string -> option Datetime.datetime)
    (clock : nat -> Datetime.datetime * Z)
    (self : PaperTrader P) (i : nat) (market : Market)
  : result Analysis * PaperTrader P :=
  PaperTraderV1._analyze_market predict fromisoformat self
    (fst (clock i)) (snd (clock i)) market.

(** A trade sized by the default formula. *)
Definition size_ok (t : PaperTrade) : Prop :=
  (pt_trade_size t == Qmin 50 (10 + pt_confidence t * 40))%Q /\
  (10 <= pt_trade_size t)%Q.

(** The question holds a year the scan finds and that lies before
    [year]. *)
Definition stale_year (question : string) (year : Z) : Prop :=
  exists year_str,
    In year_str (Re.findall_year question) /\
    (Py.int_of_digits year_str < year)%Z.

(** The four characters at index [i] of [s] spell the year [y], a 20xx
    token, and no digit stands before them. *)
Definition year_token_at (i : nat) (y s : string) : Prop :=
  exists d1 d2,
    y = String "2" (String "0" (String d1 (String d2 EmptyString))) /\
    Py.is_digit d1 = true /\ Py.is_digit d2 = true /\
    String.get i s = Some "2"%char /\ String.get (i + 1) s = Some "0"%char /\
    String.get (i + 2) s = Some d1 /\ String.get (i + 3) s = Some d2 /\
    (i = 0%nat \/
     exists c, String.get (i - 1) s = Some c /\ Py.is_digit c = false).

(** The first [n] characters of [s] are digits. *)
Definition digits_ahead (n : nat) (s : string) : Prop :=
  forall j c, (j < n)%nat -> String.get j s = Some c -> Py.is_digit c = true.

(** The price field of a record is missing: no ["prices"] key, or an
    object without ["yes"]. *)
Definition price_missing (market : Market) : Prop :=
  m_prices market = None \/ m_prices market = Some (PricesObj None).

(** The market ids of the open positions, one per position. *)
Definition open_market_ids (self : Bot.PolymarketBot) : list string :=
  map (fun kv => Bot.market_id (snd kv)) (Bot.active_positions self).

(** A search tool that finds [text] on the first search of the process
    and nothing afterwards. *)
Definition told_once (text : string) (n : nat) (query : string) : string :=
  match n with
  | O => text
  | S _ => EmptyString
  end.

(** A search tool that never finds anything. *)
Definition silent (n : nat) (query : string) : string := EmptyString.

(** A predictor that counts its calls and always raises. *)
Definition counting_predict (calls : nat) (question category : string)
  : option Prediction * nat :=
  (None, S calls).

(** A record with the given question, end date and YES price and
    nothing else. *)
Definition listed (question : string) (end_date : option string)
    (yes : option Q) : Market :=
  {| m_id := Some "m1"%string;
     m_question := Some question;
     m_endDate := end_date;
     m_prices := option_map (fun y => PricesObj (Some (JNum y))) yes;
     m_volume := None;
     m_event_title := None;
     m_event_end_date := None |}.

(** 2026-11-04T07:00:00 UTC. *)
Definition morning : Datetime.datetime :=
  Datetime.of_fields 2026 11 4 7 0 0 (Some 0%Z).

(** A prediction with the given probability and confidence. *)
Definition estimate (p c : Q) : Prediction :=
  {| prob_yes := Some p; confidence := Some c;
     reasoning := Some "Bullish sentiment (+0.40) from 3 sources"%string;
     sentiment := Some 0.4%Q; answer_preview := None; sources := None |}.

(** A predictor for scenarios: confidence 0.70 for category "other",
    0.80 for the others. *)
Definition two_estimates (p : unit) (question category : string)
  : option Prediction * unit :=
  (Some (if String.eqb category "other" then estimate 0.60 0.70
         else estimate 0.60 0.80), p).

(** A trader on a fresh predictor, with ledger [rows]. *)
Definition trader_on {P} (p : P) (rows : list Row) (year : Z) : PaperTrader P :=
  {| predictor := p; db := rows; current_year := year |}.

(** A configuration that executes trades: the defaults with
    [auto_execute] switched on. *)
Definition eager_config : Bot.Config :=
  {| Bot.max_trade_size := 50; Bot.min_confidence := 0.65;
     Bot.max_open_positions := 5; Bot.auto_execute := true |}.

(** A risk manager for scenarios: the sizing of the trader scripts, and
    every trade approved. *)
Definition sizing_by_confidence (confidence edge volatility : Q) : Q :=
  (10 + confidence * 40)%Q.

Definition approve_all (position_size probability yes_price : Q) : bool := true.

(** An opportunity on market [id]. *)
Definition opportunity_on (id : string) : Bot.Opportunity :=
  {| Bot.market :=
       {| Bot.b_id := id; Bot.b_volume := None; Bot.b_yes_price := Some 0.35%Q;
          Bot.b_resolved := false |};
     Bot.prediction :=
       {| Bot.direction := "YES"; Bot.probability := 0.60%Q;
          Bot.b_confidence := 0.70%Q; Bot.b_reasoning := "estimate" |};
     Bot.edge := 0.175%Q |}.

(** The positions are stored under distinct keys, each under the
    market id of its decision. *)
Definition positions_keyed (self : Bot.PolymarketBot) : Prop :=
  NoDup (map fst (Bot.active_positions self)) /\
  Forall (fun kv => Bot.market_id (snd kv) = fst kv) (Bot.active_positions self).

(** The invariant of the open positions: at most [max_open_positions]
    of them, each stored under its own market id, under configuration
    [cfg]. *)
Definition positions_ok (cfg : Bot.Config) (self : Bot.PolymarketBot) : Prop :=
  Bot.config self = cfg /\
  (Z.of_nat (List.length (Bot.active_positions self))
     <= Bot.max_open_positions cfg)%Z /\
  positions_keyed self.

(** An accepted trade, as the scenario of the specification has it. *)
Definition sample_trade : PaperTrade :=
  {| pt_market_id := "m1"; pt_question := "Will it rain in Paris tomorrow?";
     pt_category := "other"; pt_our_prediction := 0.60; pt_market_odds := 0.35;
     pt_direction := YES; pt_confidence := 0.70; pt_edge := 0.25;
     pt_sentiment_score := 0.4;
     pt_reasoning := "Bullish sentiment (+0.40) from 3 sources";
     pt_trade_size := 38; pt_open_time := morning |}.

(** The trade [t] with another [open_time]. *)
Definition with_open_time (t : PaperTrade) (opened : Datetime.datetime)
  : PaperTrade :=
  {| pt_market_id := pt_market_id t; pt_question := pt_question t;
     pt_category := pt_category t; pt_our_prediction := pt_our_prediction t;
     pt_market_odds := pt_market_odds t; pt_direction := pt_direction t;
     pt_confidence := pt_confidence t; pt_edge := pt_edge t;
     pt_sentiment_score := pt_sentiment_score t;
     pt_reasoning := pt_reasoning t; pt_trade_size := pt_trade_size t;
     pt_open_time := opened |}.

(** The rows of a ledger that count as resolved, won and lost. *)
Definition count_rows (f : Row -> bool) (rows : list Row) : Z :=
  Z.of_nat (List.length (List.filter f rows)).

(** The record [market] with neither its own nor its event's end date. *)
Definition without_dates (market : Market) : Market :=
  {| m_id := m_id market;
     m_question := m_question market;
     m_endDate := None;
     m_prices := m_prices market;
     m_volume := m_volume market;
     m_event_title := m_event_title market;
     m_event_end_date := None |}.

(** The character [c] occurs in [s]. *)
Fixpoint has_char (c : ascii) (s : string) : bool :=
  match s with
  | EmptyString => false
  | String a s' => Ascii.eqb a c || has_char c s'
  end.

(** A ledger whose resolved rows are all marked WIN or LOSS. *)
Definition decided (rows : list Row) : Prop :=
  forall r, In r rows -> PaperTraderV1.is_resolved r = true ->
    PaperTraderV1.outcome_is "WIN" r = true \/
    PaperTraderV1.outcome_is "LOSS" r = true.

(** A row resolved with the given outcome and profit. *)
Definition resolved_row (tag : string) (profit : Q) : Row :=
  {| trade := sample_trade; resolve_time := Some "2026-11-05T00:00:00"%string;
     outcome := Some tag; resolved_value := Some 1%Q; pnl := Some profit |}.

(** Highest edge first. *)
Definition by_edge_desc (a b : Bot.Opportunity) : Prop :=
  (Bot.edge b <= Bot.edge a)%Q.

(** An analyzer for scenarios: confidence 0.70, probability taken from
    the length of the market id. *)
Definition id_length_analyzer (market : Bot.BotMarket)
  : option Bot.BotPrediction :=
  Some {| Bot.direction := "YES";
          Bot.probability :=
            (inject_Z (Z.of_nat (String.length (Bot.b_id market))) * 0.1)%Q;
          Bot.b_confidence := 0.70%Q; Bot.b_reasoning := "estimate" |}.

(** The markets [scan_markets] keeps: analysed without an exception
    and with a confidence of at least [min_confidence]. *)
Definition confident (analyze_market : Bot.BotMarket -> option Bot.BotPrediction)
    (cfg : Bot.Config) (market : Bot.BotMarket) : bool :=
  match analyze_market market with
  | Some prediction =>
      if Qlt_le_dec (Bot.b_confidence prediction) (Bot.min_confidence cfg)
      then false else true
  | None => false
  end.

(** What [scan_markets] builds for a market it keeps. *)
Definition well_scored (analyze_market : Bot.BotMarket -> option Bot.BotPrediction)
    (cfg : Bot.Config) (o : Bot.Opportunity) : Prop :=
  analyze_market (Bot.market o) = Some (Bot.prediction o) /\
  (Bot.min_confidence cfg <= Bot.b_confidence (Bot.prediction o))%Q /\
  Bot.edge o = BotScan._calculate_edge (Bot.prediction o) (Bot.market o).

(** A market of [main.py] with the given id, quoted at 0.35. *)
Definition bot_market (id : string) : Bot.BotMarket :=
  {| Bot.b_id := id; Bot.b_volume := None; Bot.b_yes_price := Some 0.35%Q;
     Bot.b_resolved := false |}.

(** An estimate of the analyzer for scenarios: the collaborators find
    the question itself as news, score it 0.4 and calculate probability
    0.60 at confidence 0.70. *)
Definition sample_estimate (listing : Market) : Analyzer.Estimate :=
  Analyzer.analyze_market (fun question : string => question)
    (fun _ => 0.4%Q)
    (fun _ _ _ _ =>
       {| Analyzer.c_prob_yes := 0.60%Q; Analyzer.c_confidence := 0.70%Q;
          Analyzer.c_reasoning := "estimate"; Analyzer.c_sources := [] |})
    listing.

(** The opportunity [scan_markets] would build from that estimate. *)
Definition analyzer_opportunity (id : string) : Bot.Opportunity :=
  {| Bot.market := bot_market id;
     Bot.prediction :=
       Analyzer.as_bot_prediction
         (sample_estimate (listed "Will it rain in Paris tomorrow?" None None));
     Bot.edge := 0.175%Q |}.

(** A call that can change the open positions: [execute_trade] with a
    decision and the exchange's answer, or [monitor_positions] with the
    answers of the client and of the analyzer during the call. *)
Inductive BotCall :=
| CallExecute (decision : Bot.Decision) (order : option string)
| CallMonitor (get_market : string -> option Bot.BotMarket)
    (analyze_market : Bot.BotMarket -> option Bot.BotPrediction).

(** The bot after a sequence of such calls, in any order and with any
    arguments; a call that raises leaves the bot as it was at the
    exception, and the next call starts from there. *)
Definition after_bot_calls (self : Bot.PolymarketBot) (calls : list BotCall)
  : Bot.PolymarketBot :=
  fold_left
    (fun self call =>
       match call with
       | CallExecute decision order =>
           snd (Bot.execute_trade self decision order)
       | CallMonitor get_market analyze_market =>
           snd (Bot.monitor_positions self get_market analyze_market)
       end)
    calls self.

(** The market [get_market] answers for [market_id] is resolved. *)
Definition found_resolved (get_market : string -> option Bot.BotMarket)
    (market_id : string) : bool :=
  match get_market market_id with
  | Some market => Bot.b_resolved market
  | None => false
  end.

(** A client for scenarios: it finds the markets "m1", resolved, and
    "m3", open, and no other. *)
Definition two_markets (market_id : string) : option Bot.BotMarket :=
  if String.eqb market_id "m1"
  then Some {| Bot.b_id := "m1"; Bot.b_volume := None;
               Bot.b_yes_price := Some 0.35%Q; Bot.b_resolved := true |}
  else if String.eqb market_id "m3"
  then Some {| Bot.b_id := "m3"; Bot.b_volume := None;
               Bot.b_yes_price := Some 0.35%Q; Bot.b_resolved := false |}
  else None.

(** The loop of [run] that sequences the gate and the executor is cut
    off in the sources, so the order in which the program gates and
    executes is not given by the code.  One move of a driver that hands
    every decision to the executor in the very state whose gate
    returned it, or monitors the positions: *)
Inductive gated_step (calculate_position : Q -> Q -> Q -> Q)
    (approve_trade : Q -> Q -> Q -> bool)
  : Bot.PolymarketBot -> Bot.PolymarketBot -> Prop :=
| step_trade self opportunity decision order :
    Bot.evaluate_position calculate_position approve_trade self opportunity
    = Some decision ->
    gated_step calculate_position approve_trade
      self (snd (Bot.execute_trade self decision order))
| step_monitor self get_market analyze_market :
    gated_step calculate_position approve_trade
      self (snd (Bot.monitor_positions self get_market analyze_market)).

(** The states such a driver reaches from a fresh bot. *)
Definition gated_run (calculate_position : Q -> Q -> Q -> Q)
    (approve_trade : Q -> Q -> Q -> bool)
    (cfg : Bot.Config) (self : Bot.PolymarketBot) : Prop :=
  rtc (gated_step calculate_position approve_trade) (Bot.init cfg) self.

(** One cycle of such a driver over the scanned opportunities; [orders]
    gives the exchange's answer to each decision. *)
Definition gate_then_execute (calculate_position : Q -> Q -> Q -> Q)
    (approve_trade : Q -> Q -> Q -> bool)
    (self : Bot.PolymarketBot) (opportunities : list Bot.Opportunity)
    (orders : Bot.Decision -> option string) : Bot.PolymarketBot :=
  fold_left
    (fun self opportunity =>
       match Bot.evaluate_position calculate_position approve_trade
               self opportunity with
       | Some decision => snd (Bot.execute_trade self decision (orders decision))
       | None => self
       end)
    opportunities self.

(** Modelled from the spec: the loop of [run] is cut off in the
    sources.  The specification's pipeline works stage by stage (score,
    gate, persist) and gates the markets of a cycle independently of
    each other: every opportunity is gated in the state the cycle
    starts in, then the decisions are executed. *)
Definition gate_all_then_execute (calculate_position : Q -> Q -> Q -> Q)
    (approve_trade : Q -> Q -> Q -> bool)
    (self : Bot.PolymarketBot) (opportunities : list Bot.Opportunity)
    (orders : Bot.Decision -> option string) : Bot.PolymarketBot :=
  let decisions :=
    omap (Bot.evaluate_position calculate_position approve_trade self)
      opportunities in
  fold_left
    (fun self decision => snd (Bot.execute_trade self decision (orders decision)))
    decisions self.

(** A configuration that executes trades and allows one open position. *)
Definition single_position_config : Bot.Config :=
  {| Bot.max_trade_size := 50; Bot.min_confidence := 0.65;
     Bot.max_open_positions := 1; Bot.auto_execute := true |}.

(** Text of ASCII characters. *)
Fixpoint is_ascii (s : string) : bool :=
  match s with
  | EmptyString => true
  | String c s' => (nat_of_ascii c <? 128)%nat && is_ascii s'
  end.

(* ================================================================== *)
(** * Properties                                                       *)
(* ================================================================== *)

(** ** Rounding *)

Section Rounding.

Local Open Scope Q_scope.

Lemma round_half_even_cases x :
  Py.round_half_even x = Qfloor x \/
  Py.round_half_even x = (Qfloor x + 1)%Z /\ 1 # 2 <= x - inject_Z (Qfloor x).
Proof.
  unfold Py.round_half_even.
  destruct (Qcompare_spec (x - inject_Z (Qfloor x)) (1 # 2)) as [E|L|G]; auto.
  - destruct (Z.even _); auto. right; split; auto. rewrite E. apply Qle_refl.
  - right; split; auto. apply Qlt_le_weak; auto.
Qed.

Lemma round_half_even_bounds (a b : Z) x :
  inject_Z a <= x -> x <= inject_Z b -> (a <= Py.round_half_even x <= b)%Z.
Proof.
  intros Ha Hb.
  assert (Hf := Qfloor_le x). assert (Hc := Qlt_floor x).
  assert (H0 : (a <= Qfloor x)%Z).
  { apply Qfloor_resp_le in Ha. rewrite Qfloor_Z in Ha. exact Ha. }
  assert (H1 : (Qfloor x <= b)%Z).
  { apply Qfloor_resp_le in Hb. rewrite Qfloor_Z in Hb. exact Hb. }
  destruct (round_half_even_cases x) as [->|[-> Hr]]; [lia|].
  split; [lia|].
  assert (H2 : inject_Z (Qfloor x) < inject_Z b) by lra.
  rewrite <- Zlt_Qlt in H2. lia.
Qed.

Lemma round_half_even_Z (k : Z) : Py.round_half_even (inject_Z k) = k.
Proof.
  unfold Py.round_half_even. rewrite Qfloor_Z.
  destruct (Qcompare_spec (inject_Z k - inject_Z k) (1 # 2)) as [E|L|G]; auto; lra.
Qed.

Lemma round_half_even_mono x y :
  x <= y -> (Py.round_half_even x <= Py.round_half_even y)%Z.
Proof.
  intros Hxy.
  assert (Hfx := Qfloor_le x). assert (Hcx := Qlt_floor x).
  assert (Hfy := Qfloor_le y). assert (Hcy := Qlt_floor y).
  assert (Hm : (Qfloor x <= Qfloor y)%Z) by (apply Qfloor_resp_le; exact Hxy).
  destruct (Z.eq_dec (Qfloor x) (Qfloor y)) as [E|N].
  - unfold Py.round_half_even. rewrite <- E.
    destruct (Qcompare_spec (x - inject_Z (Qfloor x)) (1 # 2)) as [E1|L1|G1];
    destruct (Qcompare_spec (y - inject_Z (Qfloor x)) (1 # 2)) as [E2|L2|G2];
    try lia; try lra; destruct (Z.even (Qfloor x)); lia.
  - destruct (round_half_even_cases x) as [->|[-> _]];
    destruct (round_half_even_cases y) as [->|[-> _]]; lia.
Qed.

Lemma round_half_even_eq x y :
  x == y -> Py.round_half_even x = Py.round_half_even y.
Proof.
  intros E. apply Z.le_antisymm; apply round_half_even_mono;
    rewrite E; apply Qle_refl.
Qed.

Lemma round2_eq x :
  Py.round2 x == inject_Z (Py.round_half_even (x * 100)) * 0.01.
Proof. reflexivity. Qed.

Lemma round2_bounds (a b : Z) x :
  inject_Z a * 0.01 <= x -> x <= inject_Z b * 0.01 ->
  inject_Z a * 0.01 <= Py.round2 x /\ Py.round2 x <= inject_Z b * 0.01.
Proof.
  intros Ha Hb. rewrite round2_eq.
  assert (H : (a <= Py.round_half_even (x * 100) <= b)%Z)
    by (apply round_half_even_bounds; lra).
  destruct H as [H1 H2]. rewrite Zle_Qle in H1, H2. split; lra.
Qed.

Lemma round2_mono x y : x <= y -> Py.round2 x <= Py.round2 y.
Proof.
  intros H. rewrite !round2_eq.
  assert (H' : (Py.round_half_even (x * 100) <= Py.round_half_even (y * 100))%Z)
    by (apply round_half_even_mono; lra).
  rewrite Zle_Qle in H'. lra.
Qed.

Lemma round2_hundredths (k : Z) :
  Py.round2 (inject_Z k * 0.01) == inject_Z k * 0.01.
Proof.
  rewrite round2_eq.
  rewrite (round_half_even_eq (inject_Z k * 0.01 * 100) (inject_Z k)) by lra.
  rewrite round_half_even_Z. reflexivity.
Qed.

End Rounding.

(** ** The prediction engine *)

Section Engine.

Local Open Scope Q_scope.

Lemma sentiment_range text :
  -1 <= TavilyPredictor._analyze_sentiment text /\
  TavilyPredictor._analyze_sentiment text <= 1.
Proof.
  unfold TavilyPredictor._analyze_sentiment.
  set (pos := Py.count_in _ _). set (neg := Py.count_in _ _).
  set (d := Z.of_nat (Nat.max (pos + neg) 1)).
  assert (Hn : (- d <= Z.of_nat pos - Z.of_nat neg <= d)%Z) by (unfold d; lia).
  assert (Hd : 0 < inject_Z d)
    by (change 0 with (inject_Z 0); rewrite <- Zlt_Qlt; unfold d; lia).
  destruct Hn as [H1 H2]. rewrite Zle_Qle in H1, H2. rewrite inject_Z_opp in H1.
  split.
  - apply Qle_shift_div_l; [exact Hd|]. lra.
  - apply Qle_shift_div_r; [exact Hd|]. lra.
Qed.

(** [_parse_results] stays inside the clamped ranges on every text, the
    empty one included. *)
Lemma parse_results_in_range text question :
  in_range (TavilyPredictor._parse_results text question).
Proof.
  unfold in_range, TavilyPredictor._parse_results.
  destruct text as [|ch text].
  - exists 0.5, 0.0. cbn. repeat split; lra.
  - set (t := String ch text).
    set (s := TavilyPredictor._analyze_sentiment t).
    set (n := inject_Z (Z.of_nat (Re.count_sources t))).
    eexists _, _. cbn [prob_yes confidence].
    split; [reflexivity|]. split; [reflexivity|].
    assert (Hn : 0 <= n).
    { unfold n. change 0 with (inject_Z 0). rewrite <- Zle_Qle. lia. }
    assert (Ha := Qabs_nonneg s).
    assert (Hp : inject_Z 5 * 0.01 <= Qmax 0.05 (Qmin 0.95 (0.5 + s * 0.25))
                 /\ Qmax 0.05 (Qmin 0.95 (0.5 + s * 0.25)) <= inject_Z 95 * 0.01).
    { unfold inject_Z. split.
      - eapply Qle_trans; [|apply Q.le_max_l]. lra.
      - apply Q.max_lub; [lra|]. eapply Qle_trans; [apply Q.le_min_l|]. lra. }
    assert (Hc : inject_Z 0 * 0.01 <= Qmin (0.35 + n * 0.08 + Qabs s * 0.25) 0.85
                 /\ Qmin (0.35 + n * 0.08 + Qabs s * 0.25) 0.85 <= inject_Z 85 * 0.01).
    { unfold inject_Z. split.
      - apply Q.min_glb; lra.
      - eapply Qle_trans; [apply Q.le_min_r|]. lra. }
    destruct Hp as [Hp1 Hp2]. destruct Hc as [Hc1 Hc2].
    destruct (round2_bounds 5 95 _ Hp1 Hp2) as [P1 P2].
    destruct (round2_bounds 0 85 _ Hc1 Hc2) as [C1 C2].
    unfold inject_Z in P1, P2, C1, C2.
    repeat split; lra.
Qed.

(** and its confidence is a whole number of hundredths. *)
Lemma parse_results_graded text question :
  graded (TavilyPredictor._parse_results text question).
Proof.
  unfold graded, TavilyPredictor._parse_results.
  destruct text as [|ch text].
  - exists 0%Z, 0.0. cbn. repeat split; try lia; try reflexivity.
  - set (t := String ch text).
    set (s := TavilyPredictor._analyze_sentiment t).
    set (n := inject_Z (Z.of_nat (Re.count_sources t))).
    set (x := Qmin (0.35 + n * 0.08 + Qabs s * 0.25) 0.85).
    exists (Py.round_half_even (x * 100)), (Py.round2 x).
    cbn [confidence]. split; [|split; [reflexivity|apply round2_eq]].
    assert (Hn : 0 <= n).
    { unfold n. change 0 with (inject_Z 0). rewrite <- Zle_Qle. lia. }
    assert (Ha := Qabs_nonneg s).
    apply round_half_even_bounds; unfold inject_Z.
    + assert (0 <= x) by (apply Q.min_glb; lra). lra.
    + assert (x <= 0.85) by apply Q.le_min_r. lra.
Qed.

End Engine.

(** ** The memo cache *)

Section Cache.

Variable tavily : nat -> string -> string.

Local Abbreviation predict := (TavilyPredictor.predict tavily).
Local Abbreviation key := TavilyPredictor.cache_key.

Lemma predict_hit self q c p :
  TavilyPredictor.cache self !! key q c = Some p ->
  predict self q c = (p, self).
Proof. intros H. unfold TavilyPredictor.predict. rewrite H. reflexivity. Qed.

Lemma predict_miss self q c :
  TavilyPredictor.cache self !! key q c = None ->
  let query := TavilyPredictor._build_query q c in
  let prediction :=
    TavilyPredictor._parse_results
      (tavily (List.length (TavilyPredictor.searches self)) query) q in
  predict self q c =
    (prediction,
     {| TavilyPredictor.cache := <[key q c := prediction]> (TavilyPredictor.cache self);
        TavilyPredictor.searches := TavilyPredictor.searches self ++ [query] |}).
Proof. intros H. unfold TavilyPredictor.predict. rewrite H. reflexivity. Qed.

(** After a call the cache holds the returned dict under the call's key. *)
Lemma predict_stores self q c :
  TavilyPredictor.cache (snd (predict self q c)) !! key q c
  = Some (fst (predict self q c)).
Proof.
  destruct (TavilyPredictor.cache self !! key q c) as [p|] eqn:E.
  - rewrite (predict_hit _ _ _ _ E). exact E.
  - rewrite (predict_miss _ _ _ E). cbn. apply lookup_insert_eq.
Qed.

(** A call never replaces an entry of the cache. *)
Lemma predict_keeps self q c k p :
  TavilyPredictor.cache self !! k = Some p ->
  TavilyPredictor.cache (snd (predict self q c)) !! k = Some p.
Proof.
  intros H.
  destruct (TavilyPredictor.cache self !! key q c) as [p'|] eqn:E.
  - rewrite (predict_hit _ _ _ _ E). exact H.
  - rewrite (predict_miss _ _ _ E). cbn.
    rewrite lookup_insert_ne; [exact H|]. intros <-. congruence.
Qed.

Lemma run_calls_keeps calls : forall self k p,
  TavilyPredictor.cache self !! k = Some p ->
  TavilyPredictor.cache (run_calls tavily self calls) !! k = Some p.
Proof.
  induction calls as [|[q c] calls IH]; intros self k p H; [exact H|].
  cbn. apply IH. apply predict_keeps. exact H.
Qed.

(** A call searches exactly when its key is not cached. *)
Lemma predict_searches self q c :
  TavilyPredictor.searches (snd (predict self q c)) =
  match TavilyPredictor.cache self !! key q c with
  | Some _ => TavilyPredictor.searches self
  | None => TavilyPredictor.searches self ++ [TavilyPredictor._build_query q c]
  end.
Proof.
  destruct (TavilyPredictor.cache self !! key q c) as [p'|] eqn:E.
  - rewrite (predict_hit _ _ _ _ E). reflexivity.
  - rewrite (predict_miss _ _ _ E). reflexivity.
Qed.

Lemma computed_cached calls : forall self q c,
  is_Some (TavilyPredictor.cache self !! key q c) ->
  occurrences q c (computed tavily self calls) = 0%nat.
Proof.
  induction calls as [|[q' c'] calls IH]; intros self q c [p Hp]; [reflexivity|].
  cbn [computed fst snd].
  assert (Hk : is_Some (TavilyPredictor.cache (snd (predict self q' c')) !! key q c))
    by (eexists; apply predict_keeps; exact Hp).
  destruct (_ <? _)%nat eqn:L; [|apply IH; exact Hk].
  unfold occurrences. cbn [List.filter].
  destruct (bool_decide _) eqn:B; [|apply IH; exact Hk].
  apply bool_decide_eq_true in B. inversion B; subst q' c'.
  rewrite predict_searches, Hp in L. apply Nat.ltb_lt in L. lia.
Qed.

Lemma computed_once calls : forall self q c,
  (occurrences q c (computed tavily self calls) <= 1)%nat.
Proof.
  induction calls as [|[q' c'] calls IH]; intros self q c; [cbn; lia|].
  cbn [computed fst snd].
  destruct (_ <? _)%nat eqn:L; [|apply IH].
  unfold occurrences. cbn [List.filter].
  destruct (bool_decide _) eqn:B; [|apply IH].
  apply bool_decide_eq_true in B. inversion B; subst q' c'.
  cbn [List.length].
  fold (occurrences q c (computed tavily (snd (predict self q c)) calls)).
  rewrite computed_cached; [lia|].
  eexists. apply predict_stores.
Qed.

(** Predictions of any predictor of a process are in range and graded. *)
Lemma run_calls_invariant (Inv : Prediction -> Prop) :
  (forall text q, Inv (TavilyPredictor._parse_results text q)) ->
  forall calls self,
    (forall k p, TavilyPredictor.cache self !! k = Some p -> Inv p) ->
    forall k p,
      TavilyPredictor.cache (run_calls tavily self calls) !! k = Some p -> Inv p.
Proof.
  intros Hparse. induction calls as [|[q c] calls IH]; intros self Hs; [exact Hs|].
  cbn. apply IH. intros k p.
  destruct (TavilyPredictor.cache self !! key q c) as [p'|] eqn:E.
  - rewrite (predict_hit _ _ _ _ E). apply Hs.
  - rewrite (predict_miss _ _ _ E). cbn.
    destruct (decide (key q c = k)) as [->|N].
    + rewrite lookup_insert_eq. intros [= <-]. apply Hparse.
    + rewrite lookup_insert_ne by exact N. apply Hs.
Qed.

Lemma predict_invariant (Inv : Prediction -> Prop) :
  (forall text q, Inv (TavilyPredictor._parse_results text q)) ->
  forall self q c,
    (forall k p, TavilyPredictor.cache self !! k = Some p -> Inv p) ->
    Inv (fst (predict self q c)) /\
    (forall k p,
       TavilyPredictor.cache (snd (predict self q c)) !! k = Some p -> Inv p).
Proof.
  intros Hparse self q c Hs. split.
  - eapply (run_calls_invariant Inv Hparse [(q, c)] self Hs).
    cbn. apply predict_stores.
  - apply (run_calls_invariant Inv Hparse [(q, c)] self Hs).
Qed.

Lemma after_calls_invariant (Inv : Prediction -> Prop) calls :
  (forall text q, Inv (TavilyPredictor._parse_results text q)) ->
  forall k p,
    TavilyPredictor.cache (after_calls tavily calls) !! k = Some p -> Inv p.
Proof.
  intros Hparse. apply (run_calls_invariant Inv Hparse).
  intros k p. cbn. rewrite lookup_empty. discriminate.
Qed.

End Cache.

(** ** Claims about the prediction engine *)

(** C2.  Whatever the question, the category and the text the search
    yields (the empty text of a failed search included), and whatever
    calls the predictor served before, the prediction [predict] returns
    has 0.05 <= probability-of-YES <= 0.95 and 0 <= confidence <= 0.85. *)
Theorem prediction_in_range (tavily : nat -> string -> string)
    (calls : list (string * string)) (question category : string) :
  in_range
    (fst (TavilyPredictor.predict tavily (after_calls tavily calls)
            question category)).
Proof.
  apply (predict_invariant tavily in_range parse_results_in_range).
  apply after_calls_invariant. exact parse_results_in_range.
Qed.

(** C3.  From any predictor state, once [predict] has been called for a
    pair, a later call for the same pair (whatever calls came between)
    returns the very dict of the first call and leaves the predictor,
    its search log included, as it was; and over any sequence of calls
    on a fresh predictor each pair triggers at most one search. *)
Theorem predict_idempotent (tavily : nat -> string -> string) :
  (forall self question category between,
     let first := TavilyPredictor.predict tavily self question category in
     let later := run_calls tavily (snd first) between in
     TavilyPredictor.predict tavily later question category
     = (fst first, later)) /\
  (forall calls question category,
     (occurrences question category
        (computed tavily TavilyPredictor.init calls) <= 1)%nat).
Proof.
  split.
  - intros self q c between first later.
    apply predict_hit. apply run_calls_keeps. apply predict_stores.
  - intros calls q c. apply computed_once.
Qed.

Lemma append_cons a q s :
  String.append (String a q) s = String a (String.append q s).
Proof. reflexivity. Qed.

Lemma append_nil s : String.append EmptyString s = s.
Proof. reflexivity. Qed.

Lemma separator_found q : forall c,
  no_underscore (String.append q (String "_" c)) = false.
Proof.
  induction q as [|a q IH]; intros c.
  - reflexivity.
  - rewrite append_cons. cbn [no_underscore]. rewrite IH. apply andb_false_r.
Qed.

(** The cache key separates question and category when the categories
    hold no underscore. *)
Lemma cache_key_inj q1 : forall q2 c1 c2,
  no_underscore c1 = true -> no_underscore c2 = true ->
  TavilyPredictor.cache_key q1 c1 = TavilyPredictor.cache_key q2 c2 ->
  q1 = q2 /\ c1 = c2.
Proof.
  unfold TavilyPredictor.cache_key.
  induction q1 as [|a q1 IH]; intros [|b q2] c1 c2 H1 H2 E;
    rewrite ?append_cons, ?append_nil in E; inversion E; subst.
  - auto.
  - change (String.append "_" c2) with (String "_" c2) in H1.
    rewrite separator_found in H1. discriminate.
  - change (String.append "_" c1) with (String "_" c1) in H2.
    rewrite separator_found in H2. discriminate.
  - destruct (IH q2 c1 c2 H1 H2) as [-> ->]; auto.
Qed.

(** Every category [_detect_category] yields is such a category. *)
Lemma detect_category_no_underscore question :
  no_underscore (Trader._detect_category question) = true.
Proof.
  unfold Trader._detect_category.
  repeat match goal with |- context [if ?b then _ else _] => destruct b end;
    reflexivity.
Qed.

(** So for the categories the trader scripts pass, a cached entry is
    served only to the pair it was computed for. *)
Lemma cache_hit_same_pair (tavily : nat -> string -> string) q1 q2 c1 c2 :
  no_underscore c1 = true -> no_underscore c2 = true ->
  (q1, c1) <> (q2, c2) ->
  TavilyPredictor.cache
    (snd (TavilyPredictor.predict tavily TavilyPredictor.init q1 c1))
    !! TavilyPredictor.cache_key q2 c2 = None.
Proof.
  intros H1 H2 N. rewrite predict_miss by apply lookup_empty. cbn.
  rewrite lookup_insert_ne; [apply lookup_empty|].
  intros E. apply cache_key_inj in E; auto. destruct E; congruence.
Qed.

(** Every key of the cache was there before or is the key of a call. *)
Lemma run_calls_keys (tavily : nat -> string -> string) calls : forall self k,
  is_Some (TavilyPredictor.cache (run_calls tavily self calls) !! k) ->
  is_Some (TavilyPredictor.cache self !! k) \/
  exists q c, In (q, c) calls /\ k = TavilyPredictor.cache_key q c.
Proof.
  induction calls as [|[q c] calls IH]; intros self k H; [left; exact H|].
  cbn [run_calls fold_left fst snd] in H.
  destruct (IH _ _ H) as [Hs|(q' & c' & Hin & ->)].
  - destruct (TavilyPredictor.cache self !! TavilyPredictor.cache_key q c)
      as [p|] eqn:E.
    + rewrite (predict_hit _ _ _ _ _ E) in Hs. left. exact Hs.
    + rewrite (predict_miss _ _ _ _ E) in Hs. cbn in Hs.
      destruct (decide (TavilyPredictor.cache_key q c = k)) as [<-|N].
      * right. exists q, c. split; [left; reflexivity|reflexivity].
      * rewrite lookup_insert_ne in Hs by exact N. left. exact Hs.
  - right. exists q', c'. split; [right; exact Hin|reflexivity].
Qed.

(** Every pair called leaves its key in the cache. *)
Lemma run_calls_stored (tavily : nat -> string -> string) calls :
  forall self q c,
    In (q, c) calls ->
    is_Some (TavilyPredictor.cache (run_calls tavily self calls)
               !! TavilyPredictor.cache_key q c).
Proof.
  induction calls as [|[q' c'] calls IH]; intros self q c H; [destruct H|].
  cbn [run_calls fold_left fst snd]. destruct H as [[= -> ->]|H].
  - eexists. apply run_calls_keeps. apply predict_stores.
  - apply IH. exact H.
Qed.

(** C9.  The categories the program passes to [predict], those
    [_detect_category] yields, hold no underscore.  For calls with such
    categories, after any sequence of them on a fresh predictor: the
    key of a pair is cached exactly when that very pair was called
    before; a pair not called before is computed from its own search
    and stored; and a pair called before is served the dict its own
    first call returned. *)
Theorem cache_serves_own_pair (tavily : nat -> string -> string) :
  (forall question, no_underscore (Trader._detect_category question) = true) /\
  (forall calls question category,
     Forall (fun call => no_underscore (snd call) = true) calls ->
     no_underscore category = true ->
     let self := after_calls tavily calls in
     let key := TavilyPredictor.cache_key question category in
     let query := TavilyPredictor._build_query question category in
     let own :=
       TavilyPredictor._parse_results
         (tavily (List.length (TavilyPredictor.searches self)) query) question in
     (is_Some (TavilyPredictor.cache self !! key)
      <-> In (question, category) calls) /\
     (~ In (question, category) calls ->
      TavilyPredictor.predict tavily self question category
      = (own,
         {| TavilyPredictor.cache := <[key := own]> (TavilyPredictor.cache self);
            TavilyPredictor.searches :=
              TavilyPredictor.searches self ++ [query] |})) /\
     (forall before later,
        calls = before ++ (question, category) :: later ->
        TavilyPredictor.predict tavily self question category
        = (fst (TavilyPredictor.predict tavily (after_calls tavily before)
                  question category),
           self))).
Proof.
  split; [exact detect_category_no_underscore|].
  intros calls q c Hcalls Hc self key query own.
  assert (Hiff : is_Some (TavilyPredictor.cache self !! key) <-> In (q, c) calls).
  { split.
    - intros H. apply run_calls_keys in H. destruct H as [[p H]|(q' & c' & Hin & E)].
      + cbn in H. rewrite lookup_empty in H. discriminate.
      + rewrite List.Forall_forall in Hcalls. specialize (Hcalls _ Hin).
        cbn in Hcalls. apply cache_key_inj in E; auto.
        destruct E as [-> ->]. exact Hin.
    - apply run_calls_stored. }
  split; [exact Hiff|]. split.
  - intros Hnew. apply predict_miss.
    destruct (TavilyPredictor.cache self !! key) as [p|] eqn:E; [|exact E].
    destruct Hnew. apply Hiff. eauto.
  - intros before later ->. apply predict_hit.
    unfold self, after_calls, run_calls. rewrite fold_left_app.
    cbn [fold_left fst snd].
    apply (run_calls_keeps tavily later). apply predict_stores.
Qed.

(** After a call on a bitcoin question, a call on a weather question is
    computed afresh: both categories come from [_detect_category]. *)
Lemma cache_serves_own_pair_witness :
  let tavily := told_once "Analysts are bullish, a rally is likely." in
  let q1 := "Will Bitcoin hit $100000 by March 2026?"%string in
  let q2 := "Will it rain in Paris tomorrow?"%string in
  let self := after_calls tavily [(q1, Trader._detect_category q1)] in
  let key := TavilyPredictor.cache_key q2 (Trader._detect_category q2) in
  let query := TavilyPredictor._build_query q2 (Trader._detect_category q2) in
  let own :=
    TavilyPredictor._parse_results
      (tavily (List.length (TavilyPredictor.searches self)) query) q2 in
  TavilyPredictor.predict tavily self q2 (Trader._detect_category q2)
  = (own,
     {| TavilyPredictor.cache := <[key := own]> (TavilyPredictor.cache self);
        TavilyPredictor.searches := TavilyPredictor.searches self ++ [query] |}).
Proof.
  intros tavily q1 q2.
  assert (H1 : Forall (fun call : string * string => no_underscore (snd call) = true)
                 [(q1, Trader._detect_category q1)]).
  { constructor; [vm_compute; reflexivity|constructor]. }
  assert (H2 : no_underscore (Trader._detect_category q2) = true).
  { vm_compute. reflexivity. }
  assert (H3 : ~ In (q2, Trader._detect_category q2)
                 [(q1, Trader._detect_category q1)]).
  { vm_compute. intros [H|[]]; discriminate. }
  exact (proj1 (proj2
           (proj2 (cache_serves_own_pair tavily)
              [(q1, Trader._detect_category q1)] q2 (Trader._detect_category q2)
              H1 H2))
           H3).
Defined.

(** The restriction to such categories matters: the pairs ("a_b", "c")
    and ("a", "b_c"), which no caller of the program passes, share the
    cache key "a_b_c", and a call for the second after one for the
    first is served the first pair's dict. *)
Example cache_key_collision :
  let tavily := told_once "Analysts are bullish, a rally is likely." in
  let first := TavilyPredictor.predict tavily TavilyPredictor.init "a_b" "c" in
  let second := TavilyPredictor.predict tavily (snd first) "a" "b_c" in
  ("a_b"%string, "c"%string) <> ("a"%string, "b_c"%string) /\
  TavilyPredictor.cache_key "a_b" "c" = TavilyPredictor.cache_key "a" "b_c" /\
  second = (fst first, snd first) /\
  TavilyPredictor.searches (snd second) = ["a_b"%string] /\
  fst second
  <> TavilyPredictor._parse_results
       (tavily (List.length (TavilyPredictor.searches (snd first)))
          (TavilyPredictor._build_query "a" "b_c")) "a".
Proof.
  cbv zeta. split; [discriminate|]. split; [reflexivity|].
  split; [vm_compute; reflexivity|]. split; [vm_compute; reflexivity|].
  vm_compute. discriminate.
Qed.

(** ** The edge gate and the sizing *)

Section Gate.

Local Open Scope Q_scope.

(** What an accepted call of the shared tail looks like. *)
Lemma gate_and_size_trade market_id question category yes_price prediction opened t :
  Trader.gate_and_size market_id question category yes_price prediction opened
  = Return (Trade t) ->
  exists price,
    yes_price = JNum price /\
    pt_our_prediction t = default 0.5 (prob_yes prediction) /\
    pt_market_odds t = price /\
    pt_confidence t = default 0 (confidence prediction) /\
    pt_edge t = Qabs (pt_our_prediction t - price) /\
    pt_trade_size t = Py.round2 (10 + pt_confidence t * 40) /\
    pt_direction t = (if Qlt_le_dec price (pt_our_prediction t) then YES else NO) /\
    0.10 <= pt_edge t /\ 0.65 <= pt_confidence t.
Proof.
  unfold Trader.gate_and_size.
  destruct yes_price as [|price|s]; try discriminate.
  destruct (Qlt_le_dec _ 0.10) as [L1|G1]; try discriminate.
  destruct (Qlt_le_dec _ 0.65) as [L2|G2]; try discriminate.
  intros [= <-]. exists price. cbn. repeat split; auto.
Qed.

Lemma gate_and_size_gate_ok market_id question category yes_price prediction opened t :
  Trader.gate_and_size market_id question category yes_price prediction opened
  = Return (Trade t) ->
  gate_ok t.
Proof.
  intros H. apply gate_and_size_trade in H.
  destruct H as (price & _ & _ & Ho & _ & He & _ & _ & G1 & G2).
  unfold gate_ok. rewrite Ho. rewrite He at 1. repeat split; auto; reflexivity.
Qed.

(** The accepted trade records the market and the prediction. *)
Lemma gate_and_size_gated market category yes_price prediction opened t :
  Trader.yes_price_of market = Return yes_price ->
  Trader.gate_and_size (default ""%string (m_id market))
    (default ""%string (m_question market)) category yes_price prediction opened
  = Return (Trade t) ->
  gated_trade market prediction t.
Proof.
  intros Hy H. unfold Trader.gate_and_size in H.
  destruct yes_price as [|price|s]; try discriminate.
  destruct (Qlt_le_dec _ 0.10) as [L1|G1]; try discriminate.
  destruct (Qlt_le_dec _ 0.65) as [L2|G2]; try discriminate.
  injection H as <-. exists price. cbn. repeat split; auto.
Qed.

(** Below either threshold the tail returns [None]. *)
Lemma gate_and_size_rejects market_id question category price prediction opened :
  Qabs (default 0.5 (prob_yes prediction) - price) < 0.10 \/
  default 0 (confidence prediction) < 0.65 ->
  Trader.gate_and_size market_id question category (JNum price) prediction opened
  = Return NoTrade.
Proof.
  intros H. unfold Trader.gate_and_size.
  destruct (Qlt_le_dec _ 0.10) as [L1|G1]; [reflexivity|].
  destruct (Qlt_le_dec _ 0.65) as [L2|G2]; [reflexivity|].
  destruct H; lra.
Qed.

(** On a numeric price the tail never raises. *)
Lemma gate_and_size_returns market_id question category price prediction opened :
  exists a,
    Trader.gate_and_size market_id question category (JNum price) prediction opened
    = Return a.
Proof.
  unfold Trader.gate_and_size.
  destruct (Qlt_le_dec _ 0.10); [eauto|].
  destruct (Qlt_le_dec _ 0.65); eauto.
Qed.

(** The size of an accepted trade grows with its confidence and is at
    least the base size. *)
Lemma trade_size_mono c1 c2 :
  c1 <= c2 -> Py.round2 (10 + c1 * 40) <= Py.round2 (10 + c2 * 40).
Proof. intros H. apply round2_mono. lra. Qed.

Lemma trade_size_base c : 0.65 <= c -> 10 <= Py.round2 (10 + c * 40).
Proof.
  intros H.
  assert (E : Py.round2 (inject_Z 1000 * 0.01) == inject_Z 1000 * 0.01)
    by apply round2_hundredths.
  assert (M : Py.round2 (inject_Z 1000 * 0.01) <= Py.round2 (10 + c * 40))
    by (apply round2_mono; unfold inject_Z; lra).
  unfold inject_Z in E, M. lra.
Qed.

(** For a graded confidence the rounding is exact and the cap of 50 is
    not reached. *)
Lemma trade_size_graded (k : Z) c :
  (0 <= k <= 85)%Z -> c == inject_Z k * 0.01 ->
  Py.round2 (10 + c * 40) == Qmin 50 (10 + c * 40).
Proof.
  intros Hk E.
  assert (Hc : 0 <= c /\ c <= 0.85).
  { assert (H1 : 0 <= inject_Z k)
      by (change 0 with (inject_Z 0); rewrite <- Zle_Qle; lia).
    assert (H2 : inject_Z k <= 85)
      by (change 85 with (inject_Z 85); rewrite <- Zle_Qle; lia).
    rewrite E. split; lra. }
  rewrite Q.min_r by lra.
  assert (E2 : 10 + c * 40 == inject_Z (1000 + 40 * k) * 0.01).
  { rewrite inject_Z_plus, inject_Z_mult, E.
    change (inject_Z 1000) with 1000. change (inject_Z 40) with 40. lra. }
  rewrite round2_eq.
  rewrite (round_half_even_eq ((10 + c * 40) * 100) (inject_Z (1000 + 40 * k)))
    by (rewrite E2; lra).
  rewrite round_half_even_Z, E2. reflexivity.
Qed.

End Gate.

(** ** One market, one scan *)

Section AnalyzeV2.

Context {P : Type}.
Variable predict : P -> string -> string -> option Prediction * P.
Variable fromisoformat : string -> option Datetime.datetime.

Local Abbreviation analyze := (PaperTraderV2._analyze_market predict fromisoformat).
Local Abbreviation verdict := (PaperTraderV2.date_verdict fromisoformat).
Local Abbreviation loop := (PaperTraderV2.scan_loop predict fromisoformat).

(** The analysis of a market touches neither the ledger nor the year. *)
Lemma analyze_v2_ledger self now opened market days_ahead :
  db (snd (analyze self now opened market days_ahead)) = db self /\
  current_year (snd (analyze self now opened market days_ahead))
  = current_year self.
Proof.
  unfold PaperTraderV2._analyze_market.
  destruct (verdict now market days_ahead); [auto|].
  destruct (existsb _ _); [auto|].
  destruct (Trader.yes_price_of market); [|auto].
  destruct (predict _ _ _) as [[pr|] p]; auto.
Qed.

(** A returned trade went through the predictor and the shared tail. *)
Lemma analyze_v2_trade self now opened market days_ahead t :
  fst (analyze self now opened market days_ahead) = Return (Trade t) ->
  exists prediction yes_price,
    let question := default ""%string (m_question market) in
    fst (predict (predictor self) question (Trader._detect_category question))
    = Some prediction /\
    Trader.gate_and_size (default ""%string (m_id market)) question
      (Trader._detect_category question) yes_price prediction opened
    = Return (Trade t).
Proof.
  unfold PaperTraderV2._analyze_market.
  destruct (verdict now market days_ahead) as [v|] eqn:V.
  { cbn. intros [= ->]. unfold PaperTraderV2.date_verdict in V.
    destruct (PaperTraderV2.end_date_of market); [discriminate|].
    destruct (fromisoformat _); [|discriminate].
    destruct (Datetime.ltb _ _); [discriminate|].
    destruct (_ <? _)%Z; discriminate. }
  destruct (existsb _ _); [discriminate|].
  destruct (Trader.yes_price_of market) as [yes_price|e]; [|discriminate].
  destruct (predict _ _ _) as [[pr|] p] eqn:E; [|discriminate].
  intros H. exists pr, yes_price. split; [reflexivity|exact H].
Qed.

(** A returned trade records the market and the prediction made for
    it, and both pass the gate. *)
Lemma analyze_v2_gated self now opened market days_ahead t :
  fst (analyze self now opened market days_ahead) = Return (Trade t) ->
  exists p, predicted predict self market = Some p /\ gated_trade market p t.
Proof.
  unfold PaperTraderV2._analyze_market, predicted.
  destruct (verdict now market days_ahead) as [v|] eqn:V.
  { cbn. intros [= ->]. unfold PaperTraderV2.date_verdict in V.
    destruct (PaperTraderV2.end_date_of market); [discriminate|].
    destruct (fromisoformat _); [|discriminate].
    destruct (Datetime.ltb _ _); [discriminate|].
    destruct (_ <? _)%Z; discriminate. }
  destruct (existsb _ _); [discriminate|].
  destruct (Trader.yes_price_of market) as [yes_price|e] eqn:Y; [|discriminate].
  destruct (predict _ _ _) as [[pr|] p] eqn:E; [|discriminate].
  cbn [fst]. intros H. exists pr. split; [reflexivity|].
  eapply gate_and_size_gated; eauto.
Qed.

(** A prediction that misses a bound gives no trade. *)
Lemma analyze_v2_rejects self now opened market days_ahead p t :
  predicted predict self market = Some p -> below_gate market p ->
  fst (analyze self now opened market days_ahead) <> Return (Trade t).
Proof.
  intros Hp (price & Hy & Hb) Ht.
  destruct (analyze_v2_gated _ _ _ _ _ _ Ht) as (p' & Hp' & price' & Hy' & G).
  rewrite Hp in Hp'. injection Hp' as <-.
  rewrite Hy in Hy'. injection Hy' as <-.
  destruct G as (_ & _ & _ & _ & _ & _ & G1 & G2).
  destruct Hb as [Hb|Hb]; [apply (Qlt_not_le _ _ Hb G1)|apply (Qlt_not_le _ _ Hb G2)].
Qed.

(** The trades of the loop are those it started with and, after them,
    trades of markets it analysed. *)
Lemma scan_loop_v2_traced clock days_ahead markets :
  forall self i predictions skipped_date skipped_year,
    match fst (loop self clock i markets days_ahead
                 predictions skipped_date skipped_year) with
    | Return (trades, _, _) =>
        exists new,
          trades = predictions ++ new /\
          Forall
            (logged_by_gate predict
               (visited (analysis_v2 predict fromisoformat clock days_ahead)
                  self i markets))
            new
    | Raise _ => True
    end.
Proof.
  induction markets as [|market rest IH];
    intros self i predictions sd sy.
  { cbn. exists []. rewrite app_nil_r. split; [reflexivity|constructor]. }
  cbn [PaperTraderV2.scan_loop visited]. unfold analysis_v2 at 1.
  assert (HT := analyze_v2_gated self (fst (clock i)) (snd (clock i))
                  market days_ahead).
  destruct (analyze _ _ _ _ _) as [[a|e] self'] eqn:A; [|exact I].
  assert (Hrest : forall predictions' sd' sy',
            match fst (loop self' clock (S i) rest days_ahead
                         predictions' sd' sy') with
            | Return (trades, _, _) =>
                exists new,
                  trades = predictions' ++ new /\
                  Forall
                    (logged_by_gate predict
                       ((market, self) ::
                        visited (analysis_v2 predict fromisoformat clock days_ahead)
                          self' (S i) rest))
                    new
            | Raise _ => True
            end).
  { intros predictions' sd' sy'. specialize (IH self' (S i) predictions' sd' sy').
    destruct (fst (loop _ _ _ _ _ _ _ _)) as [[[trades a1] a2]|]; [|exact I].
    destruct IH as (new & -> & HF). exists new. split; [reflexivity|].
    eapply List.Forall_impl; [|exact HF].
    intros t (m & s & p & Hin & Hp & Hg). exists m, s, p.
    split; [right; exact Hin|auto]. }
  destruct a as [| | |t]; try apply Hrest.
  specialize (Hrest (predictions ++ [t]) sd sy).
  destruct (fst (loop _ _ _ _ _ _ _ _)) as [[[trades a1] a2]|]; [|exact I].
  destruct Hrest as (new & -> & HF). exists (t :: new).
  split; [rewrite <- app_assoc; reflexivity|].
  constructor; [|exact HF].
  destruct (HT t eq_refl) as (p & Hp & Hg). exists market, self, p.
  split; [left; reflexivity|auto].
Qed.

Lemma scan_v2_traced self events clock days_ahead :
  Forall
    (logged_by_gate predict
       (visited (analysis_v2 predict fromisoformat clock days_ahead)
          self 0 (Trader.flatten events)))
    (trades_of (PaperTraderV2.scan_and_predict predict fromisoformat
                  self events clock days_ahead)).
Proof.
  unfold PaperTraderV2.scan_and_predict, trades_of.
  assert (H := scan_loop_v2_traced clock days_ahead (Trader.flatten events)
                 self 0%nat [] 0%nat 0%nat).
  destruct (loop _ _ _ _ _ _ _ _) as [[[[trades sd] sy]|e] self']; cbn in *.
  - destruct H as (new & -> & HF). exact HF.
  - constructor.
Qed.

Section Invariant.

(** [Inv] is kept by every analysis and makes every returned trade
    satisfy [Good]. *)
Variable Inv : PaperTrader P -> Prop.
Variable Good : PaperTrade -> Prop.
Hypothesis step_ok : forall self now opened market days_ahead,
  Inv self ->
  Inv (snd (analyze self now opened market days_ahead)) /\
  forall t,
    fst (analyze self now opened market days_ahead) = Return (Trade t) ->
    Good t.

Lemma scan_loop_v2_good clock days_ahead markets :
  forall self i predictions skipped_date skipped_year,
    Inv self -> Forall Good predictions ->
    db (snd (loop self clock i markets days_ahead
               predictions skipped_date skipped_year)) = db self /\
    match fst (loop self clock i markets days_ahead
                 predictions skipped_date skipped_year) with
    | Return (trades, _, _) => Forall Good trades
    | Raise _ => True
    end.
Proof.
  induction markets as [|market rest IH];
    intros self i predictions sd sy HI HG; [cbn; auto|].
  cbn [PaperTraderV2.scan_loop].
  destruct (step_ok self (fst (clock i)) (snd (clock i)) market days_ahead HI)
    as [HI' HT].
  destruct (analyze_v2_ledger self (fst (clock i)) (snd (clock i))
              market days_ahead) as [Hdb _].
  destruct (analyze _ _ _ _ _) as [[[| | |t]|e] self']; cbn in *;
    try (rewrite <- Hdb; apply IH; auto).
  - apply Forall_app; split; auto.
  - auto.
Qed.

Lemma scan_v2_good self events clock days_ahead :
  Inv self ->
  let r := PaperTraderV2.scan_and_predict predict fromisoformat
             self events clock days_ahead in
  db (snd r) = db self ++ map Trader.new_row (trades_of r) /\
  Forall Good (trades_of r).
Proof.
  intros HI. unfold PaperTraderV2.scan_and_predict, trades_of.
  destruct (scan_loop_v2_good clock days_ahead (Trader.flatten events)
              self 0%nat [] 0%nat 0%nat HI (List.Forall_nil _)) as [Hdb HG].
  destruct (loop _ _ _ _ _ _ _ _) as [[[[trades sd] sy]|e] self']; cbn in *.
  - rewrite Hdb. auto.
  - rewrite Hdb, app_nil_r. auto.
Qed.

End Invariant.

End AnalyzeV2.

Section AnalyzeV1.

Context {P : Type}.
Variable predict : P -> string -> string -> option Prediction * P.
Variable fromisoformat : string -> option Datetime.datetime.

Local Abbreviation analyze := (PaperTraderV1._analyze_market predict fromisoformat).
Local Abbreviation loop := (PaperTraderV1.scan_loop predict fromisoformat).

Lemma analyze_v1_ledger self now opened market :
  db (snd (analyze self now opened market)) = db self.
Proof.
  unfold PaperTraderV1._analyze_market.
  match goal with |- context [if ?b then _ else _] => destruct b end; [auto|].
  destruct (Trader.yes_price_of market); [|auto].
  destruct (predict _ _ _) as [[pr|] p]; auto.
Qed.

Lemma analyze_v1_trade self now opened market t :
  fst (analyze self now opened market) = Return (Trade t) ->
  exists prediction yes_price,
    let question := default ""%string (m_question market) in
    fst (predict (predictor self) question (Trader._detect_category question))
    = Some prediction /\
    Trader.gate_and_size (default ""%string (m_id market)) question
      (Trader._detect_category question) yes_price prediction
      (Datetime.naive opened)
    = Return (Trade t).
Proof.
  unfold PaperTraderV1._analyze_market.
  match goal with |- context [if ?b then _ else _] => destruct b end;
    [discriminate|].
  destruct (Trader.yes_price_of market) as [yes_price|e]; [|discriminate].
  destruct (predict _ _ _) as [[pr|] p] eqn:E; [|discriminate].
  intros H. exists pr, yes_price. split; [reflexivity|exact H].
Qed.

Lemma analyze_v1_gated self now opened market t :
  fst (analyze self now opened market) = Return (Trade t) ->
  exists p, predicted predict self market = Some p /\ gated_trade market p t.
Proof.
  unfold PaperTraderV1._analyze_market, predicted.
  match goal with |- context [if ?b then _ else _] => destruct b end;
    [discriminate|].
  destruct (Trader.yes_price_of market) as [yes_price|e] eqn:Y; [|discriminate].
  destruct (predict _ _ _) as [[pr|] p] eqn:E; [|discriminate].
  cbn [fst]. intros H. exists pr. split; [reflexivity|].
  eapply gate_and_size_gated; eauto.
Qed.

Lemma analyze_v1_rejects self now opened market p t :
  predicted predict self market = Some p -> below_gate market p ->
  fst (analyze self now opened market) <> Return (Trade t).
Proof.
  intros Hp (price & Hy & Hb) Ht.
  destruct (analyze_v1_gated _ _ _ _ _ Ht) as (p' & Hp' & price' & Hy' & G).
  rewrite Hp in Hp'. injection Hp' as <-.
  rewrite Hy in Hy'. injection Hy' as <-.
  destruct G as (_ & _ & _ & _ & _ & _ & G1 & G2).
  destruct Hb as [Hb|Hb]; [apply (Qlt_not_le _ _ Hb G1)|apply (Qlt_not_le _ _ Hb G2)].
Qed.

Lemma scan_loop_v1_traced clock markets :
  forall self i predictions,
    match fst (loop self clock i markets predictions) with
    | Return trades =>
        exists new,
          trades = predictions ++ new /\
          Forall
            (logged_by_gate predict
               (visited (analysis_v1 predict fromisoformat clock) self i markets))
            new
    | Raise _ => True
    end.
Proof.
  induction markets as [|market rest IH]; intros self i predictions.
  { cbn. exists []. rewrite app_nil_r. split; [reflexivity|constructor]. }
  cbn [PaperTraderV1.scan_loop visited]. unfold analysis_v1 at 1.
  assert (HT := analyze_v1_gated self (fst (clock i)) (snd (clock i)) market).
  destruct (analyze _ _ _ _) as [[a|e] self'] eqn:A; [|exact I].
  assert (Hrest : forall predictions',
            match fst (loop self' clock (S i) rest predictions') with
            | Return trades =>
                exists new,
                  trades = predictions' ++ new /\
                  Forall
                    (logged_by_gate predict
                       ((market, self) ::
                        visited (analysis_v1 predict fromisoformat clock)
                          self' (S i) rest))
                    new
            | Raise _ => True
            end).
  { intros predictions'. specialize (IH self' (S i) predictions').
    destruct (fst (loop _ _ _ _ _)) as [trades|]; [|exact I].
    destruct IH as (new & -> & HF). exists new. split; [reflexivity|].
    eapply List.Forall_impl; [|exact HF].
    intros t (m & s & p & Hin & Hp & Hg). exists m, s, p.
    split; [right; exact Hin|auto]. }
  destruct a as [| | |t]; try apply Hrest.
  specialize (Hrest (predictions ++ [t])).
  destruct (fst (loop _ _ _ _ _)) as [trades|]; [|exact I].
  destruct Hrest as (new & -> & HF). exists (t :: new).
  split; [rewrite <- app_assoc; reflexivity|].
  constructor; [|exact HF].
  destruct (HT t eq_refl) as (p & Hp & Hg). exists market, self, p.
  split; [left; reflexivity|auto].
Qed.

Lemma scan_v1_traced self events clock :
  Forall
    (logged_by_gate predict
       (visited (analysis_v1 predict fromisoformat clock)
          self 0 (Trader.flatten events)))
    (trades_of (PaperTraderV1.scan_and_predict predict fromisoformat
                  self events clock)).
Proof.
  unfold PaperTraderV1.scan_and_predict, trades_of.
  assert (H := scan_loop_v1_traced clock (Trader.flatten events) self 0%nat []).
  destruct (loop _ _ _ _ _) as [[trades|e] self']; cbn in *.
  - destruct H as (new & -> & HF). exact HF.
  - constructor.
Qed.

Lemma scan_loop_v1_gated clock markets :
  forall self i predictions,
    Forall gate_ok predictions ->
    db (snd (loop self clock i markets predictions)) = db self /\
    match fst (loop self clock i markets predictions) with
    | Return trades => Forall gate_ok trades
    | Raise _ => True
    end.
Proof.
  induction markets as [|market rest IH]; intros self i predictions HG;
    [cbn; auto|].
  cbn [PaperTraderV1.scan_loop].
  assert (Hdb := analyze_v1_ledger self (fst (clock i)) (snd (clock i)) market).
  assert (HT := analyze_v1_trade self (fst (clock i)) (snd (clock i)) market).
  destruct (analyze _ _ _ _) as [[[| | |t]|e] self']; cbn in *;
    try (rewrite <- Hdb; apply IH; auto).
  - apply Forall_app; split; auto. constructor; [|constructor].
    destruct (HT t eq_refl) as (pr & yp & _ & Hg).
    eapply gate_and_size_gate_ok; exact Hg.
  - auto.
Qed.

Lemma scan_v1_gated self events clock :
  let r := PaperTraderV1.scan_and_predict predict fromisoformat
             self events clock in
  db (snd r) = db self ++ map Trader.new_row (trades_of r) /\
  Forall gate_ok (trades_of r).
Proof.
  unfold PaperTraderV1.scan_and_predict, trades_of.
  destruct (scan_loop_v1_gated clock (Trader.flatten events)
              self 0%nat [] (List.Forall_nil _)) as [Hdb HG].
  destruct (loop _ _ _ _ _) as [[trades|e] self']; cbn in *.
  - rewrite Hdb. auto.
  - rewrite Hdb, app_nil_r. auto.
Qed.

End AnalyzeV1.

(** The markets a loop visits are markets of its list. *)
Lemma visited_listed {P : Type}
    (analyze : PaperTrader P -> nat -> Market -> result Analysis * PaperTrader P)
    markets : forall self i market s,
  In (market, s) (visited analyze self i markets) -> In market markets.
Proof.
  induction markets as [|m rest IH]; intros self i market s H; [destruct H|].
  cbn [visited] in H. destruct H as [[= -> _]|H]; [left; reflexivity|].
  right. destruct (analyze self i m) as [[a|e] self']; [|destruct H].
  eapply IH; exact H.
Qed.

(** ** Claims about the edge gate and the sizing *)

(** C1.  In both trader scripts, whatever the predictor: the rows a scan
    adds to the ledger are exactly the rows of the trades it returns (a
    scan that raises adds none); each of these trades comes from a
    market of the listing that the scan analysed and records that
    market's quoted YES price and the prediction the predictor gave for
    it at that point, with edge = |our probability - quoted YES price|
    >= 0.10 and confidence >= 0.65; and a market whose prediction has an
    edge below 0.10 or a confidence below 0.65 is never analysed to a
    trade, so no row is logged for it. *)
Theorem only_gated_trades_are_logged {P : Type}
    (predict : P -> string -> string -> option Prediction * P)
    (fromisoformat : string -> option Datetime.datetime)
    (self : PaperTrader P) (events : list Event)
    (clock : nat -> Datetime.datetime * Datetime.datetime)
    (clock1 : nat -> Datetime.datetime * Z) (days_ahead : Z) :
  let v2 := PaperTraderV2.scan_and_predict predict fromisoformat
              self events clock days_ahead in
  let v1 := PaperTraderV1.scan_and_predict predict fromisoformat
              self events clock1 in
  let seen2 := visited (analysis_v2 predict fromisoformat clock days_ahead)
                 self 0 (Trader.flatten events) in
  let seen1 := visited (analysis_v1 predict fromisoformat clock1)
                 self 0 (Trader.flatten events) in
  (db (snd v2) = db self ++ map Trader.new_row (trades_of v2) /\
   Forall (logged_by_gate predict seen2) (trades_of v2) /\
   incl (map fst seen2) (Trader.flatten events)) /\
  (db (snd v1) = db self ++ map Trader.new_row (trades_of v1) /\
   Forall (logged_by_gate predict seen1) (trades_of v1) /\
   incl (map fst seen1) (Trader.flatten events)) /\
  (forall s now opened opened1 market p t,
     predicted predict s market = Some p -> below_gate market p ->
     fst (PaperTraderV2._analyze_market predict fromisoformat
            s now opened market days_ahead) <> Return (Trade t) /\
     fst (PaperTraderV1._analyze_market predict fromisoformat
            s now opened1 market) <> Return (Trade t)).
Proof.
  assert (Hincl : forall analyze,
            incl (map fst (visited analyze self 0 (Trader.flatten events)))
              (Trader.flatten events)).
  { intros analyze m Hm. apply in_map_iff in Hm.
    destruct Hm as ([m' s] & <- & Hin). eapply visited_listed; exact Hin. }
  cbv zeta. split; [|split].
  - split; [|split; [apply scan_v2_traced|apply Hincl]].
    apply (scan_v2_good predict fromisoformat (fun _ => True) (fun _ => True));
      [|exact I].
    intros; split; [exact I|intros; exact I].
  - split; [|split; [apply scan_v1_traced|apply Hincl]].
    apply scan_v1_gated.
  - intros s now opened opened1 market p t Hp Hb. split.
    + eapply analyze_v2_rejects; eauto.
    + eapply analyze_v1_rejects; eauto.
Qed.

(** The scenario with quoted price 0.50, estimate 0.55 and confidence
    0.70: the edge 0.05 is below 0.10, neither script returns a trade. *)
Lemma only_gated_trades_are_logged_witness :
  let market := listed "Will it rain in Paris tomorrow?" None (Some 0.50%Q) in
  below_gate market (estimate 0.55 0.70) /\
  forall t,
    fst (PaperTraderV2._analyze_market (fixed_predict (estimate 0.55 0.70))
           Datetime.fromisoformat_basic (trader_on tt [] 2026)
           morning morning market 30) <> Return (Trade t) /\
    fst (PaperTraderV1._analyze_market (fixed_predict (estimate 0.55 0.70))
           Datetime.fromisoformat_basic (trader_on tt [] 2026)
           morning (Datetime.wall morning) market) <> Return (Trade t).
Proof.
  intros market.
  assert (Hb : below_gate market (estimate 0.55 0.70)).
  { exists 0.50%Q. split; [reflexivity|]. left. vm_compute. reflexivity. }
  split; [exact Hb|]. intros t.
  apply (proj2 (proj2
           (only_gated_trades_are_logged (fixed_predict (estimate 0.55 0.70))
              Datetime.fromisoformat_basic (trader_on tt [] 2026) []
              (fun _ => (morning, morning))
              (fun _ => (morning, Datetime.wall morning)) 30%Z))
           (trader_on tt [] 2026) morning morning (Datetime.wall morning) market
           (estimate 0.55 0.70) t).
  - reflexivity.
  - exact Hb.
Defined.

(** A market whose prediction misses either bound yields [None]. *)
Lemma below_threshold_no_trade {P : Type}
    (predict : P -> string -> string -> option Prediction * P)
    (fromisoformat : string -> option Datetime.datetime)
    (self : PaperTrader P) now opened market days_ahead t :
  fst (PaperTraderV2._analyze_market predict fromisoformat
         self now opened market days_ahead) = Return (Trade t) ->
  ~ (Qabs (pt_our_prediction t - pt_market_odds t) < 0.10)%Q /\
  ~ (pt_confidence t < 0.65)%Q.
Proof.
  intros Ht. apply analyze_v2_trade in Ht. destruct Ht as (pr & yp & _ & Hg).
  apply gate_and_size_gate_ok in Hg. destruct Hg as (E & G1 & G2).
  rewrite <- E. split; apply Qle_not_lt; assumption.
Qed.

(** A scan over one event whose market is the scenario's logs one row. *)
Example scan_logs_accepted_market :
  let r := PaperTraderV2.scan_and_predict (fixed_predict (estimate 0.60 0.70))
             Datetime.fromisoformat_basic (trader_on tt [] 2026)
             [ {| e_title := Some "Weather"%string; e_endDate := None;
                  e_markets :=
                    Some [listed "Will it rain in Paris tomorrow?" None
                            (Some 0.35%Q);
                          listed "Will it snow in Paris tomorrow?" None
                            (Some 0.55%Q)] |} ]
             (fun _ => (morning, morning)) 30 in
  map pt_question (trades_of r) = ["Will it rain in Paris tomorrow?"%string] /\
  map (fun row => pt_question (trade row)) (db (snd r))
  = ["Will it rain in Paris tomorrow?"%string].
Proof. vm_compute. split; reflexivity. Qed.

Section SizedByEngine.

Variable tavily : nat -> string -> string.
Variable fromisoformat : string -> option Datetime.datetime.

Lemma sized_step self now opened market days_ahead :
  graded_cache self ->
  graded_cache
    (snd (PaperTraderV2._analyze_market (tavily_predict tavily) fromisoformat
            self now opened market days_ahead)) /\
  forall t,
    fst (PaperTraderV2._analyze_market (tavily_predict tavily) fromisoformat
           self now opened market days_ahead) = Return (Trade t) ->
    size_ok t.
Proof.
  intros HI. split.
  - unfold PaperTraderV2._analyze_market.
    destruct (PaperTraderV2.date_verdict _ _ _ _); [exact HI|].
    destruct (existsb _ _); [exact HI|].
    destruct (Trader.yes_price_of market); [|exact HI].
    unfold tavily_predict.
    set (q := default ""%string (m_question market)).
    destruct (predict_invariant tavily graded parse_results_graded
                (predictor self) q (Trader._detect_category q) HI) as [_ HC].
    destruct (TavilyPredictor.predict _ _ _ _) as [pr p]. exact HC.
  - intros t Ht. apply analyze_v2_trade in Ht.
    destruct Ht as (pr & yp & Hp & Hg). cbv zeta in Hp.
    set (q := default ""%string (m_question market)) in *.
    destruct (predict_invariant tavily graded parse_results_graded
                (predictor self) q (Trader._detect_category q) HI) as [HG _].
    unfold tavily_predict in Hp.
    destruct (TavilyPredictor.predict _ _ _ _) as [pr' p]. cbn in Hp, HG.
    injection Hp as ->.
    apply gate_and_size_trade in Hg.
    destruct Hg as (price & _ & _ & _ & Hc & _ & Hs & _ & _ & G2).
    destruct HG as (k & c & Hk & Hck & Ek).
    rewrite Hck in Hc. cbn in Hc.
    unfold size_ok. rewrite Hs, Hc. split.
    + apply (trade_size_graded k); assumption.
    + apply trade_size_base. rewrite <- Hc. exact G2.
Qed.

Lemma sized_scan calls rows year events clock days_ahead :
  Forall size_ok
    (trades_of
       (PaperTraderV2.scan_and_predict (tavily_predict tavily) fromisoformat
          (trader_on (after_calls tavily calls) rows year)
          events clock days_ahead)).
Proof.
  apply (scan_v2_good (tavily_predict tavily) fromisoformat graded_cache size_ok
           sized_step).
  unfold graded_cache. cbn. apply after_calls_invariant.
  exact parse_results_graded.
Qed.

End SizedByEngine.

(** The sizing of the paper trader.  With the engine the scripts
    construct, every trade a scan returns has size = min(50, 10 +
    confidence * 40) and size >= 10; with any predictor, of two
    accepted trades the one with the higher confidence has the higher
    or equal size, and each size is at least 10; and a market quoted at
    0.35 with estimate 0.60 and confidence 0.70 is accepted with
    direction YES, edge 0.25, size 38. *)
Lemma trade_size_formula :
  (forall tavily fromisoformat calls rows year events clock days_ahead,
     Forall size_ok
       (trades_of
          (PaperTraderV2.scan_and_predict (tavily_predict tavily) fromisoformat
             (trader_on (after_calls tavily calls) rows year)
             events clock days_ahead))) /\
  (forall (P : Type) predict fromisoformat (self1 self2 : PaperTrader P)
          now1 opened1 market1 days1 now2 opened2 market2 days2 t1 t2,
     fst (PaperTraderV2._analyze_market predict fromisoformat
            self1 now1 opened1 market1 days1) = Return (Trade t1) ->
     fst (PaperTraderV2._analyze_market predict fromisoformat
            self2 now2 opened2 market2 days2) = Return (Trade t2) ->
     (pt_confidence t1 <= pt_confidence t2)%Q ->
     (pt_trade_size t1 <= pt_trade_size t2)%Q /\ (10 <= pt_trade_size t1)%Q) /\
  (exists t,
     fst (PaperTraderV2._analyze_market (fixed_predict (estimate 0.60 0.70))
            Datetime.fromisoformat_basic (trader_on tt [] 2026) morning morning
            (listed "Will it rain in Paris tomorrow?" None (Some 0.35%Q)) 30)
     = Return (Trade t) /\
     pt_direction t = YES /\ (pt_edge t == 0.25)%Q /\
     (pt_trade_size t == 38)%Q).
Proof.
  split; [|split].
  - intros. apply sized_scan.
  - intros P predict fromisoformat self1 self2 now1 opened1 market1 days1
      now2 opened2 market2 days2 t1 t2 H1 H2 Hc.
    apply analyze_v2_trade in H1. destruct H1 as (pr1 & yp1 & _ & Hg1).
    apply analyze_v2_trade in H2. destruct H2 as (pr2 & yp2 & _ & Hg2).
    apply gate_and_size_trade in Hg1.
    destruct Hg1 as (price1 & _ & _ & _ & _ & _ & Hs1 & _ & _ & G1).
    apply gate_and_size_trade in Hg2.
    destruct Hg2 as (price2 & _ & _ & _ & _ & _ & Hs2 & _ & _ & G2).
    rewrite Hs1, Hs2. split.
    + apply trade_size_mono. exact Hc.
    + apply trade_size_base. exact G1.
  - eexists. split; [vm_compute; reflexivity|].
    split; [reflexivity|]. split; vm_compute; reflexivity.
Qed.

Lemma trade_size_formula_witness :
  exists t1 t2,
    fst (PaperTraderV2._analyze_market two_estimates
           Datetime.fromisoformat_basic (trader_on tt [] 2026) morning morning
           (listed "Will it rain in Paris tomorrow?" None (Some 0.35%Q)) 30)
    = Return (Trade t1) /\
    fst (PaperTraderV2._analyze_market two_estimates
           Datetime.fromisoformat_basic (trader_on tt [] 2026) morning morning
           (listed "Will the election be held tomorrow?" None (Some 0.35%Q)) 30)
    = Return (Trade t2) /\
    (pt_trade_size t1 <= pt_trade_size t2)%Q /\ (10 <= pt_trade_size t1)%Q.
Proof.
  eexists _, _.
  split; [vm_compute; reflexivity|].
  split; [vm_compute; reflexivity|].
  apply (proj1 (proj2 trade_size_formula) unit two_estimates
           Datetime.fromisoformat_basic
           (trader_on tt [] 2026) (trader_on tt [] 2026)
           morning morning
           (listed "Will it rain in Paris tomorrow?" None (Some 0.35%Q)) 30%Z
           morning morning
           (listed "Will the election be held tomorrow?" None (Some 0.35%Q)) 30%Z).
  - vm_compute. reflexivity.
  - vm_compute. reflexivity.
  - vm_compute. discriminate.
Defined.

(** C4, at the input where it fails.  In [main.py] the scenario's
    market, quoted at 0.35 and analysed by [MarketAnalyzer] with
    probability 0.60 and confidence 0.70, is accepted by every risk
    manager that approves it, but not with direction YES: the analyzer
    names the direction "YES", [evaluate_position] buys YES only for
    "UP", and the decision's side is NO.  Its size is what the risk
    manager calculates, capped at [max_trade_size]. *)
Theorem scenario_side_is_no {News : Type} (fetch : string -> News)
    (analyze : News -> Q)
    (calculate : string -> Q -> Market -> News -> Analyzer.Calculation)
    (calculate_position : Q -> Q -> Q -> Q) (approve_trade : Q -> Q -> Q -> bool)
    (listing : Market) (self : Bot.PolymarketBot) (id : string) :
  let prediction :=
    Analyzer.as_bot_prediction
      (Analyzer.analyze_market fetch analyze calculate listing) in
  let market :=
    {| Bot.b_id := id; Bot.b_volume := None; Bot.b_yes_price := Some 0.35%Q;
       Bot.b_resolved := false |} in
  let opportunity :=
    {| Bot.market := market; Bot.prediction := prediction;
       Bot.edge := BotScan._calculate_edge prediction market |} in
  let position_size := calculate_position 0.70%Q (Bot.edge opportunity) 1000%Q in
  Bot.probability prediction = 0.60%Q ->
  Bot.b_confidence prediction = 0.70%Q ->
  (Z.of_nat (List.length (Bot.active_positions self))
     < Bot.max_open_positions (Bot.config self))%Z ->
  Py.dict_get id (Bot.active_positions self) = None ->
  approve_trade position_size 0.60%Q 0.35%Q = true ->
  exists decision,
    Bot.evaluate_position calculate_position approve_trade self opportunity
    = Some decision /\
    Bot.direction prediction = "YES"%string /\
    Bot.side decision = NO /\
    Bot.d_size decision = Qmin position_size (Bot.max_trade_size (Bot.config self)).
Proof.
  intros prediction market opportunity position_size Hp Hc Hroom Hnew Hok.
  assert (Hd : Bot.direction prediction = "YES"%string).
  { revert Hp. unfold prediction, Analyzer.as_bot_prediction,
      Analyzer.analyze_market. cbn [Bot.probability Bot.direction
      Analyzer.e_probability Analyzer.e_direction].
    intros ->. reflexivity. }
  eexists. split; [|split; [exact Hd|split]].
  - unfold Bot.evaluate_position.
    apply Z.leb_gt in Hroom. rewrite Hroom.
    cbn [Bot.market Bot.b_id Bot.b_volume Bot.b_yes_price Bot.prediction
         opportunity market default].
    rewrite Hnew, Hc, Hp. unfold Datatypes.id. fold position_size.
    rewrite Hok. cbn [negb].
    reflexivity.
  - cbn [Bot.side]. rewrite Hd. reflexivity.
  - reflexivity.
Qed.

(** The scenario with the analyzer's collaborators and a risk manager
    standing in: the specification's sizing, every trade approved. *)
Lemma scenario_side_is_no_witness :
  exists decision,
    Bot.evaluate_position sizing_by_confidence approve_all
      (Bot.init eager_config)
      {| Bot.market := bot_market "m1";
         Bot.prediction :=
           Analyzer.as_bot_prediction
             (sample_estimate (listed "Will it rain in Paris tomorrow?" None None));
         Bot.edge :=
           BotScan._calculate_edge
             (Analyzer.as_bot_prediction
                (sample_estimate
                   (listed "Will it rain in Paris tomorrow?" None None)))
             (bot_market "m1") |}
    = Some decision /\
    Bot.direction
      (Analyzer.as_bot_prediction
         (sample_estimate (listed "Will it rain in Paris tomorrow?" None None)))
    = "YES"%string /\
    Bot.side decision = NO /\
    Bot.d_size decision
    = Qmin
        (sizing_by_confidence 0.70%Q
           (BotScan._calculate_edge
              (Analyzer.as_bot_prediction
                 (sample_estimate
                    (listed "Will it rain in Paris tomorrow?" None None)))
              (bot_market "m1"))
           1000%Q)
        (Bot.max_trade_size eager_config).
Proof.
  apply (scenario_side_is_no (fun question : string => question)
           (fun _ => 0.4%Q)
           (fun _ _ _ _ =>
              {| Analyzer.c_prob_yes := 0.60%Q; Analyzer.c_confidence := 0.70%Q;
                 Analyzer.c_reasoning := "estimate"; Analyzer.c_sources := [] |})
           sizing_by_confidence approve_all
           (listed "Will it rain in Paris tomorrow?" None None)
           (Bot.init eager_config) "m1").
  - reflexivity.
  - reflexivity.
  - cbn. lia.
  - reflexivity.
  - reflexivity.
Defined.

(** With that sizing, 10 + confidence * 40, the decision's size is 38
    as the scenario says; the paper trader, on the same numbers, says
    YES (see [trade_size_formula]). *)
Example scenario_size_by_confidence :
  exists decision,
    Bot.evaluate_position sizing_by_confidence approve_all
      (Bot.init eager_config) (analyzer_opportunity "m1") = Some decision /\
    (Bot.d_size decision == 38)%Q /\ Bot.side decision = NO.
Proof. eexists. split; [vm_compute; reflexivity|]. split; reflexivity. Qed.

(** ** Year tokens *)

(** The scan finds every 20xx token that no digit precedes; [skip]
    characters of an earlier match, all digits, may still lie ahead. *)
Lemma year_token_scanned i : forall s skip y,
  digits_ahead skip s -> (i = 0%nat -> skip = 0%nat) ->
  year_token_at i y s ->
  In y (Re.findall_year_from skip s).
Proof.
  induction i as [|i IH]; intros s skip y Hd H0 (d1 & d2 & -> & D1 & D2 & G0 & G1 & G2 & G3 & Hb).
  - rewrite (H0 eq_refl).
    destruct s as [|c0 [|c1 [|c2 [|c3 s]]]]; try discriminate.
    cbn in G0, G1, G2, G3.
    injection G0 as ->. injection G1 as ->. injection G2 as ->. injection G3 as ->.
    cbn [Re.findall_year_from]. rewrite D1, D2. left. reflexivity.
  - destruct s as [|c s]; [discriminate|].
    assert (Hc : i = 0%nat -> Py.is_digit c = false).
    { intros ->. destruct Hb as [?|(c' & Hg & Hn)]; [discriminate|].
      cbn in Hg. injection Hg as <-. exact Hn. }
    assert (Htok : year_token_at i
              (String "2" (String "0" (String d1 (String d2 EmptyString)))) s).
    { exists d1, d2. repeat split; auto.
      destruct Hb as [?|(c' & Hg & Hn)]; [discriminate|].
      destruct i as [|i]; [left; reflexivity|right].
      exists c'. split; [|exact Hn].
      replace (S (S i) - 1)%nat with (S i) in Hg by lia.
      replace (S i - 1)%nat with i by lia. exact Hg. }
    destruct skip as [|k].
    + assert (Hrec : forall k',
                (k' = 0%nat \/ (Py.is_digit c = true /\ digits_ahead k' s)) ->
                In (String "2" (String "0" (String d1 (String d2 EmptyString))))
                   (Re.findall_year_from k' s)).
      { intros k' Hk. apply IH; auto.
        - destruct Hk as [->|[_ Hk]]; [intros j c' Hj; lia|exact Hk].
        - intros Hi. destruct Hk as [->|[Hk _]]; [reflexivity|].
          rewrite (Hc Hi) in Hk. discriminate. }
      cbn [Re.findall_year_from].
      destruct c as [[] [] [] [] [] [] [] []];
        try (apply Hrec; left; reflexivity).
      destruct s as [|c1 s]; [apply Hrec; left; reflexivity|].
      destruct c1 as [[] [] [] [] [] [] [] []];
        try (apply Hrec; left; reflexivity).
      destruct s as [|c2 s]; [apply Hrec; left; reflexivity|].
      destruct s as [|c3 s]; [apply Hrec; left; reflexivity|].
      destruct (Py.is_digit c2) eqn:E2; [|apply Hrec; left; reflexivity].
      destruct (Py.is_digit c3) eqn:E3; [|apply Hrec; left; reflexivity].
      cbn [andb]. right. apply Hrec. right. split; [reflexivity|].
      intros j c' Hj Hg.
      destruct j as [|[|[|j]]]; cbn in Hg; try lia;
        injection Hg as <-; auto.
    + cbn [Re.findall_year_from]. apply IH; auto.
      * intros j c' Hj Hg. apply (Hd (S j) c'); [lia|exact Hg].
      * intros Hi. specialize (Hc Hi).
        rewrite (Hd 0%nat c) in Hc; [discriminate|lia|reflexivity].
Qed.

Lemma year_token_found i y question :
  year_token_at i y question -> In y (Re.findall_year question).
Proof.
  intros H. apply (year_token_scanned i question 0%nat y); auto.
  intros j c Hj. lia.
Qed.

Lemma year_token_is_stale i y question year :
  year_token_at i y question -> (Py.int_of_digits y < year)%Z ->
  stale_year question year.
Proof. intros H L. exists y. split; [eapply year_token_found; exact H|exact L]. Qed.

(** A token inside a longer run of digits can be passed over: here the
    scan consumes "2032" and never sees "2025". *)
Example overlapped_year_passed_over :
  Re.findall_year "Serial 2032025?" = ["2032"%string].
Proof. reflexivity. Qed.

(** ** Claims about the temporal filter *)

Section Filter.

Context {P : Type}.
Variable predict : P -> string -> string -> option Prediction * P.
Variable fromisoformat : string -> option Datetime.datetime.

Local Abbreviation analyze := (PaperTraderV2._analyze_market predict fromisoformat).
Local Abbreviation verdict := (PaperTraderV2.date_verdict fromisoformat).

(** The date block compares the parsed fields, read as UTC, with the
    clock: when they lie before it the market is tagged SKIPPED_DATE and
    the trader, its predictor included, is left as it was. *)
Lemma past_fields_skipped self now opened market days_ahead c s parsed :
  PaperTraderV2.end_date_of market = String c s ->
  fromisoformat (Py.replace "Z" "+00:00" (String c s)) = Some parsed ->
  (Datetime.wall parsed < Datetime.utc_instant now)%Z ->
  analyze self now opened market days_ahead = (Return SKIPPED_DATE, self).
Proof.
  intros He Hp Hlt. unfold PaperTraderV2._analyze_market, PaperTraderV2.date_verdict.
  rewrite He, Hp.
  assert (L : Datetime.ltb (Datetime.replace_tzinfo_utc parsed) now = true).
  { unfold Datetime.ltb, Datetime.replace_tzinfo_utc, Datetime.utc_instant at 1.
    cbn. apply Z.ltb_lt. lia. }
  rewrite L. reflexivity.
Qed.

(** For a date without offset, or with offset zero, that is the instant
    the date denotes. *)
Lemma past_date_skipped self now opened market days_ahead c s parsed :
  PaperTraderV2.end_date_of market = String c s ->
  fromisoformat (Py.replace "Z" "+00:00" (String c s)) = Some parsed ->
  Datetime.tzinfo parsed = None \/ Datetime.tzinfo parsed = Some 0%Z ->
  (Datetime.utc_instant parsed < Datetime.utc_instant now)%Z ->
  analyze self now opened market days_ahead = (Return SKIPPED_DATE, self).
Proof.
  intros He Hp Htz Hlt. eapply past_fields_skipped; eauto.
  unfold Datetime.utc_instant in Hlt at 1.
  destruct Htz as [E|E]; rewrite E in Hlt; cbn in Hlt; lia.
Qed.

(** Whatever the date block decides stands, and the predictor is not
    consulted. *)
Lemma date_verdict_final self now opened market days_ahead v :
  verdict now market days_ahead = Some v ->
  analyze self now opened market days_ahead = (Return v, self).
Proof.
  intros H. unfold PaperTraderV2._analyze_market. rewrite H. reflexivity.
Qed.

Lemma date_verdict_cases now market days_ahead :
  verdict now market days_ahead = Some SKIPPED_DATE \/
  verdict now market days_ahead = Some NoTrade \/
  verdict now market days_ahead = None.
Proof.
  unfold PaperTraderV2.date_verdict.
  destruct (PaperTraderV2.end_date_of market); [auto|].
  destruct (fromisoformat _); [|auto].
  destruct (Datetime.ltb _ _); [auto|].
  destruct (_ <? _)%Z; auto.
Qed.

Lemma stale_year_found question year :
  stale_year question year ->
  existsb (fun year_str => (Py.int_of_digits year_str <? year)%Z)
    (Re.findall_year question) = true.
Proof.
  intros (y & Hin & Hlt). apply existsb_exists. exists y.
  split; [exact Hin|]. apply Z.ltb_lt. exact Hlt.
Qed.

(** C6, amended.  A market whose question holds a 20xx token found by
    the scan (every such token that no digit precedes is found, see
    [year_token_is_stale]) below the trader's current year is always
    rejected
    and leaves the trader, its predictor included, as it was, for any
    predictor: the tag is SKIPPED_YEAR when the date block let the
    market through (no date, a date that does not parse, or a date not
    past and within the horizon); when the date block rejects first the
    result is the date block's, SKIPPED_DATE or [None]. *)
Theorem stale_year_rejected self now opened market days_ahead :
  stale_year (default ""%string (m_question market)) (current_year self) ->
  let r := analyze self now opened market days_ahead in
  snd r = self /\
  (fst r = Return SKIPPED_DATE \/ fst r = Return NoTrade \/
   fst r = Return SKIPPED_YEAR) /\
  (verdict now market days_ahead = None -> fst r = Return SKIPPED_YEAR).
Proof.
  intros Hy r.
  assert (Hnone : verdict now market days_ahead = None ->
                  r = (Return SKIPPED_YEAR, self)).
  { intros V. unfold r, PaperTraderV2._analyze_market.
    rewrite V, (stale_year_found _ _ Hy). reflexivity. }
  destruct (date_verdict_cases now market days_ahead) as [V|[V|V]].
  - unfold r. rewrite (date_verdict_final _ _ _ _ _ _ V). cbn.
    split; [reflexivity|]. split; [auto|]. rewrite V. discriminate.
  - unfold r. rewrite (date_verdict_final _ _ _ _ _ _ V). cbn.
    split; [reflexivity|]. split; [auto|]. rewrite V. discriminate.
  - rewrite (Hnone V). cbn. auto.
Qed.

(** C8, amended.  A record whose price field is missing is read with
    quoted YES price 0.5, and neither script's analysis of it raises;
    the listing scripts read a missing volume as 0. *)
Theorem missing_price_defaults self now opened opened1 market days_ahead :
  price_missing market ->
  Trader.yes_price_of market = Return (JNum 0.5) /\
  (exists a, fst (analyze self now opened market days_ahead) = Return a) /\
  (exists a,
     fst (PaperTraderV1._analyze_market predict fromisoformat
            self now opened1 market) = Return a) /\
  (m_volume market = None ->
   forall float_of_string,
     Listing.volume_of float_of_string market = Some 0%Q).
Proof.
  intros Hm.
  assert (Hy : Trader.yes_price_of market = Return (JNum 0.5)).
  { unfold Trader.yes_price_of. destruct Hm as [-> | ->]; reflexivity. }
  split; [exact Hy|]. split; [|split].
  - unfold PaperTraderV2._analyze_market.
    destruct (verdict now market days_ahead); [eauto|].
    destruct (existsb _ _); [eauto|].
    rewrite Hy. destruct (predict _ _ _) as [[pr|] p]; [|eauto].
    cbn [fst]. apply gate_and_size_returns.
  - unfold PaperTraderV1._analyze_market.
    match goal with |- context [if ?b then _ else _] => destruct b end; [eauto|].
    rewrite Hy. destruct (predict _ _ _) as [[pr|] p]; [|eauto].
    cbn [fst]. apply gate_and_size_returns.
  - intros Hv f. unfold Listing.volume_of. rewrite Hv. reflexivity.
Qed.

End Filter.

(** No call reaches a predictor that counts its calls. *)
Lemma stale_year_no_call fromisoformat self now opened market days_ahead :
  stale_year (default ""%string (m_question market)) (current_year self) ->
  predictor
    (snd (PaperTraderV2._analyze_market counting_predict fromisoformat
            self now opened market days_ahead))
  = predictor self.
Proof.
  intros H.
  destruct (date_verdict_cases fromisoformat now market days_ahead)
    as [V|[V|V]].
  - rewrite (date_verdict_final _ _ _ _ _ _ _ _ V). reflexivity.
  - rewrite (date_verdict_final _ _ _ _ _ _ _ _ V). reflexivity.
  - unfold PaperTraderV2._analyze_market.
    rewrite V, (stale_year_found _ _ H). reflexivity.
Qed.

Lemma stale_year_rejected_witness :
  let market := listed "Will it snow in 2024?" None (Some 0.35%Q) in
  let r := PaperTraderV2._analyze_market counting_predict
             Datetime.fromisoformat_basic (trader_on 0%nat [] 2026)
             morning morning market 30 in
  snd r = trader_on 0%nat [] 2026 /\
  (fst r = Return SKIPPED_DATE \/ fst r = Return NoTrade \/
   fst r = Return SKIPPED_YEAR) /\
  (PaperTraderV2.date_verdict Datetime.fromisoformat_basic morning market 30
   = None -> fst r = Return SKIPPED_YEAR).
Proof.
  apply (stale_year_rejected counting_predict Datetime.fromisoformat_basic
           (trader_on 0%nat [] 2026) morning morning
           (listed "Will it snow in 2024?" None (Some 0.35%Q)) 30).
  exists "2024"%string. split; [vm_compute; auto|vm_compute; reflexivity].
Defined.

(** C6 as stated fails where the date block rejects first: the question
    names 2020, the current year is 2026, yet the market, which ended on
    2020-01-01, is tagged SKIPPED_DATE. *)
Lemma stale_year_tagged_by_date :
  let market :=
    listed "Will the 2020 games be held?" (Some "2020-01-01T00:00:00Z"%string)
      (Some 0.35%Q) in
  let r := PaperTraderV2._analyze_market counting_predict
             Datetime.fromisoformat_basic (trader_on 0%nat [] 2026)
             morning morning market 30 in
  stale_year "Will the 2020 games be held?" 2026 /\
  fst r = Return SKIPPED_DATE /\ fst r <> Return SKIPPED_YEAR.
Proof.
  cbv zeta. split; [|split].
  - exists "2020"%string. split; [vm_compute; auto|vm_compute; reflexivity].
  - vm_compute. reflexivity.
  - vm_compute. discriminate.
Qed.

Lemma missing_price_defaults_witness :
  let market := listed "Will it rain in Paris tomorrow?" None None in
  Trader.yes_price_of market = Return (JNum 0.5) /\
  (exists a,
     fst (PaperTraderV2._analyze_market counting_predict
            Datetime.fromisoformat_basic (trader_on 0%nat [] 2026)
            morning morning market 30) = Return a) /\
  (exists a,
     fst (PaperTraderV1._analyze_market counting_predict
            Datetime.fromisoformat_basic (trader_on 0%nat [] 2026)
            morning (Datetime.wall morning) market) = Return a) /\
  (m_volume market = None ->
   forall float_of_string,
     Listing.volume_of float_of_string market = Some 0%Q).
Proof.
  apply (missing_price_defaults counting_predict Datetime.fromisoformat_basic
           (trader_on 0%nat [] 2026) morning morning (Datetime.wall morning)
           (listed "Will it rain in Paris tomorrow?" None None) 30).
  left. reflexivity.
Defined.

(** C8 as stated fails: the price read from a record without price
    field is 0.5, not 0. *)
Lemma missing_price_is_not_zero :
  let market := listed "Will it rain in Paris tomorrow?" None None in
  price_missing market /\
  forall x, Trader.yes_price_of market = Return (JNum x) -> ~ (x == 0)%Q.
Proof.
  cbv zeta. split; [left; reflexivity|].
  intros x H. vm_compute in H. injection H as <-. discriminate.
Qed.

(** C5, at the input where it fails.  The end date
    2026-11-04T10:00:00+05:00 is the instant 05:00 UTC, before the clock
    reading 07:00 UTC, but its fields are kept and read as 10:00 UTC:
    the market is not tagged SKIPPED_DATE and the predictor runs a
    search for it. *)
Theorem offset_date_not_skipped :
  let market :=
    listed "Will it rain in Paris tomorrow?"
      (Some "2026-11-04T10:00:00+05:00"%string) (Some 0.35%Q) in
  let r := PaperTraderV2._analyze_market (tavily_predict silent)
             Datetime.fromisoformat_basic
             (trader_on TavilyPredictor.init [] 2026)
             morning morning market 30 in
  (exists parsed,
     Datetime.fromisoformat_basic
       (Py.replace "Z" "+00:00" "2026-11-04T10:00:00+05:00") = Some parsed /\
     (Datetime.utc_instant parsed < Datetime.utc_instant morning)%Z) /\
  fst r = Return NoTrade /\
  List.length (TavilyPredictor.searches (predictor (snd r))) = 1%nat.
Proof.
  cbv zeta. split; [|split].
  - eexists. split; [vm_compute; reflexivity|vm_compute; reflexivity].
  - vm_compute. reflexivity.
  - vm_compute. reflexivity.
Qed.

(** The same market with the end date written in UTC is tagged. *)
Example utc_date_skipped :
  PaperTraderV2._analyze_market (tavily_predict silent)
    Datetime.fromisoformat_basic (trader_on TavilyPredictor.init [] 2026)
    morning morning
    (listed "Will it rain in Paris tomorrow?"
       (Some "2026-11-04T05:00:00Z"%string) (Some 0.35%Q)) 30
  = (Return SKIPPED_DATE, trader_on TavilyPredictor.init [] 2026).
Proof. vm_compute. reflexivity. Qed.

(** ** Dicts in insertion order *)

Section Dict.

Context {V : Type}.
Implicit Types (d : list (string * V)) (k : string) (v : V).

Lemma dict_get_cons k k' v d :
  Py.dict_get k ((k', v) :: d)
  = if String.eqb k' k then Some v else Py.dict_get k d.
Proof.
  unfold Py.dict_get. cbn [List.find fst]. destruct (String.eqb k' k); reflexivity.
Qed.

Lemma dict_get_absent k d :
  Py.dict_get k d = None <-> ~ In k (map fst d).
Proof.
  induction d as [|[k' v] d IH]; [cbn; tauto|].
  rewrite dict_get_cons. cbn [map fst In].
  destruct (String.eqb_spec k' k) as [->|N].
  - split; [discriminate|]. intros H. destruct H. left. reflexivity.
  - rewrite IH. tauto.
Qed.

(** Filtering on the keys filters the lookups. *)
Lemma dict_get_filter (f : string -> bool) k d :
  Py.dict_get k (List.filter (fun kv => f (fst kv)) d)
  = if f k then Py.dict_get k d else None.
Proof.
  induction d as [|[k' v] d IH]; [cbn; destruct (f k); reflexivity|].
  cbn [List.filter fst]. destruct (f k') eqn:F.
  - rewrite !dict_get_cons, IH.
    destruct (String.eqb_spec k' k) as [->|N]; [rewrite F|]; reflexivity.
  - rewrite IH, dict_get_cons.
    destruct (String.eqb_spec k' k) as [->|N]; [rewrite F|]; reflexivity.
Qed.

Lemma dict_get_app_absent k k' v d :
  Py.dict_get k d = None ->
  Py.dict_get k' (d ++ [(k, v)])
  = if String.eqb k k' then Some v else Py.dict_get k' d.
Proof.
  induction d as [|[k0 v0] d IH]; intros H.
  - cbn [app]. rewrite dict_get_cons. reflexivity.
  - cbn [app]. rewrite dict_get_cons in H. rewrite !dict_get_cons.
    destruct (String.eqb_spec k0 k) as [->|N]; [discriminate|].
    destruct (String.eqb_spec k0 k') as [->|N'].
    + destruct (String.eqb_spec k k') as [E|_]; [congruence|reflexivity].
    + apply IH. exact H.
Qed.

Lemma dict_set_absent k v d :
  Py.dict_get k d = None -> Py.dict_set k v d = d ++ [(k, v)].
Proof. intros H. unfold Py.dict_set. rewrite H. reflexivity. Qed.

(** Assignment keeps the keys distinct. *)
Lemma dict_set_keys k v d :
  NoDup (map fst d) -> NoDup (map fst (Py.dict_set k v d)).
Proof.
  intros H. unfold Py.dict_set. destruct (Py.dict_get k d) eqn:E.
  - assert (K : map fst (map (fun kv : string * V =>
                                if String.eqb (fst kv) k then (k, v) else kv) d)
                = map fst d).
    { rewrite map_map. apply map_ext. intros [k' v']. cbn.
      destruct (String.eqb_spec k' k) as [->|N]; reflexivity. }
    rewrite K. exact H.
  - rewrite map_app. cbn [map fst]. apply NoDup_app.
    split; [exact H|]. split; [|apply NoDup_singleton].
    intros x Hx Hk. apply list_elem_of_singleton in Hk. subst x.
    apply dict_get_absent in E. apply E. apply list_elem_of_In. exact Hx.
Qed.

Lemma dict_set_forall (Q : string * V -> Prop) k v d :
  Q (k, v) -> Forall Q d -> Forall Q (Py.dict_set k v d).
Proof.
  intros Hq H. unfold Py.dict_set. destruct (Py.dict_get k d).
  - apply Forall_forall. intros x Hx. apply list_elem_of_In in Hx.
    apply in_map_iff in Hx. destruct Hx as (kv & <- & Hin).
    destruct (String.eqb (fst kv) k); [exact Hq|].
    rewrite Forall_forall in H. apply H. apply list_elem_of_In. exact Hin.
  - apply Forall_app. split; [exact H|]. constructor; [exact Hq|constructor].
Qed.

Lemma filter_keys_nodup (f : string * V -> bool) d :
  NoDup (map fst d) -> NoDup (map fst (List.filter f d)).
Proof.
  induction d as [|kv d IH]; [auto|]. cbn [map List.filter].
  intros H. apply NoDup_cons in H. destruct H as [Hn H].
  destruct (f kv); [|auto]. cbn [map]. apply NoDup_cons. split; [|auto].
  intros Hin. apply Hn. apply list_elem_of_In in Hin. apply list_elem_of_In.
  apply in_map_iff in Hin. destruct Hin as (x & E & Hx).
  apply List.filter_In in Hx. apply in_map_iff. exists x. tauto.
Qed.

Lemma filter_forall (Q : string * V -> Prop) (f : string * V -> bool) d :
  Forall Q d -> Forall Q (List.filter f d).
Proof.
  rewrite !Forall_forall. intros H x Hx. apply H.
  apply list_elem_of_In. apply list_elem_of_In in Hx.
  apply List.filter_In in Hx. tauto.
Qed.

Lemma filter_twice (f g : string * V -> bool) d :
  List.filter f (List.filter g d) = List.filter (fun kv => g kv && f kv) d.
Proof.
  induction d as [|kv d IH]; [reflexivity|]. cbn [List.filter].
  destruct (g kv); cbn [List.filter andb]; [destruct (f kv)|]; rewrite IH;
    reflexivity.
Qed.

Lemma filter_length_le (f : string * V -> bool) d :
  (List.length (List.filter f d) <= List.length d)%nat.
Proof.
  induction d as [|kv d IH]; [auto|]. cbn [List.filter].
  destruct (f kv); cbn [List.length]; lia.
Qed.

End Dict.

(** ** Claims about the risk gate *)

Section RiskGate.

Variable calculate_position : Q -> Q -> Q -> Q.
Variable approve_trade : Q -> Q -> Q -> bool.

Local Abbreviation evaluate := (Bot.evaluate_position calculate_position approve_trade).

Lemma gate_rejects_at_max self opportunity :
  (Bot.max_open_positions (Bot.config self)
     <= Z.of_nat (List.length (Bot.active_positions self)))%Z ->
  evaluate self opportunity = None.
Proof.
  intros H. unfold Bot.evaluate_position.
  apply Z.leb_le in H. rewrite H. reflexivity.
Qed.

Lemma gate_rejects_open_market self opportunity :
  is_Some (Py.dict_get (Bot.b_id (Bot.market opportunity))
             (Bot.active_positions self)) ->
  evaluate self opportunity = None.
Proof.
  intros [d H]. unfold Bot.evaluate_position.
  destruct (_ <=? _)%Z; [reflexivity|]. rewrite H. reflexivity.
Qed.

(** A decision comes out only below the limit and for a market without
    open position, and it names that market. *)
Lemma gate_accepts self opportunity decision :
  evaluate self opportunity = Some decision ->
  (Z.of_nat (List.length (Bot.active_positions self))
     < Bot.max_open_positions (Bot.config self))%Z /\
  Py.dict_get (Bot.market_id decision) (Bot.active_positions self) = None /\
  Bot.market_id decision = Bot.b_id (Bot.market opportunity) /\
  (Bot.d_size decision <= Bot.max_trade_size (Bot.config self))%Q.
Proof.
  unfold Bot.evaluate_position.
  destruct (_ <=? _)%Z eqn:L; [discriminate|]. apply Z.leb_gt in L.
  destruct (Py.dict_get _ _) eqn:E; [discriminate|].
  destruct (negb _); [discriminate|].
  intros [= <-]. cbn. repeat split; auto. apply Q.le_min_r.
Qed.

(** What the loop of [monitor_positions] leaves: the positions it
    started with, without those on the markets in [dropped], each of
    them a market of the items that was found resolved; when the loop
    returns, every market of the items was found and the resolved ones
    are all dropped. *)
Lemma monitor_loop_prunes get_market analyze_market items : forall self,
  exists dropped,
    let r := Bot.monitor_loop get_market analyze_market self items in
    Bot.config (snd r) = Bot.config self /\
    Bot.active_positions (snd r)
    = List.filter (fun kv => negb (existsb (String.eqb (fst kv)) dropped))
        (Bot.active_positions self) /\
    (forall k, In k dropped ->
       In k (map fst items) /\ found_resolved get_market k = true) /\
    (fst r = Return tt ->
     forall k, In k (map fst items) ->
       is_Some (get_market k) /\
       (found_resolved get_market k = true -> In k dropped)).
Proof.
  induction items as [|[market_id position] rest IH]; intros self.
  - exists []. cbn. split; [reflexivity|]. split.
    + induction (Bot.active_positions self) as [|kv d IHd]; [reflexivity|].
      cbn. rewrite <- IHd. reflexivity.
    + split; [intros k []|intros _ k []].
  - cbn [Bot.monitor_loop].
    destruct (get_market market_id) as [market|] eqn:G.
    2:{ exists []. cbn. split; [reflexivity|]. split.
        - induction (Bot.active_positions self) as [|kv d IHd]; [reflexivity|].
          cbn. rewrite <- IHd. reflexivity.
        - split; [intros k []|discriminate]. }
    destruct (Bot.b_resolved market) eqn:R.
    + destruct (IH {| Bot.active_positions :=
                        Py.dict_del market_id (Bot.active_positions self);
                      Bot.config := Bot.config self |})
        as (dropped & Hc & Hp & Hd & Hr).
      exists (market_id :: dropped). cbv zeta in *.
      split; [exact Hc|]. split; [|split].
      * rewrite Hp. cbn [Bot.active_positions]. unfold Py.dict_del.
        rewrite filter_twice. apply List.filter_ext. intros [k v].
        cbn [existsb fst]. rewrite negb_orb. reflexivity.
      * intros k Hk. cbn [map fst In]. destruct Hk as [<-|Hk].
        -- split; [left; reflexivity|]. unfold found_resolved. rewrite G. exact R.
        -- destruct (Hd k Hk) as [H1 H2]. split; [right; exact H1|exact H2].
      * intros Hret k Hk. cbn [map fst In] in Hk. destruct Hk as [<-|Hk].
        -- split; [rewrite G; eauto|]. intros _. left. reflexivity.
        -- destruct (Hr Hret k Hk) as [H1 H2]. split; [exact H1|].
           intros F. right. apply H2. exact F.
    + destruct (analyze_market market) as [current_prediction|].
      2:{ exists []. cbn. split; [reflexivity|]. split.
          - induction (Bot.active_positions self) as [|kv d IHd]; [reflexivity|].
            cbn. rewrite <- IHd. reflexivity.
          - split; [intros k []|discriminate]. }
      destruct (IH self) as (dropped & Hc & Hp & Hd & Hr).
      exists dropped. cbv zeta in *.
      split; [exact Hc|]. split; [exact Hp|]. split.
      * intros k Hk. cbn [map fst In]. destruct (Hd k Hk) as [H1 H2].
        split; [right; exact H1|exact H2].
      * intros Hret k Hk. cbn [map fst In] in Hk. destruct Hk as [<-|Hk].
        -- split; [rewrite G; eauto|]. unfold found_resolved. rewrite G, R.
           discriminate.
        -- apply Hr; assumption.
Qed.

(** Monitoring keeps the configuration, the keying of the positions and
    never adds a position. *)
Lemma monitor_keeps self get_market analyze_market :
  let self' := snd (Bot.monitor_positions self get_market analyze_market) in
  Bot.config self' = Bot.config self /\
  (List.length (Bot.active_positions self')
   <= List.length (Bot.active_positions self))%nat /\
  (positions_keyed self -> positions_keyed self').
Proof.
  unfold Bot.monitor_positions.
  destruct (monitor_loop_prunes get_market analyze_market
              (Bot.active_positions self) self) as (dropped & Hc & Hp & _).
  cbv zeta in *. split; [exact Hc|]. rewrite Hp. split.
  - apply filter_length_le.
  - intros [H1 H2]. unfold positions_keyed. rewrite Hp.
    split; [apply filter_keys_nodup|apply filter_forall]; assumption.
Qed.

(** Executing any decision keeps the keying of the positions. *)
Lemma execute_keeps_keyed self decision order :
  positions_keyed self ->
  positions_keyed (snd (Bot.execute_trade self decision order)).
Proof.
  intros [H1 H2]. unfold Bot.execute_trade.
  destruct (Bot.auto_execute _); [|split; assumption].
  destruct order as [result|]; [|split; assumption].
  split; cbn [snd Bot.active_positions].
  - apply dict_set_keys. exact H1.
  - apply dict_set_forall; [reflexivity|exact H2].
Qed.

Lemma keyed_ids_distinct self :
  positions_keyed self -> NoDup (open_market_ids self).
Proof.
  intros [H1 H2]. unfold open_market_ids.
  assert (E : map (fun kv : string * Bot.Decision => Bot.market_id (snd kv))
                (Bot.active_positions self)
              = map fst (Bot.active_positions self)).
  { apply map_ext_in. intros kv Hin. rewrite Forall_forall in H2.
    apply H2. apply list_elem_of_In. exact Hin. }
  rewrite E. exact H1.
Qed.

(** Whatever is called, in whatever order, the positions stay keyed. *)
Lemma calls_keep_keyed calls : forall self,
  positions_keyed self -> positions_keyed (after_bot_calls self calls).
Proof.
  induction calls as [|call calls IH]; intros self H; [exact H|].
  cbn [after_bot_calls fold_left]. apply IH.
  destruct call as [decision order|get_market analyze_market].
  - apply execute_keeps_keyed. exact H.
  - apply monitor_keeps. exact H.
Qed.

Lemma step_keeps_positions_ok cfg self self' :
  positions_ok cfg self ->
  gated_step calculate_position approve_trade self self' ->
  positions_ok cfg self'.
Proof.
  intros (Hc & Hn & Hk) Hs.
  destruct Hs as [s opp d order He | s get_market analyze_market].
  - split; [|split; [|apply execute_keeps_keyed; exact Hk]].
    + rewrite <- Hc. unfold Bot.execute_trade.
      destruct (Bot.auto_execute _); [destruct order|]; reflexivity.
    + apply gate_accepts in He. destruct He as (Hlt & Hnew & _ & _).
      unfold Bot.execute_trade.
      destruct (Bot.auto_execute _); [|exact Hn].
      destruct order as [result|]; [|exact Hn].
      cbn [snd Bot.active_positions]. rewrite (dict_set_absent _ _ _ Hnew).
      rewrite length_app. cbn [List.length]. rewrite Hc in Hlt. lia.
  - destruct (monitor_keeps s get_market analyze_market) as (Hc' & Hl & Hk').
    split; [rewrite Hc'; exact Hc|]. split; [lia|auto].
Qed.

Lemma gated_run_positions_ok cfg self :
  (0 <= Bot.max_open_positions cfg)%Z ->
  gated_run calculate_position approve_trade cfg self -> positions_ok cfg self.
Proof.
  intros H0 Hr. unfold gated_run in Hr.
  assert (Hi : positions_ok cfg (Bot.init cfg)).
  { unfold positions_ok, positions_keyed, Bot.init. cbn.
    repeat split; [lia|apply NoDup_nil_2|constructor]. }
  induction Hr as [s|s1 s2 s3 Hs _ IH]; [exact Hi|].
  apply IH. eapply step_keeps_positions_ok; eauto.
Qed.

(** One cycle of gate-then-execute is a run of such a driver. *)
Lemma gate_then_execute_gated cfg opportunities orders : forall self,
  gated_run calculate_position approve_trade cfg self ->
  gated_run calculate_position approve_trade cfg
    (gate_then_execute calculate_position approve_trade self opportunities orders).
Proof.
  unfold gate_then_execute, gated_run.
  induction opportunities as [|opp rest IH]; intros self Hr; [exact Hr|].
  cbn. apply IH.
  destruct (evaluate self opp) as [d|] eqn:E; [|exact Hr].
  eapply rtc_r; [exact Hr|]. apply step_trade with (opportunity := opp).
  exact E.
Qed.

(** C7, amended.  [evaluate_position] returns no decision when the count
    of open positions has reached [max_open_positions], and none when
    the opportunity's market already has an open position.  In every
    state the bot reaches when each decision is executed in the state
    whose gate returned it (with any monitoring between), there are at
    most [max_open_positions] open positions; and after any calls of
    [execute_trade] and [monitor_positions] whatever, no two open
    positions are on the same market id. *)
Theorem risk_gate_invariant (cfg : Bot.Config) :
  (forall self opportunity,
     (Bot.max_open_positions (Bot.config self)
        <= Z.of_nat (List.length (Bot.active_positions self)))%Z \/
     is_Some (Py.dict_get (Bot.b_id (Bot.market opportunity))
                (Bot.active_positions self)) ->
     evaluate self opportunity = None) /\
  ((0 <= Bot.max_open_positions cfg)%Z ->
   forall self,
     gated_run calculate_position approve_trade cfg self ->
     (Z.of_nat (List.length (Bot.active_positions self))
        <= Bot.max_open_positions cfg)%Z /\
     NoDup (open_market_ids self)) /\
  (forall calls,
     NoDup (open_market_ids (after_bot_calls (Bot.init cfg) calls))).
Proof.
  split; [|split].
  - intros self opp [H|H].
    + apply gate_rejects_at_max. exact H.
    + apply gate_rejects_open_market. exact H.
  - intros H0 self Hr.
    assert (Hok := gated_run_positions_ok cfg self H0 Hr).
    split; [apply Hok|]. apply keyed_ids_distinct. apply Hok.
  - intros calls. apply keyed_ids_distinct. apply calls_keep_keyed.
    split; [apply NoDup_nil_2|constructor].
Qed.

End RiskGate.

Lemma risk_gate_invariant_witness :
  let self :=
    gate_then_execute sizing_by_confidence approve_all (Bot.init eager_config)
      [opportunity_on "m1"; opportunity_on "m1"; opportunity_on "m2"]
      (fun _ => Some "filled"%string) in
  (Z.of_nat (List.length (Bot.active_positions self))
     <= Bot.max_open_positions eager_config)%Z /\
  NoDup (open_market_ids self).
Proof.
  apply (proj1 (proj2
           (risk_gate_invariant sizing_by_confidence approve_all eager_config))).
  - cbn. lia.
  - apply gate_then_execute_gated. apply rtc_refl.
Defined.

(** C7 as stated fails when the gate is asked about a batch of
    opportunities before any of them is executed: with room for one
    position the gate, reading the same empty dict each time, returns a
    decision for "m1" and for "m2", and [execute_trade], which does not
    look at the limit, opens both. *)
Lemma gated_batch_exceeds_limit :
  let self := Bot.init single_position_config in
  let gate := Bot.evaluate_position sizing_by_confidence approve_all self in
  let after :=
    gate_all_then_execute sizing_by_confidence approve_all self
      [opportunity_on "m1"; opportunity_on "m2"]
      (fun _ => Some "filled"%string) in
  is_Some (gate (opportunity_on "m1")) /\
  is_Some (gate (opportunity_on "m2")) /\
  map fst (Bot.active_positions after) = ["m1"; "m2"]%string /\
  ~ (Z.of_nat (List.length (Bot.active_positions after))
       <= Bot.max_open_positions single_position_config)%Z.
Proof.
  cbv zeta. split; [vm_compute; eauto|]. split; [vm_compute; eauto|].
  split; [vm_compute; reflexivity|]. vm_compute. intros H. apply H. reflexivity.
Qed.

(** Gated and executed one by one, the same opportunities open one
    position: the second is turned away at the limit. *)
Example one_by_one_stays_within_limit :
  map fst
    (Bot.active_positions
       (gate_then_execute sizing_by_confidence approve_all
          (Bot.init single_position_config)
          [opportunity_on "m1"; opportunity_on "m2"]
          (fun _ => Some "filled"%string)))
  = ["m1"]%string.
Proof. vm_compute. reflexivity. Qed.

(** The second opportunity on "m1" is turned away; two positions open. *)
Example cycle_opens_two :
  map fst
    (Bot.active_positions
       (gate_then_execute sizing_by_confidence approve_all (Bot.init eager_config)
          [opportunity_on "m1"; opportunity_on "m1"; opportunity_on "m2"]
          (fun _ => Some "filled"%string)))
  = ["m1"; "m2"]%string.
Proof. vm_compute. reflexivity. Qed.

(** ** Claims about the ledger statistics *)

Section Stats.

Lemma sum_case_outcome tag rows :
  fold_right Z.add 0%Z (map (PaperTraderV1.case_outcome tag) rows)
  = count_rows (PaperTraderV1.outcome_is tag) rows.
Proof.
  unfold count_rows. induction rows as [|r rows IH]; [reflexivity|].
  cbn [map fold_right List.filter]. rewrite IH.
  unfold PaperTraderV1.case_outcome.
  destruct (PaperTraderV1.outcome_is tag r); cbn [List.length]; lia.
Qed.

Lemma sql_sum_case_outcome tag rows :
  default 0%Z (PaperTraderV1.sql_sum_int (map (PaperTraderV1.case_outcome tag) rows))
  = count_rows (PaperTraderV1.outcome_is tag) rows.
Proof.
  destruct rows as [|r rows]; [reflexivity|].
  unfold PaperTraderV1.sql_sum_int. cbn [map default].
  apply (sum_case_outcome tag (r :: rows)).
Qed.

Lemma outcome_is_resolved tag r :
  PaperTraderV1.outcome_is tag r = true -> PaperTraderV1.is_resolved r = true.
Proof.
  unfold PaperTraderV1.outcome_is, PaperTraderV1.is_resolved.
  destruct (outcome r); [reflexivity|discriminate].
Qed.

Lemma count_among_resolved tag rows :
  count_rows (PaperTraderV1.outcome_is tag)
    (List.filter PaperTraderV1.is_resolved rows)
  = count_rows (PaperTraderV1.outcome_is tag) rows.
Proof.
  unfold count_rows. induction rows as [|r rows IH]; [reflexivity|].
  cbn [List.filter].
  destruct (PaperTraderV1.outcome_is tag r) eqn:O.
  - rewrite (outcome_is_resolved _ _ O). cbn [List.filter]. rewrite O.
    cbn [List.length]. lia.
  - destruct (PaperTraderV1.is_resolved r); cbn [List.filter];
      rewrite ?O; exact IH.
Qed.

(** What [get_stats] of [paper_trader.py] reports: the count of resolved
    rows as total, the WIN and LOSS rows, and the ledger untouched. *)
Lemma get_stats_reads {P} (self : PaperTrader P) :
  let stats := fst (PaperTraderV1.get_stats self) in
  snd (PaperTraderV1.get_stats self) = self /\
  PaperTraderV1.total_predictions stats
  = count_rows PaperTraderV1.is_resolved (db self) /\
  PaperTraderV1.wins stats
  = count_rows (PaperTraderV1.outcome_is "WIN") (db self) /\
  PaperTraderV1.losses stats
  = count_rows (PaperTraderV1.outcome_is "LOSS") (db self).
Proof.
  cbn. rewrite !sql_sum_case_outcome, !count_among_resolved. auto.
Qed.

(** What [get_stats] of [scheduler.py] reports on a table with rows. *)
Lemma scheduler_total r rows :
  Scheduler.total (Scheduler.get_stats (r :: rows))
  = Z.of_nat (List.length (r :: rows)).
Proof. reflexivity. Qed.

End Stats.

(** C10, at the input where it fails.  On a ledger holding one row that
    is not resolved yet, [get_stats] of [paper_trader.py] reports total
    0, not 1 (it counts the resolved rows only); [get_stats] of
    [scheduler.py] reports total 1 on the same table.  The call leaves
    the ledger as it was. *)
Theorem stats_total_skips_open_rows :
  let self := trader_on tt [Trader.new_row sample_trade] 2026 in
  let stats := fst (PaperTraderV1.get_stats self) in
  List.length (db self) = 1%nat /\
  PaperTraderV1.total_predictions stats = 0%Z /\
  Scheduler.total (Scheduler.get_stats (db self)) = 1%Z /\
  snd (PaperTraderV1.get_stats self) = self.
Proof. cbv zeta. repeat split. Qed.

(* ================================================================== *)
(** * Further properties of the code                                   *)
(* ================================================================== *)

(** ** utils/tavily_predictor.py *)

Section EngineMore.

Local Open Scope Q_scope.

Lemma count_in_none words text :
  Py.count_in words text = 0%nat <-> Py.any_in words text = false.
Proof.
  unfold Py.count_in, Py.any_in. induction words as [|w words IH]; cbn.
  - tauto.
  - destruct (Py.contains w text); cbn; [split; discriminate|exact IH].
Qed.

(** X1.  The sentiment score lies in [-1, 1]; it is 0 when the text
    holds as many bullish as bearish keywords (none at all included),
    1 when it holds bullish keywords only and -1 when it holds bearish
    keywords only. *)
Theorem sentiment_score_shape text :
  let pos := Py.count_in TavilyPredictor.bullish (Py.lower text) in
  let neg := Py.count_in TavilyPredictor.bearish (Py.lower text) in
  let s := TavilyPredictor._analyze_sentiment text in
  (-1 <= s /\ s <= 1) /\
  (pos = neg -> s == 0) /\
  ((0 < pos)%nat -> neg = 0%nat -> s == 1) /\
  ((0 < neg)%nat -> pos = 0%nat -> s == -1).
Proof.
  intros pos neg s. split; [apply sentiment_range|].
  unfold s, TavilyPredictor._analyze_sentiment. fold pos neg.
  assert (Hd : ~ inject_Z (Z.of_nat (Nat.max (pos + neg) 1)) == 0).
  { change 0 with (inject_Z 0). rewrite inject_Z_injective. lia. }
  split; [|split].
  - intros ->. rewrite Z.sub_diag. field. exact Hd.
  - intros Hp ->. rewrite Nat.add_0_r, Nat.max_l by lia.
    rewrite Nat.add_0_r, Nat.max_l in Hd by lia.
    change (Z.of_nat 0) with 0%Z. rewrite Z.sub_0_r. field. exact Hd.
  - intros Hn ->. cbn [Nat.add]. rewrite Nat.max_l by lia.
    cbn [Nat.add] in Hd. rewrite Nat.max_l in Hd by lia.
    change (Z.of_nat 0) with 0%Z. rewrite Z.sub_0_l, inject_Z_opp. field.
    exact Hd.
Qed.

Lemma sentiment_score_shape_witness :
  TavilyPredictor._analyze_sentiment "Analysts expect a rally and a surge."
  == 1.
Proof.
  apply (sentiment_score_shape "Analysts expect a rally and a surge.").
  - vm_compute. lia.
  - vm_compute. reflexivity.
Defined.

(** X2.  On a text that is not empty the probability stays within
    0.25 and 0.75, so the clamp to [0.05, 0.95] never acts, and the
    confidence is at least 0.35. *)
Theorem nonempty_text_ranges text question :
  text <> EmptyString ->
  exists p c,
    prob_yes (TavilyPredictor._parse_results text question) = Some p /\
    confidence (TavilyPredictor._parse_results text question) = Some c /\
    0.25 <= p /\ p <= 0.75 /\ 0.35 <= c /\ c <= 0.85 /\
    p == Py.round2 (0.5 + TavilyPredictor._analyze_sentiment text * 0.25).
Proof.
  intros Hne. destruct text as [|ch text]; [congruence|].
  unfold TavilyPredictor._parse_results.
  set (t := String ch text).
  destruct (sentiment_range t) as [S1 S2].
  set (s := TavilyPredictor._analyze_sentiment t) in *.
  set (n := inject_Z (Z.of_nat (Re.count_sources t))).
  eexists _, _. cbn [prob_yes confidence].
  split; [reflexivity|]. split; [reflexivity|].
  assert (Hn : 0 <= n).
  { unfold n. change 0 with (inject_Z 0). rewrite <- Zle_Qle. lia. }
  assert (Ha := Qabs_nonneg s).
  assert (Emin : Qmin 0.95 (0.5 + s * 0.25) == 0.5 + s * 0.25)
    by (apply Q.min_r; lra).
  assert (Emax : Qmax 0.05 (Qmin 0.95 (0.5 + s * 0.25)) == 0.5 + s * 0.25)
    by (rewrite Emin; apply Q.max_r; lra).
  assert (Er : Py.round2 (Qmax 0.05 (Qmin 0.95 (0.5 + s * 0.25)))
               == Py.round2 (0.5 + s * 0.25)).
  { rewrite !round2_eq.
    rewrite (round_half_even_eq _ ((0.5 + s * 0.25) * 100)); [reflexivity|].
    rewrite Emax. reflexivity. }
  assert (Hp : inject_Z 25 * 0.01 <= 0.5 + s * 0.25 /\
               0.5 + s * 0.25 <= inject_Z 75 * 0.01)
    by (unfold inject_Z; split; lra).
  destruct Hp as [Hp1 Hp2].
  destruct (round2_bounds 25 75 _ Hp1 Hp2) as [P1 P2].
  assert (Hc : inject_Z 35 * 0.01 <= Qmin (0.35 + n * 0.08 + Qabs s * 0.25) 0.85
               /\ Qmin (0.35 + n * 0.08 + Qabs s * 0.25) 0.85
                  <= inject_Z 85 * 0.01).
  { unfold inject_Z. split.
    - apply Q.min_glb; lra.
    - eapply Qle_trans; [apply Q.le_min_r|]. lra. }
  destruct Hc as [Hc1 Hc2].
  destruct (round2_bounds 35 85 _ Hc1 Hc2) as [C1 C2].
  unfold inject_Z in P1, P2, C1, C2.
  rewrite Er. repeat split; try lra; reflexivity.
Qed.

Lemma nonempty_text_ranges_witness :
  exists p c,
    prob_yes (TavilyPredictor._parse_results "bear crash dump" "q") = Some p /\
    confidence (TavilyPredictor._parse_results "bear crash dump" "q") = Some c /\
    0.25 <= p /\ p <= 0.75 /\ 0.35 <= c /\ c <= 0.85 /\
    p == Py.round2
           (0.5 + TavilyPredictor._analyze_sentiment "bear crash dump" * 0.25).
Proof. apply (nonempty_text_ranges "bear crash dump" "q"). discriminate. Defined.

(** The confidence a text without source lines can reach. *)
Lemma no_sources_confidence text question :
  Re.count_sources text = 0%nat ->
  exists c,
    confidence (TavilyPredictor._parse_results text question) = Some c /\
    c <= 0.60.
Proof.
  intros H0. unfold TavilyPredictor._parse_results.
  destruct text as [|ch text].
  - exists 0.0. split; [reflexivity|lra].
  - set (t := String ch text) in *. rewrite H0.
    destruct (sentiment_range t) as [S1 S2].
    set (s := TavilyPredictor._analyze_sentiment t) in *.
    eexists. cbn [confidence]. split; [reflexivity|].
    assert (Ha : Qabs s <= 1) by (apply Qabs_Qle_condition; split; lra).
    assert (Ha0 := Qabs_nonneg s).
    change (inject_Z (Z.of_nat 0)) with 0.
    assert (Hc : inject_Z 0 * 0.01 <= Qmin (0.35 + 0 * 0.08 + Qabs s * 0.25) 0.85
                 /\ Qmin (0.35 + 0 * 0.08 + Qabs s * 0.25) 0.85
                    <= inject_Z 60 * 0.01).
    { unfold inject_Z. split.
      - apply Q.min_glb; lra.
      - eapply Qle_trans; [apply Q.le_min_l|]. lra. }
    destruct Hc as [Hc1 Hc2].
    destruct (round2_bounds 0 60 _ Hc1 Hc2) as [_ C2].
    unfold inject_Z in C2. lra.
Qed.

(** X3.  A search text without any source line ("- **title**"), the
    empty text included, yields a confidence of at most 0.60, so the
    gate turns the market down whatever its price. *)
Theorem no_sources_no_trade text question market_id category price opened :
  Re.count_sources text = 0%nat ->
  Trader.gate_and_size market_id question category (JNum price)
    (TavilyPredictor._parse_results text question) opened
  = Return NoTrade.
Proof.
  intros H0. apply gate_and_size_rejects. right.
  destruct (no_sources_confidence text question H0) as (c & -> & Hc).
  cbn. lra.
Qed.

Lemma no_sources_no_trade_witness :
  Trader.gate_and_size "m1" "q" "other" (JNum 0.10)
    (TavilyPredictor._parse_results
       "Every analyst is bullish: rally, surge, growth." "q") morning
  = Return NoTrade.
Proof. apply no_sources_no_trade. vm_compute. reflexivity. Defined.

End EngineMore.

Section CacheMore.

Variable tavily : nat -> string -> string.

(** A cached pair is answered without looking at the search tool. *)
Lemma predict_hit_any_tool (other : nat -> string -> string) self q c p :
  TavilyPredictor.cache self !! TavilyPredictor.cache_key q c = Some p ->
  TavilyPredictor.predict other self q c = (p, self).
Proof. apply predict_hit. Qed.

(** X4.  A failed search is remembered: when the search for a pair
    yields the empty text, the neutral prediction (probability 0.5,
    confidence 0) is cached, and every later call for the pair returns
    it without a new search, whatever the search tool would find by
    then and whatever calls came between. *)
Theorem failed_search_is_cached (later_tool : nat -> string -> string)
    self question category between :
  TavilyPredictor.cache self
    !! TavilyPredictor.cache_key question category = None ->
  tavily (List.length (TavilyPredictor.searches self))
    (TavilyPredictor._build_query question category) = EmptyString ->
  let first := TavilyPredictor.predict tavily self question category in
  let later := run_calls later_tool (snd first) between in
  prob_yes (fst first) = Some 0.5%Q /\ confidence (fst first) = Some 0.0%Q /\
  TavilyPredictor.predict later_tool later question category
  = (fst first, later).
Proof.
  intros Hmiss Hempty first later.
  assert (E : fst first = TavilyPredictor._parse_results EmptyString question).
  { unfold first. rewrite predict_miss by exact Hmiss. cbn. rewrite Hempty.
    reflexivity. }
  rewrite E. split; [reflexivity|]. split; [reflexivity|].
  apply predict_hit. unfold later. apply run_calls_keeps.
  rewrite <- E. unfold first. apply predict_stores.
Qed.

Lemma run_calls_balance calls : forall self,
  List.length (TavilyPredictor.searches self)
  = size (TavilyPredictor.cache self) ->
  List.length (TavilyPredictor.searches (run_calls tavily self calls))
  = size (TavilyPredictor.cache (run_calls tavily self calls)).
Proof.
  induction calls as [|[q c] calls IH]; intros self H; [exact H|].
  cbn. apply IH.
  destruct (TavilyPredictor.cache self !! TavilyPredictor.cache_key q c)
    as [p|] eqn:E.
  - rewrite (predict_hit _ _ _ _ _ E). exact H.
  - rewrite (predict_miss _ _ _ _ E).
    cbn [snd TavilyPredictor.searches TavilyPredictor.cache].
    rewrite length_app, map_size_insert_None by exact E. cbn. lia.
Qed.

(** X5.  In a predictor of a process the number of searches run equals
    the number of entries in the cache: every search fills one new
    entry and no entry is ever dropped. *)
Theorem searches_match_cache calls :
  List.length (TavilyPredictor.searches (after_calls tavily calls))
  = size (TavilyPredictor.cache (after_calls tavily calls)).
Proof. apply run_calls_balance. reflexivity. Qed.

End CacheMore.

Lemma failed_search_is_cached_witness :
  let first :=
    TavilyPredictor.predict silent TavilyPredictor.init "Will it rain?" "other" in
  let later :=
    run_calls (told_once "bullish rally") (snd first) [("a", "b")]%string in
  prob_yes (fst first) = Some 0.5%Q /\ confidence (fst first) = Some 0.0%Q /\
  TavilyPredictor.predict (told_once "bullish rally") later "Will it rain?" "other"
  = (fst first, later).
Proof.
  apply (failed_search_is_cached silent (told_once "bullish rally")
           TavilyPredictor.init "Will it rain?" "other" [("a", "b")]%string).
  - reflexivity.
  - reflexivity.
Defined.

(** ** paper_trader.py and paper_trader_v2.py *)

Section TraderMore.

Context {P : Type}.
Variable predict : P -> string -> string -> option Prediction * P.
Variable fromisoformat : string -> option Datetime.datetime.

Local Abbreviation verdict := (PaperTraderV2.date_verdict fromisoformat).

Local Open Scope Q_scope.

(** X6.  An accepted trade says YES exactly when our probability is
    above the quoted price, and then it is above by at least 0.10; a
    trade that says NO has our probability at least 0.10 below the
    price. *)
Theorem trade_direction self now opened market days_ahead t :
  fst (PaperTraderV2._analyze_market predict fromisoformat
         self now opened market days_ahead) = Return (Trade t) ->
  (pt_direction t = YES <-> pt_market_odds t < pt_our_prediction t) /\
  (pt_direction t = YES -> pt_market_odds t + 0.10 <= pt_our_prediction t) /\
  (pt_direction t = NO -> pt_our_prediction t + 0.10 <= pt_market_odds t).
Proof.
  intros Ht. apply analyze_v2_trade in Ht. destruct Ht as (pr & yp & _ & Hg).
  apply gate_and_size_trade in Hg.
  destruct Hg as (price & _ & _ & Ho & _ & He & _ & Hd & G1 & _).
  rewrite Ho, Hd. rewrite He in G1.
  destruct (Qlt_le_dec price (pt_our_prediction t)) as [L|G].
  - rewrite Qabs_pos in G1 by lra.
    split; [tauto|]. split; [intros _; lra|discriminate].
  - rewrite Qabs_neg in G1 by lra.
    split; [split; [discriminate|intros; lra]|].
    split; [discriminate|intros _; lra].
Qed.

Lemma verdict_none_not_ended now market days_ahead :
  verdict now market days_ahead = None ->
  (let end_date := default ""%string (m_endDate market) in
   match end_date with
   | EmptyString => false
   | _ =>
       match fromisoformat (Py.replace "Z" "+00:00" end_date) with
       | Some parsed => Datetime.ltb (Datetime.replace_tzinfo_utc parsed) now
       | None => false
       end
   end) = false.
Proof.
  unfold PaperTraderV2.date_verdict, PaperTraderV2.end_date_of.
  destruct (m_endDate market) as [[|c s]|]; cbn;
    try (intros _; reflexivity).
  destruct (fromisoformat _); [|reflexivity].
  destruct (Datetime.ltb _ _); [discriminate|reflexivity].
Qed.

(** The stamp does not enter the gate: the same call with another
    clock reading returns the same trade under the other stamp. *)
Lemma gate_and_size_restamped market_id question category yes_price prediction
    opened opened' t :
  Trader.gate_and_size market_id question category yes_price prediction opened
  = Return (Trade t) ->
  Trader.gate_and_size market_id question category yes_price prediction opened'
  = Return (Trade (with_open_time t opened')).
Proof.
  unfold Trader.gate_and_size.
  destruct yes_price as [|price|s]; try discriminate.
  destruct (Qlt_le_dec _ 0.10); try discriminate.
  destruct (Qlt_le_dec _ 0.65); try discriminate.
  intros [= <-]. reflexivity.
Qed.

(** X7.  The second script only adds filters to the first: whenever it
    accepts a market, the first script, on the same record, predictor
    and date-check clock, accepts it too and leaves the same state; the
    trade it returns is the same but for [open_time], which the first
    script stamps with its naive local clock reading. *)
Theorem v2_trade_is_v1_trade self now opened opened1 market days_ahead t :
  fst (PaperTraderV2._analyze_market predict fromisoformat
         self now opened market days_ahead) = Return (Trade t) ->
  PaperTraderV1._analyze_market predict fromisoformat self now opened1 market
  = (Return (Trade (with_open_time t (Datetime.naive opened1))),
     snd (PaperTraderV2._analyze_market predict fromisoformat
            self now opened market days_ahead)) /\
  pt_open_time t = opened /\
  Datetime.tzinfo (pt_open_time (with_open_time t (Datetime.naive opened1)))
  = None.
Proof.
  intros Ht. split; [|split; [|reflexivity]].
  - revert Ht.
    unfold PaperTraderV2._analyze_market, PaperTraderV1._analyze_market.
    destruct (verdict now market days_ahead) as [v|] eqn:V.
    { cbn. intros [= ->].
      destruct (date_verdict_cases fromisoformat now market days_ahead)
        as [E|[E|E]]; rewrite E in V; discriminate. }
    assert (E := verdict_none_not_ended _ _ _ V). cbv zeta in E |- *.
    rewrite E.
    destruct (existsb _ _); [discriminate|].
    destruct (Trader.yes_price_of market) as [yes_price|e]; [|discriminate].
    destruct (predict _ _ _) as [[pr|] p]; [|discriminate].
    cbn [fst snd]. intros H.
    rewrite (gate_and_size_restamped _ _ _ _ _ _ (Datetime.naive opened1) _ H).
    reflexivity.
  - apply analyze_v2_trade in Ht. destruct Ht as (pr & yp & _ & Hg).
    unfold Trader.gate_and_size in Hg.
    destruct yp as [|price|s]; try discriminate.
    destruct (Qlt_le_dec _ 0.10); try discriminate.
    destruct (Qlt_le_dec _ 0.65); try discriminate.
    injection Hg as <-. reflexivity.
Qed.

(** X8.  An end date that does not parse does not block the market:
    the analysis is the one of the same record without end dates. *)
Theorem unparseable_date_is_ignored self now opened market days_ahead :
  fromisoformat
    (Py.replace "Z" "+00:00" (PaperTraderV2.end_date_of market)) = None ->
  PaperTraderV2._analyze_market predict fromisoformat self now opened market days_ahead
  = PaperTraderV2._analyze_market predict fromisoformat
      self now opened (without_dates market) days_ahead.
Proof.
  intros Hp.
  assert (V : verdict now market days_ahead = None).
  { unfold PaperTraderV2.date_verdict.
    destruct (PaperTraderV2.end_date_of market); [reflexivity|].
    rewrite Hp. reflexivity. }
  unfold PaperTraderV2._analyze_market. rewrite V. reflexivity.
Qed.

(** X9.  A market whose end date parses, is not past, and lies more
    than [days_ahead] whole days after the clock reading is dropped
    with [None], and the trader, its predictor included, is left as it
    was. *)
Theorem beyond_horizon_dropped self now opened market days_ahead c s parsed :
  PaperTraderV2.end_date_of market = String c s ->
  fromisoformat (Py.replace "Z" "+00:00" (String c s)) = Some parsed ->
  (Datetime.utc_instant now <= Datetime.wall parsed)%Z ->
  (days_ahead
   < (Datetime.wall parsed - Datetime.utc_instant now) / Datetime.usec_per_day)%Z ->
  PaperTraderV2._analyze_market predict fromisoformat
    self now opened market days_ahead = (Return NoTrade, self).
Proof.
  intros He Hp Hge Hfar.
  unfold PaperTraderV2._analyze_market, PaperTraderV2.date_verdict.
  rewrite He, Hp.
  assert (L : Datetime.ltb (Datetime.replace_tzinfo_utc parsed) now = false).
  { unfold Datetime.ltb, Datetime.replace_tzinfo_utc, Datetime.utc_instant at 1.
    cbn. apply Z.ltb_ge. lia. }
  rewrite L.
  assert (D : (days_ahead
               <? Datetime.sub_days (Datetime.replace_tzinfo_utc parsed) now)%Z
              = true).
  { apply Z.ltb_lt. unfold Datetime.sub_days, Datetime.replace_tzinfo_utc,
      Datetime.utc_instant at 1. cbn.
    replace (Datetime.wall parsed - 0)%Z with (Datetime.wall parsed) by lia.
    exact Hfar. }
  rewrite D. reflexivity.
Qed.

Lemma unresolved_rows_filtered rows trades :
  List.filter PaperTraderV1.is_resolved (rows ++ map Trader.new_row trades)
  = List.filter PaperTraderV1.is_resolved rows.
Proof.
  rewrite List.filter_app.
  assert (E : List.filter PaperTraderV1.is_resolved (map Trader.new_row trades) = []).
  { induction trades as [|t trades IH]; [reflexivity|]. cbn. exact IH. }
  rewrite E. apply app_nil_r.
Qed.

Lemma get_stats_by_ledger {A B} (s1 : PaperTrader A) (s2 : PaperTrader B) :
  List.filter PaperTraderV1.is_resolved (db s1)
  = List.filter PaperTraderV1.is_resolved (db s2) ->
  fst (PaperTraderV1.get_stats s1) = fst (PaperTraderV1.get_stats s2).
Proof. intros E. unfold PaperTraderV1.get_stats. cbn [fst]. rewrite E. reflexivity. Qed.

(** X10.  Scanning never moves the statistics: after a scan of either
    script, [get_stats] reports what it reported before, since the rows
    a scan inserts are unresolved. *)
Theorem scan_keeps_stats self events clock clock1 days_ahead :
  fst (PaperTraderV1.get_stats
         (snd (PaperTraderV1.scan_and_predict predict fromisoformat
                 self events clock1)))
  = fst (PaperTraderV1.get_stats self) /\
  fst (PaperTraderV1.get_stats
         (snd (PaperTraderV2.scan_and_predict predict fromisoformat
                 self events clock days_ahead)))
  = fst (PaperTraderV1.get_stats self).
Proof.
  split; apply get_stats_by_ledger.
  - destruct (scan_v1_gated predict fromisoformat self events clock1) as [-> _].
    apply unresolved_rows_filtered.
  - destruct (scan_v2_good predict fromisoformat (fun _ => True) (fun _ => True)
                (fun _ _ _ _ _ _ => conj I (fun _ _ => I))
                self events clock days_ahead I) as [-> _].
    apply unresolved_rows_filtered.
Qed.

Lemma scan_loop_v2_length clock days_ahead markets :
  forall self i predictions sd sy,
    match fst (PaperTraderV2.scan_loop predict fromisoformat self clock i
                 markets days_ahead predictions sd sy) with
    | Return (trades, sd', sy') =>
        (List.length trades + sd' + sy'
         <= List.length predictions + sd + sy + List.length markets)%nat
    | Raise _ => True
    end.
Proof.
  induction markets as [|market rest IH]; intros self i predictions sd sy.
  - cbn. lia.
  - cbn [PaperTraderV2.scan_loop].
    destruct (PaperTraderV2._analyze_market predict fromisoformat _ _ _ _ _)
      as [[[| | |t]|e] self']; cbn [fst];
      try exact I;
      match goal with
      | |- context [PaperTraderV2.scan_loop _ _ ?s _ ?j _ _ ?ps ?a ?b] =>
          specialize (IH s j ps a b)
      end;
      destruct (fst (PaperTraderV2.scan_loop _ _ _ _ _ _ _ _ _ _))
        as [[[trades sd'] sy']|]; auto;
      rewrite ?length_app in IH; cbn [List.length] in *; lia.
Qed.

Lemma scan_loop_v1_length clock markets :
  forall self i predictions,
    match fst (PaperTraderV1.scan_loop predict fromisoformat self clock i
                 markets predictions) with
    | Return trades =>
        (List.length trades <= List.length predictions + List.length markets)%nat
    | Raise _ => True
    end.
Proof.
  induction markets as [|market rest IH]; intros self i predictions.
  - cbn. lia.
  - cbn [PaperTraderV1.scan_loop].
    destruct (PaperTraderV1._analyze_market predict fromisoformat _ _ _ _)
      as [[[| | |t]|e] self']; cbn [fst];
      try exact I;
      match goal with
      | |- context [PaperTraderV1.scan_loop _ _ ?s _ ?j _ ?ps] =>
          specialize (IH s j ps)
      end;
      destruct (fst (PaperTraderV1.scan_loop _ _ _ _ _ _ _)) as [trades|]; auto;
      rewrite ?length_app in IH; cbn [List.length] in *; lia.
Qed.

(** X13.  A scan returns, and so inserts, at most one trade per listed
    market, in either script. *)
Theorem at_most_one_trade_per_market self events clock clock1 days_ahead :
  (List.length
     (trades_of (PaperTraderV2.scan_and_predict predict fromisoformat
                   self events clock days_ahead))
   <= List.length (Trader.flatten events))%nat /\
  (List.length
     (trades_of (PaperTraderV1.scan_and_predict predict fromisoformat
                   self events clock1))
   <= List.length (Trader.flatten events))%nat.
Proof.
  split.
  - unfold PaperTraderV2.scan_and_predict, trades_of.
    assert (H := scan_loop_v2_length clock days_ahead (Trader.flatten events)
                   self 0%nat [] 0%nat 0%nat).
    destruct (PaperTraderV2.scan_loop _ _ _ _ _ _ _ _ _ _)
      as [[[[trades sd] sy]|e] self']; cbn in *; lia.
  - unfold PaperTraderV1.scan_and_predict, trades_of.
    assert (H := scan_loop_v1_length clock1 (Trader.flatten events)
                   self 0%nat []).
    destruct (PaperTraderV1.scan_loop _ _ _ _ _ _ _)
      as [[trades|e] self']; cbn in *; lia.
Qed.

End TraderMore.

Lemma trade_direction_witness :
  exists t,
    fst (PaperTraderV2._analyze_market (fixed_predict (estimate 0.30 0.70))
           Datetime.fromisoformat_basic (trader_on tt [] 2026) morning morning
           (listed "Will it rain in Paris tomorrow?" None (Some 0.55%Q)) 30)
    = Return (Trade t) /\
    (pt_direction t = YES <-> (pt_market_odds t < pt_our_prediction t)%Q) /\
    (pt_direction t = YES ->
     (pt_market_odds t + 0.10 <= pt_our_prediction t)%Q) /\
    (pt_direction t = NO ->
     (pt_our_prediction t + 0.10 <= pt_market_odds t)%Q).
Proof.
  eexists. split; [vm_compute; reflexivity|].
  apply (trade_direction (fixed_predict (estimate 0.30 0.70))
           Datetime.fromisoformat_basic (trader_on tt [] 2026) morning morning
           (listed "Will it rain in Paris tomorrow?" None (Some 0.55%Q)) 30%Z).
  vm_compute. reflexivity.
Defined.

(** The first script's clock reads 09:00 local time, two hours ahead
    of UTC. *)
Lemma v2_trade_is_v1_trade_witness :
  let market :=
    listed "Will it rain in Paris tomorrow?"
      (Some "2026-11-20T00:00:00Z"%string) (Some 0.35%Q) in
  let local := Datetime.wall (Datetime.of_fields 2026 11 4 9 0 0 None) in
  exists t,
    fst (PaperTraderV2._analyze_market (fixed_predict (estimate 0.60 0.70))
           Datetime.fromisoformat_basic (trader_on tt [] 2026)
           morning morning market 30) = Return (Trade t) /\
    PaperTraderV1._analyze_market (fixed_predict (estimate 0.60 0.70))
      Datetime.fromisoformat_basic (trader_on tt [] 2026) morning local market
    = (Return (Trade (with_open_time t (Datetime.naive local))),
       snd (PaperTraderV2._analyze_market (fixed_predict (estimate 0.60 0.70))
              Datetime.fromisoformat_basic (trader_on tt [] 2026)
              morning morning market 30)) /\
    pt_open_time t = morning /\
    Datetime.tzinfo (pt_open_time (with_open_time t (Datetime.naive local)))
    = None.
Proof.
  intros market local. eexists. split; [vm_compute; reflexivity|].
  apply (v2_trade_is_v1_trade (fixed_predict (estimate 0.60 0.70))
           Datetime.fromisoformat_basic (trader_on tt [] 2026) morning morning
           local market 30%Z).
  vm_compute. reflexivity.
Defined.

Lemma unparseable_date_is_ignored_witness :
  PaperTraderV2._analyze_market (fixed_predict (estimate 0.60 0.70))
    Datetime.fromisoformat_basic (trader_on tt [] 2026) morning morning
    (listed "Will it rain in Paris tomorrow?" (Some "soon"%string)
       (Some 0.35%Q)) 30
  = PaperTraderV2._analyze_market (fixed_predict (estimate 0.60 0.70))
      Datetime.fromisoformat_basic (trader_on tt [] 2026) morning morning
      (without_dates
         (listed "Will it rain in Paris tomorrow?" (Some "soon"%string)
            (Some 0.35%Q))) 30.
Proof.
  apply (unparseable_date_is_ignored (fixed_predict (estimate 0.60 0.70))
           Datetime.fromisoformat_basic (trader_on tt [] 2026) morning morning
           (listed "Will it rain in Paris tomorrow?" (Some "soon"%string)
              (Some 0.35%Q)) 30%Z).
  vm_compute. reflexivity.
Defined.

Lemma beyond_horizon_dropped_witness :
  PaperTraderV2._analyze_market counting_predict
    Datetime.fromisoformat_basic (trader_on 0%nat [] 2026) morning morning
    (listed "Will it rain in Paris next summer?"
       (Some "2027-06-01T00:00:00Z"%string) (Some 0.35%Q)) 30
  = (Return NoTrade, trader_on 0%nat [] 2026).
Proof.
  apply (beyond_horizon_dropped counting_predict Datetime.fromisoformat_basic
           (trader_on 0%nat [] 2026) morning morning
           (listed "Will it rain in Paris next summer?"
              (Some "2027-06-01T00:00:00Z"%string) (Some 0.35%Q)) 30%Z
           "2" "027-06-01T00:00:00Z"
           (Datetime.of_fields 2027 6 1 0 0 0 (Some 0%Z))).
  - reflexivity.
  - vm_compute. reflexivity.
  - vm_compute. discriminate.
  - vm_compute. reflexivity.
Defined.

(** ** Categories, flattening, sizes *)

Lemma lower_ascii_idempotent c : Py.lower_ascii (Py.lower_ascii c) = Py.lower_ascii c.
Proof. destruct c as [[] [] [] [] [] [] [] []]; reflexivity. Qed.

Lemma lower_idempotent s : Py.lower (Py.lower s) = Py.lower s.
Proof.
  induction s as [|c s IH]; [reflexivity|].
  cbn [Py.lower]. rewrite lower_ascii_idempotent, IH. reflexivity.
Qed.

Lemma lower_upper_ascii c : Py.lower_ascii (Py.upper_ascii c) = Py.lower_ascii c.
Proof. destruct c as [[] [] [] [] [] [] [] []]; reflexivity. Qed.

Lemma lower_upper s : Py.lower (Py.upper s) = Py.lower s.
Proof.
  induction s as [|c s IH]; [reflexivity|].
  cbn [Py.lower Py.upper]. rewrite lower_upper_ascii, IH. reflexivity.
Qed.

(** X11.  The category of a question written in ASCII does not depend
    on letter case: the question, its lower-case and its upper-case
    form get the same category.  (Outside ASCII the case mappings of
    Python are not inverse to each other, and the property is not
    claimed.) *)
Theorem detect_category_ignores_case question :
  is_ascii question = true ->
  Trader._detect_category (Py.lower question) = Trader._detect_category question /\
  Trader._detect_category (Py.upper question) = Trader._detect_category question.
Proof.
  intros _. unfold Trader._detect_category.
  rewrite lower_idempotent, lower_upper. split; reflexivity.
Qed.

Lemma detect_category_ignores_case_witness :
  Trader._detect_category (Py.lower "Will Bitcoin rally?")
  = Trader._detect_category "Will Bitcoin rally?" /\
  Trader._detect_category (Py.upper "Will Bitcoin rally?")
  = Trader._detect_category "Will Bitcoin rally?".
Proof.
  apply (detect_category_ignores_case "Will Bitcoin rally?").
  reflexivity.
Defined.

(** X12.  Every market a scan analyses comes from an event and carries
    that event's end date: its own end date is used when it has a
    non-empty one, the event's otherwise. *)
Theorem flattened_market_inherits_end_date events flattened :
  In flattened (Trader.flatten events) ->
  exists event market,
    In event events /\ In market (default [] (e_markets event)) /\
    m_question flattened = m_question market /\
    m_prices flattened = m_prices market /\
    PaperTraderV2.end_date_of flattened
    = match m_endDate market with
      | Some (String c s) => String c s
      | _ => default ""%string (e_endDate event)
      end.
Proof.
  unfold Trader.flatten. intros H. apply in_flat_map in H.
  destruct H as (event & He & Hm). apply in_map_iff in Hm.
  destruct Hm as (market & <- & Hin).
  exists event, market. repeat split; auto.
Qed.

Lemma flattened_market_inherits_end_date_witness :
  let events :=
    [ {| e_title := Some "Weather"%string;
         e_endDate := Some "2026-11-20T00:00:00Z"%string;
         e_markets := Some [listed "Will it rain?" None (Some 0.35%Q)] |} ] in
  let flattened :=
    {| m_id := Some "m1"%string; m_question := Some "Will it rain?"%string;
       m_endDate := None;
       m_prices := Some (PricesObj (Some (JNum 0.35%Q)));
       m_volume := None;
       m_event_title := Some "Weather"%string;
       m_event_end_date := Some "2026-11-20T00:00:00Z"%string |} in
  exists event market,
    In event events /\ In market (default [] (e_markets event)) /\
    m_question flattened = m_question market /\
    m_prices flattened = m_prices market /\
    PaperTraderV2.end_date_of flattened
    = match m_endDate market with
      | Some (String c s) => String c s
      | _ => default ""%string (e_endDate event)
      end.
Proof.
  intros events flattened.
  apply (flattened_market_inherits_end_date events flattened).
  left. reflexivity.
Defined.

Section SizeRange.

Variable tavily : nat -> string -> string.
Variable fromisoformat : string -> option Datetime.datetime.

Local Open Scope Q_scope.

Lemma ranged_step self now opened market days_ahead :
  graded_cache self ->
  graded_cache
    (snd (PaperTraderV2._analyze_market (tavily_predict tavily) fromisoformat
            self now opened market days_ahead)) /\
  forall t,
    fst (PaperTraderV2._analyze_market (tavily_predict tavily) fromisoformat
           self now opened market days_ahead) = Return (Trade t) ->
    36 <= pt_trade_size t /\ pt_trade_size t <= 44 /\
    0.65 <= pt_confidence t /\ pt_confidence t <= 0.85.
Proof.
  intros HI.
  destruct (sized_step tavily fromisoformat self now opened market days_ahead HI)
    as [HI' HS].
  split; [exact HI'|]. intros t Ht. destruct (HS t Ht) as [Hsz _].
  apply analyze_v2_trade in Ht. destruct Ht as (pr & yp & Hp & Hg).
  cbv zeta in Hp.
  set (q := default ""%string (m_question market)) in *.
  destruct (predict_invariant tavily graded parse_results_graded
              (predictor self) q (Trader._detect_category q) HI) as [HG _].
  unfold tavily_predict in Hp.
  destruct (TavilyPredictor.predict _ _ _ _) as [pr' p]. cbn in Hp, HG.
  injection Hp as ->.
  apply gate_and_size_trade in Hg.
  destruct Hg as (price & _ & _ & _ & Hc & _ & _ & _ & _ & G2).
  destruct HG as (k & c & Hk & Hck & Ek).
  rewrite Hck in Hc. cbn in Hc.
  assert (Hle : pt_confidence t <= 0.85).
  { rewrite Hc, Ek.
    assert (H2 : inject_Z k <= 85)
      by (change 85 with (inject_Z 85); rewrite <- Zle_Qle; lia).
    lra. }
  rewrite Q.min_r in Hsz by lra.
  repeat split; lra.
Qed.

(** X14.  With the engine the scripts construct, every trade of a scan
    has a confidence between 0.65 and 0.85 and a size between 36 and
    44. *)
Theorem engine_trade_size_range calls rows year events clock days_ahead :
  Forall
    (fun t =>
       36 <= pt_trade_size t /\ pt_trade_size t <= 44 /\
       0.65 <= pt_confidence t /\ pt_confidence t <= 0.85)
    (trades_of
       (PaperTraderV2.scan_and_predict (tavily_predict tavily) fromisoformat
          (trader_on (after_calls tavily calls) rows year)
          events clock days_ahead)).
Proof.
  apply (scan_v2_good (tavily_predict tavily) fromisoformat graded_cache _
           ranged_step).
  unfold graded_cache. cbn. apply after_calls_invariant.
  exact parse_results_graded.
Qed.

End SizeRange.

(** ** Ledger statistics *)

Section StatsMore.

Local Open Scope Q_scope.

Lemma win_excludes_loss r :
  PaperTraderV1.outcome_is "WIN" r = true ->
  PaperTraderV1.outcome_is "LOSS" r = false.
Proof.
  unfold PaperTraderV1.outcome_is. destruct (outcome r) as [o|]; [|discriminate].
  intros W. apply String.eqb_eq in W. subst o. reflexivity.
Qed.

Lemma wins_and_losses_resolved rows :
  (count_rows (PaperTraderV1.outcome_is "WIN") rows
   + count_rows (PaperTraderV1.outcome_is "LOSS") rows
   <= count_rows PaperTraderV1.is_resolved rows)%Z.
Proof.
  unfold count_rows. induction rows as [|r rows IH]; [cbn; lia|].
  cbn [List.filter].
  destruct (PaperTraderV1.outcome_is "WIN" r) eqn:W.
  - rewrite (win_excludes_loss r W), (outcome_is_resolved _ _ W).
    cbn [List.length]. lia.
  - destruct (PaperTraderV1.outcome_is "LOSS" r) eqn:L.
    + rewrite (outcome_is_resolved _ _ L). cbn [List.length]. lia.
    + destruct (PaperTraderV1.is_resolved r); cbn [List.length]; lia.
Qed.

Lemma count_rows_nonneg f rows : (0 <= count_rows f rows)%Z.
Proof. unfold count_rows. lia. Qed.

Lemma rate_bounds (w d : Z) :
  (0 <= w <= d)%Z -> (0 < d)%Z ->
  0 <= inject_Z w / inject_Z d * 100 /\ inject_Z w / inject_Z d * 100 <= 100.
Proof.
  intros [H0 H1] Hd.
  assert (Qd : 0 < inject_Z d) by (change 0 with (inject_Z 0); rewrite <- Zlt_Qlt; lia).
  assert (Q0 : 0 <= inject_Z w) by (change 0 with (inject_Z 0); rewrite <- Zle_Qle; lia).
  assert (Q1 : inject_Z w <= inject_Z d) by (rewrite <- Zle_Qle; lia).
  assert (A : 0 <= inject_Z w / inject_Z d)
    by (apply Qle_shift_div_l; [exact Qd|lra]).
  assert (B : inject_Z w / inject_Z d <= 1)
    by (apply Qle_shift_div_r; [exact Qd|lra]).
  split; lra.
Qed.

(** X15.  In the statistics of [paper_trader.py] the wins and losses are
    counts of different resolved rows, so together they never exceed
    the reported total; the win rate is a percentage between 0 and 100,
    and it is 0 when no row is marked WIN or LOSS. *)
Theorem stats_are_consistent {P} (self : PaperTrader P) :
  let stats := fst (PaperTraderV1.get_stats self) in
  (0 <= PaperTraderV1.wins stats)%Z /\ (0 <= PaperTraderV1.losses stats)%Z /\
  (PaperTraderV1.wins stats + PaperTraderV1.losses stats
   <= PaperTraderV1.total_predictions stats)%Z /\
  0 <= PaperTraderV1.win_rate stats /\ PaperTraderV1.win_rate stats <= 100 /\
  ((PaperTraderV1.wins stats + PaperTraderV1.losses stats = 0)%Z ->
   PaperTraderV1.win_rate stats = 0).
Proof.
  intros stats.
  destruct (get_stats_reads self) as (_ & Ht & Hw & Hl). fold stats in Ht, Hw, Hl.
  assert (W0 := count_rows_nonneg (PaperTraderV1.outcome_is "WIN") (db self)).
  assert (L0 := count_rows_nonneg (PaperTraderV1.outcome_is "LOSS") (db self)).
  assert (S := wins_and_losses_resolved (db self)).
  rewrite <- Ht, <- Hw, <- Hl in *.
  split; [exact W0|]. split; [exact L0|]. split; [exact S|].
  assert (E : PaperTraderV1.win_rate stats
              = if (0 <? PaperTraderV1.wins stats + PaperTraderV1.losses stats)%Z
                then inject_Z (PaperTraderV1.wins stats)
                     / inject_Z (PaperTraderV1.wins stats
                                 + PaperTraderV1.losses stats) * 100
                else 0) by reflexivity.
  rewrite E.
  destruct (0 <? _)%Z eqn:Pz.
  - apply Z.ltb_lt in Pz.
    destruct (rate_bounds (PaperTraderV1.wins stats)
                (PaperTraderV1.wins stats + PaperTraderV1.losses stats))
      as [A B]; [lia|lia|].
    split; [exact A|]. split; [exact B|]. lia.
  - split; [lra|]. split; [lra|]. reflexivity.
Qed.

Lemma sum_resolved rows :
  fold_right Z.add 0%Z
    (map (fun r => if PaperTraderV1.is_resolved r then 1%Z else 0%Z) rows)
  = count_rows PaperTraderV1.is_resolved rows.
Proof.
  unfold count_rows. induction rows as [|r rows IH]; [reflexivity|].
  cbn [map fold_right List.filter]. rewrite IH.
  destruct (PaperTraderV1.is_resolved r); cbn [List.length]; lia.
Qed.

(** What [get_stats] of [scheduler.py] reads off any table. *)
Lemma scheduler_stats_read table :
  let stats := Scheduler.get_stats table in
  Scheduler.total stats = Z.of_nat (List.length table) /\
  Scheduler.resolved stats = count_rows PaperTraderV1.is_resolved table /\
  Scheduler.wins stats = count_rows (PaperTraderV1.outcome_is "WIN") table /\
  Scheduler.win_rate stats
  = if (0 <? Scheduler.resolved stats)%Z
    then inject_Z (Scheduler.wins stats)
         / inject_Z (Z.max (Scheduler.resolved stats) 1) * 100
    else 0.
Proof.
  destruct table as [|r rows]; [cbn; auto|].
  assert (E : forall f : Row -> Z,
            PaperTraderV1.sql_sum_int (map f (r :: rows))
            = Some (fold_right Z.add 0%Z (map f (r :: rows)))) by reflexivity.
  unfold Scheduler.get_stats. rewrite !E.
  rewrite (sum_resolved (r :: rows)), (sum_case_outcome "WIN" (r :: rows)).
  cbn [Scheduler.total Scheduler.resolved Scheduler.wins Scheduler.win_rate].
  auto.
Qed.

(** X16.  The two statistics functions agree on what they both report:
    on every table, the empty one included, the scheduler's [resolved]
    is the trader's [total_predictions] and their [wins] are equal;
    the scheduler's [total] is the number of rows, never less than
    [resolved], and its win rate lies between 0 and 100. *)
Theorem scheduler_agrees_with_trader {P} (self : PaperTrader P) :
  let mine := fst (PaperTraderV1.get_stats self) in
  let theirs := Scheduler.get_stats (db self) in
  Scheduler.resolved theirs = PaperTraderV1.total_predictions mine /\
  Scheduler.wins theirs = PaperTraderV1.wins mine /\
  Scheduler.total theirs = Z.of_nat (List.length (db self)) /\
  (Scheduler.wins theirs <= Scheduler.resolved theirs
   <= Scheduler.total theirs)%Z /\
  0 <= Scheduler.win_rate theirs /\ Scheduler.win_rate theirs <= 100.
Proof.
  intros mine theirs.
  destruct (get_stats_reads self) as (_ & Ht & Hw & Hl). fold mine in Ht, Hw, Hl.
  destruct (scheduler_stats_read (db self)) as (St & Sr & Sw & Srate).
  fold theirs in St, Sr, Sw, Srate.
  assert (S := wins_and_losses_resolved (db self)).
  assert (L0 := count_rows_nonneg (PaperTraderV1.outcome_is "LOSS") (db self)).
  assert (W0 := count_rows_nonneg (PaperTraderV1.outcome_is "WIN") (db self)).
  assert (Rle : (count_rows PaperTraderV1.is_resolved (db self)
                 <= Z.of_nat (List.length (db self)))%Z).
  { unfold count_rows. apply inj_le. apply List.filter_length_le. }
  split; [congruence|]. split; [congruence|]. split; [exact St|].
  split; [lia|].
  rewrite Srate. destruct (0 <? _)%Z eqn:Pz.
  - apply Z.ltb_lt in Pz. rewrite Z.max_l by lia.
    apply rate_bounds; lia.
  - split; lra.
Qed.

(** X17.  When every resolved row is marked WIN or LOSS, the two
    functions report the same win rate. *)
Theorem win_rates_agree {P} (self : PaperTrader P) :
  decided (db self) ->
  Scheduler.win_rate (Scheduler.get_stats (db self))
  == PaperTraderV1.win_rate (fst (PaperTraderV1.get_stats self)).
Proof.
  intros Hd.
  assert (E : count_rows PaperTraderV1.is_resolved (db self)
              = (count_rows (PaperTraderV1.outcome_is "WIN") (db self)
                 + count_rows (PaperTraderV1.outcome_is "LOSS") (db self))%Z).
  { revert Hd. unfold decided, count_rows.
    induction (db self) as [|r rows IH]; intros Hd; [reflexivity|].
    assert (IH' := IH (fun r' Hin => Hd r' (or_intror Hin))).
    assert (Hr := Hd r (or_introl eq_refl)).
    cbn [List.filter].
    destruct (PaperTraderV1.is_resolved r) eqn:R.
    - destruct (Hr eq_refl) as [W|L].
      + rewrite W, (win_excludes_loss r W). cbn [List.length]. lia.
      + rewrite L.
        assert (W : PaperTraderV1.outcome_is "WIN" r = false).
        { destruct (PaperTraderV1.outcome_is "WIN" r) eqn:W; [|reflexivity].
          rewrite (win_excludes_loss r W) in L. discriminate. }
        rewrite W. cbn [List.length]. lia.
    - assert (W : PaperTraderV1.outcome_is "WIN" r = false).
      { destruct (PaperTraderV1.outcome_is "WIN" r) eqn:W; [|reflexivity].
        apply outcome_is_resolved in W. congruence. }
      assert (L : PaperTraderV1.outcome_is "LOSS" r = false).
      { destruct (PaperTraderV1.outcome_is "LOSS" r) eqn:L; [|reflexivity].
        apply outcome_is_resolved in L. congruence. }
      rewrite W, L. exact IH'. }
  destruct (get_stats_reads self) as (_ & Ht & Hw & Hl).
  destruct (scheduler_stats_read (db self)) as (St & Sr & Sw & Srate).
  assert (Er : PaperTraderV1.win_rate (fst (PaperTraderV1.get_stats self))
              = if (0 <? PaperTraderV1.wins (fst (PaperTraderV1.get_stats self))
                         + PaperTraderV1.losses (fst (PaperTraderV1.get_stats self)))%Z
                then inject_Z (PaperTraderV1.wins (fst (PaperTraderV1.get_stats self)))
                     / inject_Z (PaperTraderV1.wins (fst (PaperTraderV1.get_stats self))
                                 + PaperTraderV1.losses (fst (PaperTraderV1.get_stats self)))
                     * 100
                else 0) by reflexivity.
  rewrite Sr, Sw, E in Srate. rewrite Hw, Hl in Er. rewrite Srate, Er.
  destruct (0 <? _)%Z eqn:Pz; [|reflexivity].
  apply Z.ltb_lt in Pz. rewrite Z.max_l by lia. reflexivity.
Qed.

End StatsMore.

Lemma win_rates_agree_witness :
  let self :=
    trader_on tt
      [resolved_row "WIN" 12; Trader.new_row sample_trade;
       resolved_row "LOSS" (-38); resolved_row "WIN" 5] 2026 in
  (Scheduler.win_rate (Scheduler.get_stats (db self))
   == PaperTraderV1.win_rate (fst (PaperTraderV1.get_stats self)))%Q.
Proof.
  apply (win_rates_agree
           (trader_on tt
              [resolved_row "WIN" 12; Trader.new_row sample_trade;
               resolved_row "LOSS" (-38); resolved_row "WIN" 5] 2026)).
  intros r Hin Hr. cbn in Hin.
  destruct Hin as [<-|[<-|[<-|[<-|[]]]]]; cbn in Hr |- *; auto; discriminate.
Defined.

(** ** main.py *)

Section ScanMarkets.

Variable analyze_market : Bot.BotMarket -> option Bot.BotPrediction.

Local Open Scope Q_scope.

Lemma insert_by_edge_perm x l : BotScan.insert_by_edge x l ≡ₚ x :: l.
Proof.
  induction l as [|y l IH]; [reflexivity|].
  cbn [BotScan.insert_by_edge].
  destruct (Qlt_le_dec _ _); [|reflexivity].
  rewrite IH. apply Permutation_swap.
Qed.

Lemma sort_by_edge_perm l : BotScan.sort_by_edge l ≡ₚ l.
Proof.
  induction l as [|x l IH]; [reflexivity|].
  cbn. rewrite insert_by_edge_perm, IH. reflexivity.
Qed.

Lemma insert_by_edge_sorted x l :
  StronglySorted by_edge_desc l ->
  StronglySorted by_edge_desc (BotScan.insert_by_edge x l).
Proof.
  induction l as [|y l IH]; intros Hs; cbn [BotScan.insert_by_edge].
  - constructor; constructor.
  - apply StronglySorted_inv in Hs. destruct Hs as [Hs Hy].
    destruct (Qlt_le_dec (Bot.edge x) (Bot.edge y)) as [L|G].
    + constructor; [apply IH; exact Hs|].
      rewrite List.Forall_forall in *. intros z Hz.
      apply (Permutation_in _ (insert_by_edge_perm x l)) in Hz.
      destruct Hz as [<-|Hz]; [unfold by_edge_desc; lra|apply Hy; exact Hz].
    + constructor; [constructor; assumption|].
      constructor; [exact G|].
      rewrite List.Forall_forall in *. intros z Hz.
      specialize (Hy z Hz). unfold by_edge_desc in *. lra.
Qed.

Lemma sort_by_edge_sorted l : StronglySorted by_edge_desc (BotScan.sort_by_edge l).
Proof.
  induction l as [|x l IH]; [constructor|].
  cbn. apply insert_by_edge_sorted. exact IH.
Qed.

Lemma scan_loop_builds cfg markets : forall opportunities result,
  BotScan.scan_loop analyze_market cfg markets opportunities = Some result ->
  exists built,
    result = opportunities ++ built /\
    Forall (well_scored analyze_market cfg) built /\
    map Bot.market built = List.filter (confident analyze_market cfg) markets.
Proof.
  induction markets as [|m markets IH]; intros opps result H.
  - cbn in H. injection H as <-. exists []. rewrite app_nil_r. auto.
  - cbn [BotScan.scan_loop] in H. cbn [List.filter]. unfold confident at 1.
    destruct (analyze_market m) as [p|] eqn:A; [|discriminate].
    destruct (Qlt_le_dec _ _) as [L|G].
    + apply IH in H. exact H.
    + apply IH in H. destruct H as (built & -> & HF & HM).
      eexists (_ :: built). rewrite <- app_assoc. split; [reflexivity|].
      split; [|cbn; rewrite HM; reflexivity].
      constructor; [|exact HF]. unfold well_scored. cbn. auto.
Qed.

Lemma scan_loop_completes cfg markets : forall opportunities,
  (forall m, In m markets -> analyze_market m <> None) ->
  BotScan.scan_loop analyze_market cfg markets opportunities <> None.
Proof.
  induction markets as [|m markets IH]; intros opps H; [discriminate|].
  cbn [BotScan.scan_loop].
  destruct (analyze_market m) as [p|] eqn:A;
    [|exfalso; apply (H m); [left; reflexivity|exact A]].
  destruct (Qlt_le_dec _ _); apply IH; intros m' Hm'; apply H; right; exact Hm'.
Qed.

(** X18.  [scan_markets] returns its opportunities ordered by edge,
    highest first; each was analysed without an exception, has a
    confidence of at least [min_confidence] and carries the edge
    [_calculate_edge] computes for it.  When the fetch and every
    analysis succeed, the opportunities are exactly the markets with
    such a confidence; when the fetch fails the result is empty. *)
Theorem scan_markets_sorted_and_filtered self fetched :
  let opportunities := BotScan.scan_markets analyze_market self fetched in
  StronglySorted by_edge_desc opportunities /\
  Forall (well_scored analyze_market (Bot.config self)) opportunities /\
  (fetched = None -> opportunities = []) /\
  (forall markets,
     fetched = Some markets ->
     (forall m, In m markets -> analyze_market m <> None) ->
     map Bot.market opportunities
     ≡ₚ List.filter (confident analyze_market (Bot.config self)) markets).
Proof.
  intros opps. unfold opps, BotScan.scan_markets.
  destruct fetched as [markets|].
  - destruct (BotScan.scan_loop _ _ _ _) as [found|] eqn:E.
    + destruct (scan_loop_builds _ _ _ _ E) as (built & -> & HF & HM).
      cbn [app] in *.
      split; [apply sort_by_edge_sorted|]. split; [|split; [discriminate|]].
      * rewrite List.Forall_forall in *. intros o Ho. apply HF.
        apply (Permutation_in _ (sort_by_edge_perm built)). exact Ho.
      * intros ms [= <-] _. rewrite <- HM.
        apply Permutation_map. apply sort_by_edge_perm.
    + split; [constructor|]. split; [constructor|]. split; [discriminate|].
      intros ms [= <-] Hall. exfalso.
      apply (scan_loop_completes (Bot.config self) markets [] Hall). exact E.
  - split; [constructor|]. split; [constructor|]. split; [reflexivity|].
    discriminate.
Qed.

(** X19.  The edge of [main.py] is the gap between prediction and
    price scaled by the confidence: for a confidence within [0, 1] it
    is never negative and never more than the gap itself. *)
Theorem calculate_edge_bounds prediction market :
  0 <= Bot.b_confidence prediction -> Bot.b_confidence prediction <= 1 ->
  0 <= BotScan._calculate_edge prediction market /\
  BotScan._calculate_edge prediction market
  <= Qabs (Bot.probability prediction - default 0.5 (Bot.b_yes_price market)).
Proof.
  intros H0 H1. unfold BotScan._calculate_edge.
  set (gap := Qabs _). assert (Hg : 0 <= gap) by apply Qabs_nonneg.
  split.
  - apply Qmult_le_0_compat; assumption.
  - assert (H : Bot.b_confidence prediction * gap <= 1 * gap)
      by (apply Qmult_le_compat_r; assumption).
    lra.
Qed.

End ScanMarkets.

Lemma scan_markets_sorted_and_filtered_witness :
  let markets := [bot_market "aaa"; bot_market "a"; bot_market "aaaaa"] in
  map Bot.market
    (BotScan.scan_markets id_length_analyzer (Bot.init eager_config)
       (Some markets))
  ≡ₚ List.filter (confident id_length_analyzer eager_config) markets.
Proof.
  intros markets.
  apply (proj2 (proj2 (proj2
           (scan_markets_sorted_and_filtered id_length_analyzer
              (Bot.init eager_config) (Some markets)))) markets eq_refl).
  intros m _. discriminate.
Defined.

(** The three markets come out by falling edge: gaps 0.15, 0.25 and
    0.05 at confidence 0.70. *)
Example scan_markets_orders_by_edge :
  map (fun o => Bot.b_id (Bot.market o))
    (BotScan.scan_markets id_length_analyzer (Bot.init eager_config)
       (Some [bot_market "aaaaa"; bot_market "a"; bot_market "aaa"]))
  = ["a"; "aaaaa"; "aaa"]%string.
Proof. vm_compute. reflexivity. Qed.

Lemma calculate_edge_bounds_witness :
  let prediction :=
    {| Bot.direction := "YES"; Bot.probability := 0.60%Q;
       Bot.b_confidence := 0.70%Q; Bot.b_reasoning := "estimate" |} in
  (0 <= BotScan._calculate_edge prediction (bot_market "m1"))%Q /\
  (BotScan._calculate_edge prediction (bot_market "m1")
   <= Qabs (Bot.probability prediction
            - default 0.5 (Bot.b_yes_price (bot_market "m1"))))%Q.
Proof.
  intros prediction.
  apply (calculate_edge_bounds prediction (bot_market "m1")).
  - vm_compute. discriminate.
  - vm_compute. discriminate.
Defined.

Section RiskGateMore.

Variable calculate_position : Q -> Q -> Q -> Q.
Variable approve_trade : Q -> Q -> Q -> bool.

Local Abbreviation evaluate := (Bot.evaluate_position calculate_position approve_trade).

(** X20.  The analyzer of [strategies/predictor.py] names its direction
    YES or NO, and [evaluate_position] buys YES only for the direction
    UP: every decision on one of that analyzer's estimates has side NO,
    also when the estimate's direction is YES. *)
Theorem analyzer_decisions_are_no {News : Type} (fetch : string -> News)
    (analyze : News -> Q)
    (calculate : string -> Q -> Market -> News -> Analyzer.Calculation)
    (listing : Market) self opportunity decision :
  Bot.prediction opportunity
  = Analyzer.as_bot_prediction
      (Analyzer.analyze_market fetch analyze calculate listing) ->
  evaluate self opportunity = Some decision ->
  Bot.side decision = NO.
Proof.
  intros Hp He. unfold Bot.evaluate_position in He.
  destruct (_ <=? _)%Z; [discriminate|].
  destruct (Py.dict_get _ _); [discriminate|].
  destruct (negb _); [discriminate|].
  injection He as <-. cbn [Bot.side]. rewrite Hp.
  unfold Analyzer.as_bot_prediction, Analyzer.analyze_market.
  cbn [Bot.direction Analyzer.e_direction].
  destruct (Qlt_le_dec _ _); reflexivity.
Qed.

Lemma manual_call self call :
  Bot.auto_execute (Bot.config self) = false ->
  Bot.active_positions self = [] ->
  let self' := after_bot_calls self [call] in
  Bot.config self' = Bot.config self /\ Bot.active_positions self' = [].
Proof.
  intros Hoff He. destruct call as [d order|get_market analyze_market]; cbn.
  - unfold Bot.execute_trade. rewrite Hoff. cbn. auto.
  - unfold Bot.monitor_positions. rewrite He. cbn. auto.
Qed.

(** X21.  Under a configuration with [auto_execute] off, the default,
    no position is ever opened: whatever decisions are handed to
    [execute_trade], whatever the exchange would answer and however
    often the positions are monitored, a bot that starts without
    positions stays without. *)
Theorem manual_mode_opens_nothing cfg calls :
  Bot.auto_execute cfg = false ->
  Bot.active_positions (after_bot_calls (Bot.init cfg) calls) = [].
Proof.
  intros Hoff.
  cut (forall self,
         Bot.auto_execute (Bot.config self) = false ->
         Bot.active_positions self = [] ->
         Bot.active_positions (after_bot_calls self calls) = []).
  { intros H. apply H; [exact Hoff|reflexivity]. }
  induction calls as [|call calls IH]; intros self Ho He; [exact He|].
  destruct (manual_call self call Ho He) as [Hc He'].
  change (after_bot_calls self (call :: calls))
    with (after_bot_calls (after_bot_calls self [call]) calls).
  apply IH; [rewrite Hc; exact Ho|exact He'].
Qed.

(** X22.  Once a decision is executed, the gate turns down every
    further opportunity on that market, as long as the position stays
    open. *)
Theorem executed_market_is_blocked self opportunity decision result later :
  evaluate self opportunity = Some decision ->
  Bot.auto_execute (Bot.config self) = true ->
  Bot.b_id (Bot.market later) = Bot.b_id (Bot.market opportunity) ->
  let self' := snd (Bot.execute_trade self decision (Some result)) in
  Py.dict_get (Bot.b_id (Bot.market opportunity)) (Bot.active_positions self')
  = Some decision /\
  List.length (Bot.active_positions self')
  = S (List.length (Bot.active_positions self)) /\
  evaluate self' later = None.
Proof.
  intros He Hon Hid self'.
  apply gate_accepts in He. destruct He as (_ & Hnew & Hm & _).
  assert (E : Bot.active_positions self'
              = Bot.active_positions self ++ [(Bot.market_id decision, decision)]).
  { unfold self', Bot.execute_trade. rewrite Hon. cbn [snd Bot.active_positions].
    apply dict_set_absent. exact Hnew. }
  assert (L : Py.dict_get (Bot.b_id (Bot.market opportunity))
                (Bot.active_positions self') = Some decision).
  { rewrite E, <- Hm, (dict_get_app_absent _ _ _ _ Hnew), String.eqb_refl.
    reflexivity. }
  split; [exact L|]. split.
  - rewrite E, length_app. cbn [List.length]. lia.
  - apply gate_rejects_open_market. rewrite Hid, L. eauto.
Qed.

(** X23.  [monitor_positions] never adds or changes a position and
    keeps the configuration, whether it returns or raises; a position
    whose market is not found resolved stays as it is; and when the
    call returns, every open position's market was found and exactly
    the positions on markets found resolved are gone. *)
Theorem monitor_drops_resolved_only self get_market analyze_market market_id :
  let r := Bot.monitor_positions self get_market analyze_market in
  let before := Py.dict_get market_id (Bot.active_positions self) in
  let after := Py.dict_get market_id (Bot.active_positions (snd r)) in
  Bot.config (snd r) = Bot.config self /\
  (after = None \/ after = before) /\
  (found_resolved get_market market_id = false -> after = before) /\
  (fst r = Return tt ->
   after = (if found_resolved get_market market_id then None else before) /\
   (is_Some before -> is_Some (get_market market_id))).
Proof.
  unfold Bot.monitor_positions.
  destruct (monitor_loop_prunes get_market analyze_market
              (Bot.active_positions self) self) as (dropped & Hc & Hp & Hd & Hr).
  cbv zeta in *. split; [exact Hc|]. rewrite Hp.
  rewrite (dict_get_filter (fun k => negb (existsb (String.eqb k) dropped))).
  assert (Hin : existsb (String.eqb market_id) dropped = true ->
                In market_id dropped).
  { intros H. apply existsb_exists in H. destruct H as (k & Hk & E).
    apply String.eqb_eq in E. subst k. exact Hk. }
  split; [|split].
  - destruct (existsb _ _); cbn; auto.
  - intros F. destruct (existsb _ _) eqn:X; [|reflexivity].
    destruct (Hd market_id (Hin eq_refl)) as [_ F']. congruence.
  - intros Hret. split.
    + destruct (existsb _ _) eqn:X; cbn [negb].
      * destruct (Hd market_id (Hin eq_refl)) as [_ ->]. reflexivity.
      * destruct (found_resolved get_market market_id) eqn:F; [|reflexivity].
        destruct (Py.dict_get market_id (Bot.active_positions self)) eqn:B;
          [|reflexivity].
        assert (K : In market_id (map fst (Bot.active_positions self))).
        { destruct (in_dec string_dec market_id
                      (map fst (Bot.active_positions self))) as [K|K]; [exact K|].
          apply dict_get_absent in K. congruence. }
        destruct (Hr Hret market_id K) as [_ Hdrop].
        assert (X' : existsb (String.eqb market_id) dropped = true).
        { apply existsb_exists. exists market_id.
          split; [auto|apply String.eqb_refl]. }
        congruence.
    + intros [d B].
      assert (K : In market_id (map fst (Bot.active_positions self))).
      { destruct (in_dec string_dec market_id
                    (map fst (Bot.active_positions self))) as [K|K]; [exact K|].
        apply dict_get_absent in K. congruence. }
      apply (Hr Hret market_id K).
Qed.

End RiskGateMore.

Lemma analyzer_decisions_are_no_witness :
  exists decision,
    Bot.evaluate_position sizing_by_confidence approve_all
      (Bot.init eager_config) (analyzer_opportunity "m1") = Some decision /\
    Bot.direction (Bot.prediction (analyzer_opportunity "m1")) = "YES"%string /\
    Bot.side decision = NO.
Proof.
  eexists. split; [vm_compute; reflexivity|]. split; [reflexivity|].
  apply (analyzer_decisions_are_no sizing_by_confidence approve_all
           (fun question : string => question) (fun _ => 0.4%Q)
           (fun _ _ _ _ =>
              {| Analyzer.c_prob_yes := 0.60%Q; Analyzer.c_confidence := 0.70%Q;
                 Analyzer.c_reasoning := "estimate"; Analyzer.c_sources := [] |})
           (listed "Will it rain in Paris tomorrow?" None None)
           (Bot.init eager_config) (analyzer_opportunity "m1")).
  - reflexivity.
  - vm_compute. reflexivity.
Defined.

Lemma manual_mode_opens_nothing_witness :
  Bot.active_positions
    (after_bot_calls (Bot.init Bot.default_config)
       [CallExecute
          {| Bot.market_id := "m1"; Bot.side := YES; Bot.d_size := 38;
             Bot.d_confidence := 0.70; Bot.d_reasoning := "estimate" |}
          (Some "filled"%string);
        CallMonitor two_markets id_length_analyzer])
  = [].
Proof.
  apply (manual_mode_opens_nothing Bot.default_config).
  reflexivity.
Defined.

Lemma executed_market_is_blocked_witness :
  exists decision,
    Bot.evaluate_position sizing_by_confidence approve_all
      (Bot.init eager_config) (opportunity_on "m1") = Some decision /\
    let self' :=
      snd (Bot.execute_trade (Bot.init eager_config) decision
             (Some "filled"%string)) in
    Py.dict_get (Bot.b_id (Bot.market (opportunity_on "m1")))
      (Bot.active_positions self')
    = Some decision /\
    List.length (Bot.active_positions self')
    = S (List.length (Bot.active_positions (Bot.init eager_config))) /\
    Bot.evaluate_position sizing_by_confidence approve_all self'
      (analyzer_opportunity "m1") = None.
Proof.
  eexists. split; [vm_compute; reflexivity|].
  apply (executed_market_is_blocked sizing_by_confidence approve_all
           (Bot.init eager_config) (opportunity_on "m1") _ "filled"
           (analyzer_opportunity "m1")).
  - vm_compute. reflexivity.
  - reflexivity.
  - reflexivity.
Defined.

(** Positions on "m1" and "m3" are open; the client finds "m1" resolved
    and "m3" open, the call returns, and the position on "m1" is gone. *)
Lemma monitor_drops_resolved_only_witness :
  let self :=
    gate_then_execute sizing_by_confidence approve_all (Bot.init eager_config)
      [opportunity_on "m1"; opportunity_on "m3"]
      (fun _ => Some "filled"%string) in
  let r := Bot.monitor_positions self two_markets id_length_analyzer in
  fst r = Return tt /\
  Py.dict_get "m1" (Bot.active_positions (snd r)) = None /\
  (is_Some (Py.dict_get "m1" (Bot.active_positions self)) ->
   is_Some (two_markets "m1")).
Proof.
  intros self r.
  assert (Hret : fst r = Return tt) by (vm_compute; reflexivity).
  split; [exact Hret|].
  exact (proj2 (proj2 (proj2
           (monitor_drops_resolved_only self two_markets id_length_analyzer "m1")))
           Hret).
Defined.

(** The client does not find the market of the second position: the
    call raises after the resolved "m1" was dropped, and "m2" and "m3"
    stay open. *)
Example monitor_raises_midway :
  let self :=
    gate_then_execute sizing_by_confidence approve_all (Bot.init eager_config)
      [opportunity_on "m1"; opportunity_on "m2"; opportunity_on "m3"]
      (fun _ => Some "filled"%string) in
  let r := Bot.monitor_positions self two_markets id_length_analyzer in
  fst r = Raise AttributeError /\
  map fst (Bot.active_positions (snd r)) = ["m2"; "m3"]%string.
Proof. vm_compute. split; reflexivity. Qed.

(** ** utils/polymarket_api.py *)

Lemma upper_ascii_idempotent c : Py.upper_ascii (Py.upper_ascii c) = Py.upper_ascii c.
Proof. destruct c as [[] [] [] [] [] [] [] []]; reflexivity. Qed.

Lemma upper_lower_ascii c : Py.upper_ascii (Py.lower_ascii c) = Py.upper_ascii c.
Proof. destruct c as [[] [] [] [] [] [] [] []]; reflexivity. Qed.

Lemma upper_idempotent s : Py.upper (Py.upper s) = Py.upper s.
Proof.
  induction s as [|c s IH]; [reflexivity|].
  cbn [Py.upper]. rewrite upper_ascii_idempotent, IH. reflexivity.
Qed.

Lemma upper_lower s : Py.upper (Py.lower s) = Py.upper s.
Proof.
  induction s as [|c s IH]; [reflexivity|].
  cbn [Py.upper Py.lower]. rewrite upper_lower_ascii, IH. reflexivity.
Qed.

(** X24.  [get_token_id] gives no token exactly when the market lists
    fewer than two; otherwise it gives one of the first two, the first
    for "yes" in any letter case and the second for every other
    outcome string. *)
Theorem get_token_id_shape ids outcome :
  (Api.get_token_id ids outcome = None
   <-> (List.length (default [] ids) < 2)%nat) /\
  Api.get_token_id ids (Py.upper outcome) = Api.get_token_id ids outcome /\
  Api.get_token_id ids (Py.lower outcome) = Api.get_token_id ids outcome /\
  (forall y n rest,
     ids = Some (y :: n :: rest) ->
     Api.get_token_id ids outcome
     = if String.eqb (Py.upper outcome) "YES" then Some y else Some n).
Proof.
  unfold Api.get_token_id. rewrite upper_idempotent, upper_lower.
  split; [|split; [reflexivity|split; [reflexivity|]]].
  - destruct (default [] ids) as [|y [|n rest]]; cbn [List.length].
    + split; [lia|reflexivity].
    + split; [lia|reflexivity].
    + destruct (String.eqb _ _); split; try discriminate; lia.
  - intros y n rest ->. reflexivity.
Qed.

Lemma get_token_id_shape_witness :
  Api.get_token_id (Some ["111"; "222"]%string) "Yes" = Some "111"%string /\
  Api.get_token_id (Some ["111"; "222"]%string) "yse" = Some "222"%string.
Proof.
  split.
  - apply (proj2 (proj2 (proj2
             (get_token_id_shape (Some ["111"; "222"]%string) "Yes")))
             "111"%string "222"%string [] eq_refl).
  - apply (proj2 (proj2 (proj2
             (get_token_id_shape (Some ["111"; "222"]%string) "yse")))
             "111"%string "222"%string [] eq_refl).
Defined.

(** ** test_prediction.py *)

Section DemoMore.

Local Open Scope Q_scope.

(** X25.  [calculate_probability] on search results that are not empty
    returns a probability within [0.05, 0.95], a confidence within
    [0.5, 0.9], the quoted odds it was given, and direction YES or NO;
    on no results it returns the quoted odds themselves, unclamped,
    with confidence 0 and direction UNKNOWN. *)
Theorem demo_probability_ranges results current_odds :
  let p := Demo.calculate_probability results current_odds in
  (results = [] ->
   Demo.dp_prob_yes p = current_odds /\ Demo.dp_confidence p = 0.0 /\
   Demo.dp_direction p = "UNKNOWN"%string /\ Demo.dp_market_odds p = None) /\
  (results <> [] ->
   0.05 <= Demo.dp_prob_yes p /\ Demo.dp_prob_yes p <= 0.95 /\
   0.5 <= Demo.dp_confidence p /\ Demo.dp_confidence p <= 0.9 /\
   Demo.dp_market_odds p = Some current_odds /\
   (Demo.dp_direction p = "YES"%string \/ Demo.dp_direction p = "NO"%string)).
Proof.
  intros p. split.
  - intros ->. cbn. auto.
  - intros Hne. destruct results as [|r results]; [congruence|].
    unfold p, Demo.calculate_probability.
    set (avg := fold_left _ _ _ / 3).
    cbn [Demo.dp_prob_yes Demo.dp_confidence Demo.dp_market_odds
         Demo.dp_direction].
    assert (Ha := Qabs_nonneg avg).
    assert (Hp : inject_Z 5 * 0.01
                 <= Qmax 0.05 (Qmin 0.95 (current_odds + avg * 0.3)) /\
                 Qmax 0.05 (Qmin 0.95 (current_odds + avg * 0.3))
                 <= inject_Z 95 * 0.01).
    { unfold inject_Z. split.
      - eapply Qle_trans; [|apply Q.le_max_l]. lra.
      - apply Q.max_lub; [lra|]. eapply Qle_trans; [apply Q.le_min_l|]. lra. }
    assert (Hc : inject_Z 50 * 0.01 <= Qmin (0.5 + Qabs avg * 0.3) 0.9 /\
                 Qmin (0.5 + Qabs avg * 0.3) 0.9 <= inject_Z 90 * 0.01).
    { unfold inject_Z. split.
      - apply Q.min_glb; lra.
      - eapply Qle_trans; [apply Q.le_min_r|]. lra. }
    destruct Hp as [Hp1 Hp2]. destruct Hc as [Hc1 Hc2].
    destruct (round2_bounds 5 95 _ Hp1 Hp2) as [P1 P2].
    destruct (round2_bounds 50 90 _ Hc1 Hc2) as [C1 C2].
    unfold inject_Z in P1, P2, C1, C2.
    repeat split; try lra.
    destruct (Qlt_le_dec _ _); auto.
Qed.

Lemma prefix_has_char c sub : forall s,
  String.prefix sub s = true -> has_char c sub = true -> has_char c s = true.
Proof.
  induction sub as [|a sub IH]; intros s Hp Hc; [discriminate|].
  destruct s as [|b s]; [discriminate|]. cbn [String.prefix] in Hp.
  destruct (ascii_dec a b) as [->|]; [|discriminate].
  cbn [has_char] in *. apply orb_true_iff in Hc. apply orb_true_iff.
  destruct Hc as [Hc|Hc]; [left; exact Hc|right; apply IH; assumption].
Qed.

Lemma contains_has_char c sub s :
  Py.contains sub s = true -> has_char c sub = true -> has_char c s = true.
Proof.
  intros Hs Hc. induction s as [|b s IH].
  - cbn [Py.contains] in Hs.
    destruct (String.prefix sub "") eqn:Hp; [|discriminate].
    eapply prefix_has_char; eassumption.
  - cbn [Py.contains] in Hs.
    destruct (String.prefix sub (String b s)) eqn:Hp.
    + eapply prefix_has_char; eassumption.
    + cbn [has_char]. apply orb_true_iff. right. apply IH. exact Hs.
Qed.

Lemma lower_has_no_capital_A s : has_char "A" (Py.lower s) = false.
Proof.
  induction s as [|c s IH]; [reflexivity|].
  cbn [Py.lower has_char]. rewrite IH, orb_false_r.
  destruct c as [[] [] [] [] [] [] [] []]; reflexivity.
Qed.

(** X26.  The keyword " ATH" of the positive list can never count: the
    text is lower-cased before the search, so at most seven of the
    eight positive keywords are ever found. *)
Theorem ath_keyword_never_counts text :
  Py.contains " ATH" (Py.lower text) = false /\
  (Py.count_in Demo.positive_words (Py.lower text) <= 7)%nat.
Proof.
  assert (H : Py.contains " ATH" (Py.lower text) = false).
  { destruct (Py.contains " ATH" (Py.lower text)) eqn:E; [|reflexivity].
    apply (contains_has_char "A") in E; [|reflexivity].
    rewrite lower_has_no_capital_A in E. discriminate. }
  split; [exact H|].
  unfold Py.count_in, Demo.positive_words. cbn [List.filter]. rewrite H.
  repeat match goal with
         | |- context [Py.contains ?w ?t] => destruct (Py.contains w t)
         end; cbn; lia.
Qed.

End DemoMore.

Lemma demo_probability_ranges_witness :
  let p :=
    Demo.calculate_probability
      [ {| Demo.title := Some "Analyst predicts BTC rally"%string;
           Demo.snippet := Some "Bullish momentum expected"%string |};
        {| Demo.title := Some "Market shows strength"%string;
           Demo.snippet := Some "Technical indicators positive"%string |} ]
      0.35 in
  (0.05 <= Demo.dp_prob_yes p)%Q /\ (Demo.dp_prob_yes p <= 0.95)%Q /\
  (0.5 <= Demo.dp_confidence p)%Q /\ (Demo.dp_confidence p <= 0.9)%Q /\
  Demo.dp_market_odds p = Some 0.35%Q /\
  (Demo.dp_direction p = "YES"%string \/ Demo.dp_direction p = "NO"%string).
Proof.
  apply (demo_probability_ranges
           [ {| Demo.title := Some "Analyst predicts BTC rally"%string;
                Demo.snippet := Some "Bullish momentum expected"%string |};
             {| Demo.title := Some "Market shows strength"%string;
                Demo.snippet := Some "Technical indicators positive"%string |} ]
           0.35%Q).
  discriminate.
Defined.

(** The demonstration of the script: two mock results at odds 0.35
    give 45%, confidence 0.6, direction YES. *)
Example demo_on_mock_results :
  let p :=
    Demo.calculate_probability
      [ {| Demo.title := Some "Analyst predicts BTC rally"%string;
           Demo.snippet := Some "Bullish momentum expected"%string |};
        {| Demo.title := Some "Market shows strength"%string;
           Demo.snippet := Some "Technical indicators positive"%string |} ]
      0.35 in
  (Demo.dp_prob_yes p == 0.45)%Q /\ (Demo.dp_confidence p == 0.6)%Q /\
  Demo.dp_direction p = "YES"%string.
Proof. vm_compute. repeat split. Qed.

(** ** Queries and keywords *)

Section QueryShape.

Lemma has_char_append c a b :
  has_char c (String.append a b) = has_char c a || has_char c b.
Proof.
  induction a as [|x a IH]; [reflexivity|].
  rewrite append_cons. cbn [has_char]. rewrite IH. apply orb_assoc.
Qed.

(** A replacement brings in no character beyond those of the text and
    of the new string. *)
Lemma replace_from_chars c old new s : forall skip,
  has_char c (Py.replace_from old new skip s) = true ->
  has_char c s = true \/ has_char c new = true.
Proof.
  induction s as [|a s IH]; intros skip H; [discriminate|].
  cbn [Py.replace_from] in H. destruct skip as [|k].
  - destruct (String.prefix old (String a s)).
    + rewrite has_char_append in H. apply orb_true_iff in H.
      destruct H as [H|H]; [right; exact H|].
      apply IH in H. destruct H as [H|H]; [left|right; exact H].
      cbn [has_char]. rewrite H. apply orb_true_r.
    + cbn [has_char] in H |- *. apply orb_true_iff in H.
      destruct H as [H|H]; [left; rewrite H; reflexivity|].
      apply IH in H. destruct H as [H|H]; [left|right; exact H].
      rewrite H. apply orb_true_r.
  - apply IH in H. destruct H as [H|H]; [left|right; exact H].
    cbn [has_char]. rewrite H. apply orb_true_r.
Qed.

Lemma replace_keeps_absent c old s :
  has_char c s = false -> has_char c " " = false ->
  has_char c (Py.replace old " " s) = false.
Proof.
  intros Hs Hn. destruct (has_char c (Py.replace old " " s)) eqn:E;
    [|reflexivity].
  apply replace_from_chars in E. destruct E; congruence.
Qed.

(** Replacing a character by a space leaves none of it. *)
Lemma replace_char_removes c s :
  has_char c " " = false ->
  has_char c (Py.replace (String c EmptyString) " " s) = false.
Proof.
  intros Hn. unfold Py.replace. induction s as [|a s IH]; [reflexivity|].
  cbn [Py.replace_from String.prefix String.length Nat.sub].
  destruct (ascii_dec c a) as [->|N].
  - assert (E : String.prefix "" s = true) by (destruct s; reflexivity).
    rewrite E, has_char_append, Hn, IH. reflexivity.
  - cbn [has_char]. rewrite IH, orb_false_r.
    apply Ascii.eqb_neq. congruence.
Qed.

Lemma lstrip_chars c s : has_char c (Py.lstrip s) = true -> has_char c s = true.
Proof.
  induction s as [|a s IH]; [discriminate|]. cbn [Py.lstrip has_char].
  destruct (Py.is_space a); [|auto].
  intros H. rewrite (IH H). apply orb_true_r.
Qed.

Lemma rstrip_chars c s : has_char c (Py.rstrip s) = true -> has_char c s = true.
Proof.
  induction s as [|a s IH]; [discriminate|]. cbn [Py.rstrip].
  destruct (Py.rstrip s) as [|b r] eqn:E.
  - destruct (Py.is_space a); [discriminate|].
    cbn [has_char]. rewrite orb_false_r. intros ->. reflexivity.
  - cbn [has_char] in *. intros H. apply orb_true_iff in H.
    destruct H as [H|H]; [rewrite H; reflexivity|].
    rewrite (IH H). apply orb_true_r.
Qed.

Lemma substring0_chars c n : forall s,
  has_char c (String.substring 0 n s) = true -> has_char c s = true.
Proof.
  induction n as [|n IH]; intros s H.
  - destruct s; discriminate.
  - destruct s as [|a s]; [discriminate|]. cbn [String.substring has_char] in *.
    apply orb_true_iff in H. destruct H as [H|H]; [rewrite H; reflexivity|].
    rewrite (IH s H). apply orb_true_r.
Qed.

Lemma substring0_length n : forall s,
  (String.length (String.substring 0 n s) <= n)%nat.
Proof.
  induction n as [|n IH]; intros s.
  - destruct s; cbn; lia.
  - destruct s as [|a s]; [cbn; lia|].
    cbn [String.substring String.length]. specialize (IH s). lia.
Qed.

Lemma context_chars c category text :
  TavilyPredictor.context category = Some text ->
  Ascii.eqb c "?" || Ascii.eqb c "$" || Ascii.eqb c "%" = true ->
  has_char c text = false.
Proof.
  unfold TavilyPredictor.context. intros H Hc.
  assert (Hcases : c = "?"%char \/ c = "$"%char \/ c = "%"%char).
  { apply orb_true_iff in Hc. destruct Hc as [Hc|Hc];
      [apply orb_true_iff in Hc; destruct Hc as [Hc|Hc]|];
      apply Ascii.eqb_eq in Hc; auto. }
  repeat match type of H with
         | (if ?b then _ else _) = _ => destruct b
         end; try discriminate; injection H as <-;
    destruct Hcases as [->|[->| ->]]; reflexivity.
Qed.

(** X27.  The search query is at most 100 characters long and holds
    none of the characters "?", "$" and "%", whatever the question and
    the category. *)
Theorem build_query_shape question category :
  (String.length (TavilyPredictor._build_query question category) <= 100)%nat /\
  has_char "?" (TavilyPredictor._build_query question category) = false /\
  has_char "$" (TavilyPredictor._build_query question category) = false /\
  has_char "%" (TavilyPredictor._build_query question category) = false.
Proof.
  split; [apply substring0_length|].
  assert (H : forall c,
            Ascii.eqb c "?" || Ascii.eqb c "$" || Ascii.eqb c "%" = true ->
            has_char c (TavilyPredictor._build_query question category) = false).
  { intros c Hc.
    assert (Hsp : has_char c " " = false).
    { apply orb_true_iff in Hc. destruct Hc as [Hc|Hc];
        [apply orb_true_iff in Hc; destruct Hc as [Hc|Hc]|];
        apply Ascii.eqb_eq in Hc; subst c; reflexivity. }
    destruct (has_char c (TavilyPredictor._build_query question category))
      eqn:E; [|reflexivity].
    unfold TavilyPredictor._build_query, Py.take, Py.strip in E.
    apply substring0_chars, rstrip_chars, lstrip_chars in E.
    assert (Hq : has_char c
                   (fold_left (fun query word => Py.replace word " " query)
                      TavilyPredictor.stopwords (Py.lower question)) = false).
    { unfold TavilyPredictor.stopwords. cbn [fold_left].
      apply orb_true_iff in Hc. destruct Hc as [Hc|Hc];
        [apply orb_true_iff in Hc; destruct Hc as [Hc|Hc]|];
        apply Ascii.eqb_eq in Hc; subst c.
      - apply replace_keeps_absent; [|reflexivity].
        apply replace_keeps_absent; [|reflexivity].
        apply replace_char_removes. reflexivity.
      - apply replace_keeps_absent; [|reflexivity].
        apply replace_char_removes. reflexivity.
      - apply replace_char_removes. reflexivity. }
    destruct (TavilyPredictor.context category) as [ctx|] eqn:C.
    - rewrite !has_char_append, Hq, Hsp, (context_chars c category ctx C Hc) in E.
      discriminate.
    - congruence. }
  repeat split; apply H; reflexivity.
Qed.

End QueryShape.

Section Keywords.

Local Open Scope Q_scope.

Lemma count_in_found w words text :
  In w words -> Py.contains w text = true ->
  (1 <= Py.count_in words text)%nat.
Proof.
  unfold Py.count_in. induction words as [|x words IH]; [intros []|].
  intros [->|Hin] Hc.
  - cbn [List.filter]. rewrite Hc. cbn. lia.
  - cbn [List.filter]. specialize (IH Hin Hc).
    destruct (Py.contains x text); cbn [List.length]; lia.
Qed.

Lemma prefix_unlikely s :
  String.prefix "unlikely" s = true ->
  exists a b r,
    s = String a (String b r) /\ String.prefix "likely" r = true.
Proof.
  destruct s as [|a [|b r]]; cbn [String.prefix].
  - discriminate.
  - destruct (ascii_dec _ _); discriminate.
  - destruct (ascii_dec _ a); [|discriminate].
    destruct (ascii_dec _ b); [|discriminate].
    intros H. exists a, b, r. split; [reflexivity|].
    destruct r as [|c0 r]; [discriminate|]. exact H.
Qed.

Lemma contains_step sub a s :
  Py.contains sub s = true -> Py.contains sub (String a s) = true.
Proof.
  intros H. cbn [Py.contains]. destruct (String.prefix sub (String a s)); auto.
Qed.

Lemma contains_of_prefix sub s :
  String.prefix sub s = true -> Py.contains sub s = true.
Proof. intros H. destruct s; cbn [Py.contains]; rewrite H; reflexivity. Qed.

(** Keywords are matched as substrings: where "unlikely" occurs,
    "likely" occurs too. *)
Lemma unlikely_holds_likely s :
  Py.contains "unlikely" s = true -> Py.contains "likely" s = true.
Proof.
  induction s as [|a s IH]; cbn [Py.contains].
  - destruct (String.prefix "unlikely" "") eqn:E; discriminate.
  - destruct (String.prefix "unlikely" (String a s)) eqn:E.
    + intros _. apply prefix_unlikely in E.
      destruct E as (a' & b & r & [= -> ->] & Hp).
      fold (Py.contains "likely" (String a' (String b r))).
      apply contains_step, contains_step, contains_of_prefix. exact Hp.
    + intros H. fold (Py.contains "likely" (String a s)).
      apply contains_step, IH. exact H.
Qed.

(** X28.  A text in which "unlikely" occurs is counted on both sides,
    once as bearish and once as bullish for the "likely" inside it: its
    score is strictly between -1 and 1. *)
Theorem unlikely_counts_both_ways text :
  Py.contains "unlikely" (Py.lower text) = true ->
  (1 <= Py.count_in TavilyPredictor.bullish (Py.lower text))%nat /\
  (1 <= Py.count_in TavilyPredictor.bearish (Py.lower text))%nat /\
  -1 < TavilyPredictor._analyze_sentiment text /\
  TavilyPredictor._analyze_sentiment text < 1.
Proof.
  intros H.
  assert (Hp : (1 <= Py.count_in TavilyPredictor.bullish (Py.lower text))%nat).
  { apply (count_in_found "likely"); [|apply unlikely_holds_likely; exact H].
    unfold TavilyPredictor.bullish. cbn. tauto. }
  assert (Hn : (1 <= Py.count_in TavilyPredictor.bearish (Py.lower text))%nat).
  { apply (count_in_found "unlikely"); [|exact H].
    unfold TavilyPredictor.bearish. cbn. tauto. }
  split; [exact Hp|]. split; [exact Hn|].
  unfold TavilyPredictor._analyze_sentiment.
  set (pos := Py.count_in TavilyPredictor.bullish (Py.lower text)) in *.
  set (neg := Py.count_in TavilyPredictor.bearish (Py.lower text)) in *.
  set (d := Z.of_nat (Nat.max (pos + neg) 1)).
  assert (Hd : 0 < inject_Z d)
    by (change 0 with (inject_Z 0); rewrite <- Zlt_Qlt; unfold d; lia).
  assert (H1 : (- d < Z.of_nat pos - Z.of_nat neg)%Z) by (unfold d; lia).
  assert (H2 : (Z.of_nat pos - Z.of_nat neg < d)%Z) by (unfold d; lia).
  rewrite Zlt_Qlt in H1, H2. rewrite inject_Z_opp in H1.
  split.
  - apply Qlt_shift_div_l; [exact Hd|]. lra.
  - apply Qlt_shift_div_r; [exact Hd|]. lra.
Qed.

End Keywords.

Lemma unlikely_counts_both_ways_witness :
  (1 <= Py.count_in TavilyPredictor.bullish
          (Py.lower "A rate cut is unlikely."))%nat /\
  (1 <= Py.count_in TavilyPredictor.bearish
          (Py.lower "A rate cut is unlikely."))%nat /\
  (-1 < TavilyPredictor._analyze_sentiment "A rate cut is unlikely.")%Q /\
  (TavilyPredictor._analyze_sentiment "A rate cut is unlikely." < 1)%Q.
Proof.
  apply (unlikely_counts_both_ways "A rate cut is unlikely.").
  vm_compute. reflexivity.
Defined.

Lemma stats_are_consistent_witness :
  PaperTraderV1.win_rate
    (fst (PaperTraderV1.get_stats
            (trader_on tt [Trader.new_row sample_trade] 2026)))
  = 0%Q.
Proof.
  apply (stats_are_consistent (trader_on tt [Trader.new_row sample_trade] 2026)).
  reflexivity.
Defined.
